(** * MediCheck AI: the LangGraph medical workflow, embedded and verified

    The development follows the Python sources:
    - [utils.py]            [deduplicate_search_results]
    - [medical_state.py]    the [MedicalState] record and its merge
    - [medical_agents.py]   the six graph nodes and [should_escalate]
    - [medical_workflow.py] the graph [medcheck_builder] and its execution

    Python strings are sequences of code points.  Here a string is a Rocq
    [string] whose characters are read as the code points 0..255; the
    character classes below are Python's on that range (the [re] module
    matches [str] patterns with the Unicode tables, so a word character is
    any alphanumeric code point or the underscore). *)

From Stdlib Require Import String Ascii List Bool Arith Lia.
From Stdlib Require Import Decimal DecimalString.
Import ListNotations.
Open Scope string_scope.
Open Scope nat_scope.

(** ** Python string primitives *)

Module PyStr.

Definition ord (c : ascii) : nat := nat_of_ascii c.

Definition in_range (lo hi : nat) (c : ascii) : bool :=
  (lo <=? ord c) && (ord c <=? hi).

(** [str.isspace] on one character; also the class [\s] of [re]. *)
Definition isspace (c : ascii) : bool :=
  in_range 9 13 c || in_range 28 32 c || (ord c =? 133) || (ord c =? 160).

(** The ASCII part of the class [\w]: [A-Za-z0-9_]. *)
Definition is_ascii_word (c : ascii) : bool :=
  in_range 48 57 c || in_range 65 90 c || in_range 97 122 c || (ord c =? 95).

(** The class [\w] of [re] for a [str] pattern: alphanumeric or underscore. *)
Definition is_word (c : ascii) : bool :=
  is_ascii_word c
  || (ord c =? 170) || in_range 178 179 c || (ord c =? 181)
  || in_range 185 186 c || in_range 188 190 c
  || in_range 192 214 c || in_range 216 246 c || in_range 248 255 c.

Definition is_ascii (c : ascii) : bool := ord c <? 128.

Fixpoint forallb_str (p : ascii -> bool) (s : string) : bool :=
  match s with
  | EmptyString => true
  | String c r => p c && forallb_str p r
  end.

Fixpoint filter_str (p : ascii -> bool) (s : string) : string :=
  match s with
  | EmptyString => EmptyString
  | String c r => if p c then String c (filter_str p r) else filter_str p r
  end.

Fixpoint map_str (f : ascii -> ascii) (s : string) : string :=
  match s with
  | EmptyString => EmptyString
  | String c r => String (f c) (map_str f r)
  end.

(** The slice [s[:n]]. *)
Fixpoint slice_to (n : nat) (s : string) : string :=
  match n, s with
  | S k, String c r => String c (slice_to k r)
  | _, _ => EmptyString
  end.

(** [str.lower], one character. *)
Definition lower_char (c : ascii) : ascii :=
  if in_range 65 90 c || in_range 192 214 c || in_range 216 222 c
  then ascii_of_nat (ord c + 32) else c.

Definition lower (s : string) : string := map_str lower_char s.

Fixpoint lstrip (s : string) : string :=
  match s with
  | EmptyString => EmptyString
  | String c r => if isspace c then lstrip r else s
  end.

(** [rstrip] drops the trailing white space: a character is kept when it
    is not white space or when something is kept after it. *)
Fixpoint rstrip (s : string) : string :=
  match s with
  | EmptyString => EmptyString
  | String c r =>
      match rstrip r with
      | EmptyString => if isspace c then EmptyString else String c EmptyString
      | kept => String c kept
      end
  end.

(** [str.strip()] with no argument. *)
Definition strip (s : string) : string := rstrip (lstrip s).

(** Truth value of a string: [not s] holds for the empty string only. *)
Definition truthy (s : string) : bool :=
  match s with EmptyString => false | _ => true end.

(** [x in l] for a list of strings. *)
Definition mem (x : string) (l : list string) : bool :=
  existsb (String.eqb x) l.

(** [str(i)] for a non-negative integer. *)
Definition str_nat (n : nat) : string := NilZero.string_of_uint (Nat.to_uint n).

(** [str.join]. *)
Fixpoint join (sep : string) (l : list string) : string :=
  match l with
  | [] => EmptyString
  | [x] => x
  | x :: r => x ++ sep ++ join sep r
  end.

End PyStr.

(** ** The two substitutions of the report file name *)

Module Re.
Import PyStr.

(** The class [[^\w\s-]] matches what [keep_char] rejects. *)
Definition keep_char (c : ascii) : bool :=
  is_word c || isspace c || Ascii.eqb c "-"%char.

(** The class [[-\s]]. *)
Definition sep_char (c : ascii) : bool :=
  Ascii.eqb c "-"%char || isspace c.

(** [re.sub(r'[^\w\s-]', '', s)]: every matching character is deleted. *)
Definition sub_remove (s : string) : string := filter_str keep_char s.

(** [re.sub(r'[-\s]+', '_', s)]: scanning from the left, a match starts at
    the first separator and, the quantifier being greedy, runs over all the
    separators that follow; the whole match is replaced by one underscore.
    [sub_runs] is the scanner outside a match, [in_run] inside one. *)
Fixpoint sub_runs (s : string) : string :=
  match s with
  | EmptyString => EmptyString
  | String c r =>
      if sep_char c then String "_"%char (in_run r) else String c (sub_runs r)
  end
with in_run (s : string) : string :=
  match s with
  | EmptyString => EmptyString
  | String c r =>
      if sep_char c then in_run r else String c (sub_runs r)
  end.

End Re.

(** ** Python values, dictionaries and exceptions *)

(** The values the nodes store under the keys of the inner dictionaries
    ([symptom_analysis], [recommendations], [escalation_advice]). *)
Inductive pyval : Type :=
| PNone
| PStr (s : string)
| PList (l : list string).

(** A Python [dict] with string keys, in insertion order. *)
Definition dict (V : Type) : Type := list (string * V).

Module Dict.

Fixpoint lookup {V} (d : dict V) (k : string) : option V :=
  match d with
  | [] => None
  | (k', v) :: r => if String.eqb k k' then Some v else lookup r k
  end.

(** [k in d]. *)
Definition contains {V} (d : dict V) (k : string) : bool :=
  match lookup d k with Some _ => true | None => false end.

(** [d.get(k, default)]. *)
Definition get {V} (d : dict V) (k : string) (default : V) : V :=
  match lookup d k with Some v => v | None => default end.

(** [d[k] = v]: a present key keeps its place, a new key goes last. *)
Fixpoint set {V} (d : dict V) (k : string) (v : V) : dict V :=
  match d with
  | [] => [(k, v)]
  | (k', v') :: r =>
      if String.eqb k k' then (k', v) :: r else (k', v') :: set r k v
  end.

Definition keys {V} (d : dict V) : list string := map fst d.

(** Truth value of a dictionary: [not d] holds for the empty one only. *)
Definition truthy {V} (d : dict V) : bool :=
  match d with [] => false | _ => true end.

End Dict.

Inductive exn : Type :=
| TypeError
| AttributeError
| ValidationError
| GraphRecursionError.

(** ** models.py *)

Module Models.

(** [Literal["low", "moderate", "urgent"]] *)
Inductive Urgency : Type := low | moderate | urgent.

Definition urgency_str (u : Urgency) : string :=
  match u with
  | low => "low"
  | moderate => "moderate"
  | urgent => "urgent"
  end.

Record SymptomAnalysis : Type := {
  symptom_summary : string;
  possible_conditions : list string;
  urgency_level : Urgency;
  reasoning : string
}.

Record PatientRecommendation : Type := {
  immediate_actions : list string;
  general_care : list string;
  when_to_seek_help : string;
  follow_up : option string
}.

Record EscalationAdvice : Type := {
  urgency_message : string;
  immediate_action : string;
  warning_signs : list string;
  emergency_contact : string
}.

End Models.

(** ** medical_state.py *)

Inductive message : Type :=
| HumanMessage (content : string)
| AIMessage (content : string).

Definition content_of (m : message) : string :=
  match m with HumanMessage c => c | AIMessage c => c end.

(** [MedicalState]: a [TypedDict]; a field that is [None] here is a key the
    dictionary does not have.  The nodes return values of the same type,
    holding only the keys they write. *)
Record MedicalState : Type := {
  messages : list message;
  symptoms : option string;
  medical_history : option string;
  symptom_analysis : option (dict pyval);
  medical_research : option string;
  recommendations : option (dict pyval);
  escalation_advice : option (dict pyval);
  urgency_level : option string;
  final_report : option string;
  report_filepath : option string
}.

(** The dictionary [{"messages": msgs}]. *)
Definition only_messages (msgs : list message) : MedicalState :=
  {| messages := msgs; symptoms := None; medical_history := None;
     symptom_analysis := None; medical_research := None;
     recommendations := None; escalation_advice := None;
     urgency_level := None; final_report := None; report_filepath := None |}.

(** [state.get(key, default)] on a field. *)
Definition get_or {A} (field : option A) (default : A) : A :=
  match field with Some v => v | None => default end.

(** A written key replaces the stored value. *)
Definition overwrite {A} (old new : option A) : option A :=
  match new with Some v => Some v | None => old end.

(** The state update LangGraph applies after a node: [messages] is the one
    field annotated with a reducer ([add_messages], which appends the new
    messages); every other key of the update replaces the stored value. *)
Definition merge (st upd : MedicalState) : MedicalState :=
  {| messages := messages st ++ messages upd;
     symptoms := overwrite (symptoms st) (symptoms upd);
     medical_history := overwrite (medical_history st) (medical_history upd);
     symptom_analysis := overwrite (symptom_analysis st) (symptom_analysis upd);
     medical_research := overwrite (medical_research st) (medical_research upd);
     recommendations := overwrite (recommendations st) (recommendations upd);
     escalation_advice :=
       overwrite (escalation_advice st) (escalation_advice upd);
     urgency_level := overwrite (urgency_level st) (urgency_level upd);
     final_report := overwrite (final_report st) (final_report upd);
     report_filepath := overwrite (report_filepath st) (report_filepath upd) |}.

(** ** Node computations

    A node body may return, call [interrupt], raise, and write a file.  It
    is a function of the resume value the scheduler holds for it ([None] on
    a first entry). *)

Inductive outcome (A : Type) : Type :=
| Return (a : A) (files : list (string * string))
| GraphInterrupt (payload : string)
| Raise (e : exn).
Arguments Return {A} a files.
Arguments GraphInterrupt {A} payload.
Arguments Raise {A} e.

Definition M (A : Type) : Type := option string -> outcome A.

Definition ret {A} (a : A) : M A := fun _ => Return a [].

Definition bind {A B} (m : M A) (k : A -> M B) : M B :=
  fun resume =>
    match m resume with
    | Return a files =>
        match k a resume with
        | Return b files' => Return b (files ++ files')
        | GraphInterrupt p => GraphInterrupt p
        | Raise e => Raise e
        end
    | GraphInterrupt p => GraphInterrupt p
    | Raise e => Raise e
    end.

Definition raise {A} (e : exn) : M A := fun _ => Raise e.

(** [langgraph.types.interrupt]: without a resume value the node stops
    with the payload; re-entered with one, the call returns it. *)
Definition interrupt (payload : string) : M string :=
  fun resume =>
    match resume with
    | Some v => Return v []
    | None => GraphInterrupt payload
    end.

(** [open(path, 'w').write(content)] *)
Definition write_file (path content : string) : M unit :=
  fun _ => Return tt [(path, content)].

Declare Scope node_scope.
Delimit Scope node_scope with node.
Notation "x <- m ;; k" := (bind m (fun x => k))
  (at level 61, m at next level, right associativity) : node_scope.
Notation "m ;;; k" := (bind m (fun _ => k))
  (at level 61, right associativity) : node_scope.

(** The operand of [str + v] must be a string. *)
Definition as_str (v : pyval) : M string :=
  match v with
  | PStr s => ret s
  | _ => raise TypeError
  end.

(** [for x in v]: a list gives its items, a string its characters. *)
Definition py_iter (v : pyval) : M (list string) :=
  match v with
  | PList l => ret l
  | PStr s => ret (map (fun c => String c EmptyString) (list_ascii_of_string s))
  | PNone => raise TypeError
  end.

(** Validation of the keyword arguments of the pydantic models. *)
Module Validate.

Definition str (v : pyval) : M string :=
  match v with PStr s => ret s | _ => raise ValidationError end.

Definition opt_str (v : pyval) : M (option string) :=
  match v with
  | PStr s => ret (Some s)
  | PNone => ret None
  | PList _ => raise ValidationError
  end.

Definition str_list (v : pyval) : M (list string) :=
  match v with PList l => ret l | _ => raise ValidationError end.

Definition urgency (v : pyval) : M Models.Urgency :=
  match v with
  | PStr s =>
      if String.eqb s "low" then ret Models.low
      else if String.eqb s "moderate" then ret Models.moderate
      else if String.eqb s "urgent" then ret Models.urgent
      else raise ValidationError
  | _ => raise ValidationError
  end.

End Validate.

(** ** The collaborators of the nodes *)

(** One entry of [response.tool_calls]. *)
Record tool_call : Type := {
  tc_name : string;
  tc_args : dict string
}.

Record datetime : Type := {
  year : nat; month : nat; day : nat;
  hour : nat; minute : nat; second : nat
}.

(** What the nodes call and do not define: the language model with its
    tools bound, the four tools of [tools.py], two built-ins of Python
    ([repr] and [str.upper] on strings), and the two readings of the clock
    that [generate_medical_report] takes. *)
Record Env : Type := {
  tool_enabled_llm : string -> list tool_call;
  analyze_symptoms : dict string -> Models.SymptomAnalysis;
  tavily_search : dict string -> string;
  create_recommendations :
    Models.SymptomAnalysis -> Models.PatientRecommendation;
  create_escalation_advice :
    Models.SymptomAnalysis -> Models.PatientRecommendation ->
    Models.EscalationAdvice;
  repr_str : string -> string;
  upper : string -> string;
  now_report : datetime;
  now_filename : datetime
}.

Definition nl : string := String (ascii_of_nat 10) EmptyString.

(** [str.zfill] of a number. *)
Definition zfill (width n : nat) : string :=
  let digits := PyStr.str_nat n in
  PyStr.join EmptyString (repeat "0"%string (width - String.length digits))
  ++ digits.

(** [strftime("%Y-%m-%d %H:%M:%S")] *)
Definition strftime_report (d : datetime) : string :=
  zfill 4 (year d) ++ "-" ++ zfill 2 (month d) ++ "-" ++ zfill 2 (day d)
  ++ " " ++ zfill 2 (hour d) ++ ":" ++ zfill 2 (minute d)
  ++ ":" ++ zfill 2 (second d).

(** [strftime("%Y%m%d_%H%M%S")] *)
Definition strftime_filename (d : datetime) : string :=
  zfill 4 (year d) ++ zfill 2 (month d) ++ zfill 2 (day d)
  ++ "_" ++ zfill 2 (hour d) ++ zfill 2 (minute d) ++ zfill 2 (second d).

(** The symptom part of the report file name (medical_agents.py, 350-351). *)
Definition symptom_preview (symptoms : string) : string :=
  Re.sub_runs (Re.sub_remove (PyStr.slice_to 30 symptoms)).

(** The report file name (medical_agents.py, 353). *)
Definition report_filename (timestamp symptoms : string) : string :=
  "medical_analysis_" ++ timestamp ++ "_" ++ symptom_preview symptoms ++ ".md".

(** [os.path.join("medical_reports", filename)] *)
Definition report_path (filename : string) : string :=
  "medical_reports/" ++ filename.

(** The conversions "to dict for state storage" of the three nodes that
    store the result of a tool. *)
Definition analysis_dict (analysis_result : Models.SymptomAnalysis)
  : dict pyval :=
  [("symptom_summary", PStr (Models.symptom_summary analysis_result));
   ("possible_conditions", PList (Models.possible_conditions analysis_result));
   ("urgency_level",
    PStr (Models.urgency_str (Models.urgency_level analysis_result)));
   ("reasoning", PStr (Models.reasoning analysis_result))].

Definition recommendations_dict
    (recommendations_result : Models.PatientRecommendation) : dict pyval :=
  [("immediate_actions",
    PList (Models.immediate_actions recommendations_result));
   ("general_care", PList (Models.general_care recommendations_result));
   ("when_to_seek_help",
    PStr (Models.when_to_seek_help recommendations_result));
   ("follow_up",
    match Models.follow_up recommendations_result with
    | Some f => PStr f
    | None => PNone
    end)].

Definition escalation_dict (response : Models.EscalationAdvice) : dict pyval :=
  [("urgency_message", PStr (Models.urgency_message response));
   ("immediate_action", PStr (Models.immediate_action response));
   ("warning_signs", PList (Models.warning_signs response));
   ("emergency_contact", PStr (Models.emergency_contact response))].

(** The state with its messages replaced. *)
Definition set_messages (msgs : list message) (st : MedicalState)
  : MedicalState :=
  {| messages := msgs;
     symptoms := symptoms st; medical_history := medical_history st;
     symptom_analysis := symptom_analysis st;
     medical_research := medical_research st;
     recommendations := recommendations st;
     escalation_advice := escalation_advice st;
     urgency_level := urgency_level st;
     final_report := final_report st;
     report_filepath := report_filepath st |}.

(** ** medical_agents.py *)

Section Nodes.

Context (env : Env).

Local Open Scope node_scope.

(** [repr] of a stored value, and [str] of a value and of a dictionary. *)
Definition py_repr (v : pyval) : string :=
  match v with
  | PNone => "None"
  | PStr s => repr_str env s
  | PList l => "[" ++ PyStr.join ", " (map (repr_str env) l) ++ "]"
  end.

Definition py_str (v : pyval) : string :=
  match v with
  | PStr s => s
  | _ => py_repr v
  end.

Definition str_dict (d : dict pyval) : string :=
  "{"
  ++ PyStr.join ", "
       (map (fun kv => repr_str env (fst kv) ++ ": " ++ py_repr (snd kv)) d)
  ++ "}".

Definition collect_patient_info (state : MedicalState) : M MedicalState :=
  match last (map Some (messages state)) None with
  | Some latest_message =>
      let content := content_of latest_message in
      ret {| messages :=
               [AIMessage "Patient information collected successfully"];
             symptoms := Some content;
             medical_history :=
               Some (get_or (medical_history state)
                       "No medical history provided");
             symptom_analysis := None; medical_research := None;
             recommendations := None; escalation_advice := None;
             urgency_level := None; final_report := None;
             report_filepath := None |}
  | None => ret (only_messages [AIMessage "No patient information found"])
  end.

(** The loop over [response.tool_calls] of [analyze_symptoms_node]: the
    last [analyze_symptoms] call gives the result, every [tavily_search]
    call adds a line of research. *)
Definition analysis_tool_calls (calls : list tool_call)
  : option Models.SymptomAnalysis * string :=
  fold_left
    (fun acc tc =>
       if String.eqb (tc_name tc) "analyze_symptoms"
       then (Some (analyze_symptoms env (tc_args tc)), snd acc)
       else if String.eqb (tc_name tc) "tavily_search"
       then (fst acc,
             snd acc ++ "Research: " ++ tavily_search env (tc_args tc) ++ nl)
       else acc)
    calls (None, EmptyString).

Definition analyze_symptoms_node (state : MedicalState) : M MedicalState :=
  let symptoms_ := get_or (symptoms state) "" in
  let medical_history_ :=
    get_or (medical_history state) "No medical history provided" in
  if negb (PyStr.truthy symptoms_)
  then ret (only_messages [AIMessage "No symptoms provided for analysis"])
  else
    let analysis_prompt :=
      "You are a medical analysis assistant. Analyze the following patient symptoms and medical history. "
      ++ "You have access to search tools if you need additional medical information to make a proper assessment. "
      ++ "Use the analyze_symptoms tool to provide a structured analysis, and use tavily_search if you need "
      ++ "to look up specific medical conditions, treatments, or diagnostic criteria." ++ nl ++ nl
      ++ "Patient Symptoms: " ++ symptoms_ ++ nl
      ++ "Medical History: " ++ medical_history_ ++ nl ++ nl
      ++ "Please provide a comprehensive symptom analysis." in
    let response := tool_enabled_llm env analysis_prompt in
    let parsed := analysis_tool_calls response in
    let research_info := snd parsed in
    let analysis_result :=
      match fst parsed with
      | Some r => r
      | None =>
          analyze_symptoms env
            [("symptoms", symptoms_); ("medical_history", medical_history_)]
      end in
    let urgency := Models.urgency_str (Models.urgency_level analysis_result) in
    ret {| messages :=
             [AIMessage
                ("Intelligent symptom analysis completed. Urgency level: "
                 ++ urgency)];
           symptoms := None; medical_history := None;
           symptom_analysis := Some (analysis_dict analysis_result);
           medical_research :=
             Some (if PyStr.truthy research_info then research_info
                   else "No additional research needed");
           recommendations := None; escalation_advice := None;
           urgency_level := Some urgency;
           final_report := None; report_filepath := None |}.

(** The prompt shown to the patient (medical_agents.py, 128-135). *)
Definition interrupt_message (analysis : dict pyval) : M string :=
  summary <- as_str (Dict.get analysis "symptom_summary" (PStr "N/A")) ;;
  urgency <- as_str (Dict.get analysis "urgency_level" (PStr "N/A")) ;;
  ret ("Based on the symptom analysis, do you have relevant medical history "
       ++ "(medications, conditions, allergies, surgeries, family history) "
       ++ "that might help improve the recommendations?" ++ nl ++ nl
       ++ "Current analysis:" ++ nl
       ++ "- Summary: " ++ summary ++ nl
       ++ "- Urgency: " ++ urgency ++ nl
       ++ "- Possible conditions: "
       ++ py_str (Dict.get analysis "possible_conditions" (PList []))
       ++ nl ++ nl
       ++ "Enter your medical history (or 'no'/'none' if not applicable):").

Definition collect_medical_history (state : MedicalState) : M MedicalState :=
  let analysis := get_or (symptom_analysis state) [] in
  if negb (Dict.truthy analysis)
  then ret (only_messages
              [AIMessage
                 "No symptom analysis available for medical history collection"])
  else
    payload <- interrupt_message analysis ;;
    user_input <- interrupt payload ;;
    if PyStr.truthy user_input
       && negb (PyStr.mem (PyStr.lower (PyStr.strip user_input))
                  ["no"; "none"; "n/a"; ""])
    then
      let medical_history_ := PyStr.strip user_input in
      ret {| messages :=
               [AIMessage ("Medical history collected: " ++ medical_history_)];
             symptoms := None;
             medical_history := Some medical_history_;
             symptom_analysis := None; medical_research := None;
             recommendations := None; escalation_advice := None;
             urgency_level := None; final_report := None;
             report_filepath := None |}
    else
      ret {| messages := [AIMessage "No additional medical history provided"];
             symptoms := None;
             medical_history := Some "No additional medical history provided";
             symptom_analysis := None; medical_research := None;
             recommendations := None; escalation_advice := None;
             urgency_level := None; final_report := None;
             report_filepath := None |}.

(** [SymptomAnalysis(symptom_summary=analysis.get(...), ...)] with the
    default the caller gives for a missing urgency. *)
Definition symptom_analysis_obj (analysis : dict pyval)
    (default_urgency : string) : M Models.SymptomAnalysis :=
  summary <- Validate.str (Dict.get analysis "symptom_summary" (PStr "")) ;;
  conditions <-
    Validate.str_list (Dict.get analysis "possible_conditions" (PList [])) ;;
  urgency <-
    Validate.urgency
      (Dict.get analysis "urgency_level" (PStr default_urgency)) ;;
  reasoning_ <- Validate.str (Dict.get analysis "reasoning" (PStr "")) ;;
  ret {| Models.symptom_summary := summary;
         Models.possible_conditions := conditions;
         Models.urgency_level := urgency;
         Models.reasoning := reasoning_ |}.

(** [PatientRecommendation(immediate_actions=recommendations.get(...), ...)] *)
Definition patient_recommendation_obj (recs : dict pyval)
  : M Models.PatientRecommendation :=
  actions <- Validate.str_list (Dict.get recs "immediate_actions" (PList [])) ;;
  care <- Validate.str_list (Dict.get recs "general_care" (PList [])) ;;
  seek <- Validate.str (Dict.get recs "when_to_seek_help" (PStr "")) ;;
  follow <- Validate.opt_str (Dict.get recs "follow_up" (PStr "")) ;;
  ret {| Models.immediate_actions := actions;
         Models.general_care := care;
         Models.when_to_seek_help := seek;
         Models.follow_up := follow |}.

(** The loop over [response.tool_calls] of [create_recommendations_node]:
    [acc] holds [recommendations_result] and [additional_research]. *)
Fixpoint recommendation_tool_calls (analysis : dict pyval)
    (calls : list tool_call)
    (acc : option Models.PatientRecommendation * string)
  : M (option Models.PatientRecommendation * string) :=
  match calls with
  | [] => ret acc
  | tc :: rest =>
      if String.eqb (tc_name tc) "create_recommendations"
      then
        obj <- symptom_analysis_obj analysis "low" ;;
        recommendation_tool_calls analysis rest
          (Some (create_recommendations env obj), snd acc)
      else if String.eqb (tc_name tc) "tavily_search"
      then
        recommendation_tool_calls analysis rest
          (fst acc,
           snd acc ++ "Additional Research: "
           ++ tavily_search env (tc_args tc) ++ nl)
      else recommendation_tool_calls analysis rest acc
  end.

Definition create_recommendations_node (state : MedicalState)
  : M MedicalState :=
  let analysis := get_or (symptom_analysis state) [] in
  let medical_research_ := get_or (medical_research state) "" in
  if negb (Dict.truthy analysis)
  then ret (only_messages
              [AIMessage "No symptom analysis available for recommendations"])
  else
    let recommendation_prompt :=
      "You are a medical recommendation assistant. Based on the symptom analysis and any research data, "
      ++ "generate comprehensive patient-friendly care recommendations. You can use additional search tools "
      ++ "if you need specific treatment information or care guidelines." ++ nl ++ nl
      ++ "Symptom Analysis: " ++ str_dict analysis ++ nl ++ nl
      ++ "Previous Research: " ++ medical_research_ ++ nl ++ nl
      ++ "Use the create_recommendations tool to provide structured recommendations. "
      ++ "If you need additional information about treatments or care guidelines, use tavily_search." in
    let response := tool_enabled_llm env recommendation_prompt in
    parsed <- recommendation_tool_calls analysis response (None, EmptyString) ;;
    let additional_research := snd parsed in
    recommendations_result <-
      match fst parsed with
      | Some r => ret r
      | None =>
          obj <- symptom_analysis_obj analysis "low" ;;
          ret (create_recommendations env obj)
      end ;;
    let updated_research :=
      if PyStr.truthy additional_research
      then medical_research_ ++ nl ++ additional_research
      else medical_research_ in
    ret {| messages :=
             [AIMessage
                "Comprehensive patient recommendations generated successfully"];
           symptoms := None; medical_history := None;
           symptom_analysis := None;
           medical_research := Some updated_research;
           recommendations := Some (recommendations_dict recommendations_result);
           escalation_advice := None; urgency_level := None;
           final_report := None; report_filepath := None |}.

Definition escalation_advice_node (state : MedicalState) : M MedicalState :=
  let analysis := get_or (symptom_analysis state) [] in
  let recommendations_ := get_or (recommendations state) [] in
  let urgency_level_ := get_or (urgency_level state) "low" in
  if negb (String.eqb urgency_level_ "urgent")
  then ret (only_messages
              [AIMessage "Case not urgent - escalation advice not needed"])
  else if negb (Dict.truthy analysis) || negb (Dict.truthy recommendations_)
  then ret (only_messages
              [AIMessage "Insufficient data for escalation advice"])
  else
    analysis_obj <- symptom_analysis_obj analysis "urgent" ;;
    recommendations_obj <- patient_recommendation_obj recommendations_ ;;
    let response :=
      create_escalation_advice env analysis_obj recommendations_obj in
    ret {| messages := [AIMessage "Urgent escalation advice generated"];
           symptoms := None; medical_history := None;
           symptom_analysis := None; medical_research := None;
           recommendations := None;
           escalation_advice := Some (escalation_dict response);
           urgency_level := None; final_report := None;
           report_filepath := None |}.

(** The lines [str(i) + ". " + x + "\n"] of an [enumerate(xs, i)] loop. *)
Fixpoint numbered_lines (i : nat) (xs : list string) : string :=
  match xs with
  | [] => EmptyString
  | x :: rest =>
      PyStr.str_nat i ++ ". " ++ x ++ nl ++ numbered_lines (S i) rest
  end.

(** [v.upper()]: only a string has the method. *)
Definition py_upper (v : pyval) : M string :=
  match v with
  | PStr s => ret (upper env s)
  | _ => raise AttributeError
  end.

(** The section added to the report when [escalation] is not empty. *)
Definition escalation_section (escalation : dict pyval) : M string :=
  if Dict.truthy escalation
  then
    urgency_msg <-
      as_str (Dict.get escalation "urgency_message" (PStr "N/A")) ;;
    action <- as_str (Dict.get escalation "immediate_action" (PStr "N/A")) ;;
    warning_signs_ <-
      py_iter (Dict.get escalation "warning_signs" (PList [])) ;;
    contact <-
      as_str (Dict.get escalation "emergency_contact" (PStr "N/A")) ;;
    ret (nl ++ "## URGENT ESCALATION ADVICE" ++ nl
         ++ "**Urgency Message:** " ++ urgency_msg ++ nl
         ++ "**Immediate Action:** " ++ action ++ nl ++ nl
         ++ "**Warning Signs:**" ++ nl
         ++ numbered_lines 1 warning_signs_
         ++ nl ++ "**Emergency Contact:** " ++ contact ++ nl)
  else ret EmptyString.

(** The text of the report (medical_agents.py, 299-342). *)
Definition report_content (state : MedicalState) : M string :=
  let analysis := get_or (symptom_analysis state) [] in
  let recommendations_ := get_or (recommendations state) [] in
  let escalation := get_or (escalation_advice state) [] in
  let symptoms_ := get_or (symptoms state) "" in
  let medical_history_ := get_or (medical_history state) "" in
  summary <- as_str (Dict.get analysis "symptom_summary" (PStr "N/A")) ;;
  conditions <- py_iter (Dict.get analysis "possible_conditions" (PList [])) ;;
  urgency <- py_upper (Dict.get analysis "urgency_level" (PStr "N/A")) ;;
  reasoning_ <- as_str (Dict.get analysis "reasoning" (PStr "N/A")) ;;
  actions <-
    py_iter (Dict.get recommendations_ "immediate_actions" (PList [])) ;;
  care <- py_iter (Dict.get recommendations_ "general_care" (PList [])) ;;
  seek <-
    as_str (Dict.get recommendations_ "when_to_seek_help" (PStr "N/A")) ;;
  follow <- as_str (Dict.get recommendations_ "follow_up" (PStr "N/A")) ;;
  section <- escalation_section escalation ;;
  ret ("# MediCheck AI - Medical Analysis Report" ++ nl ++ nl
       ++ "**Generated:** " ++ strftime_report (now_report env) ++ nl ++ nl
       ++ "## Patient Information" ++ nl
       ++ "**Reported Symptoms:** " ++ symptoms_ ++ nl
       ++ "**Medical History:** " ++ medical_history_ ++ nl ++ nl
       ++ "## Symptom Analysis" ++ nl
       ++ "**Summary:** " ++ summary ++ nl ++ nl
       ++ "**Possible Conditions:**" ++ nl
       ++ numbered_lines 1 conditions
       ++ nl ++ "**Urgency Level:** " ++ urgency ++ nl
       ++ "**Reasoning:** " ++ reasoning_ ++ nl ++ nl
       ++ "## Recommendations" ++ nl ++ nl
       ++ "**Immediate Actions:**" ++ nl
       ++ numbered_lines 1 actions
       ++ nl ++ "**General Self-Care:**" ++ nl
       ++ numbered_lines 1 care
       ++ nl ++ "**When to Seek Help:** " ++ seek ++ nl
       ++ "**Follow-up:** " ++ follow ++ nl
       ++ section
       ++ nl ++ "---" ++ nl
       ++ "**IMPORTANT DISCLAIMER:** This analysis is for educational purposes only and is NOT a substitute for professional medical advice, diagnosis, or treatment. Always consult healthcare professionals for medical concerns."
       ++ nl).

(** The directory [medical_reports] is created when missing; the file the
    node writes is recorded in the outcome. *)
Definition generate_medical_report (state : MedicalState) : M MedicalState :=
  let symptoms_ := get_or (symptoms state) "" in
  text <- report_content state ;;
  let timestamp := strftime_filename (now_filename env) in
  let filename := report_filename timestamp symptoms_ in
  let filepath := report_path filename in
  write_file filepath text ;;;
  ret {| messages :=
           [AIMessage
              ("Medical analysis complete! Report saved to: " ++ filepath)];
         symptoms := None; medical_history := None;
         symptom_analysis := None; medical_research := None;
         recommendations := None; escalation_advice := None;
         urgency_level := None;
         final_report := Some text;
         report_filepath := Some filepath |}.

(** The function of the conditional edge. *)
Definition should_escalate (state : MedicalState) : string :=
  let urgency_level_ := get_or (urgency_level state) "low" in
  if String.eqb urgency_level_ "urgent"
  then "escalation_advice_node"
  else "generate_medical_report".

End Nodes.

(** ** medical_workflow.py *)

Definition START : string := "__start__".
Definition END : string := "__end__".

(** [MedicalInputState], the input schema of the graph. *)
Record MedicalInputState : Type := {
  input_messages : list message;
  input_symptoms : option string;
  input_medical_history : option string
}.

(** The state of a new thread once the input is written to it. *)
Definition initial_state (input : MedicalInputState) : MedicalState :=
  {| messages := input_messages input;
     symptoms := input_symptoms input;
     medical_history := input_medical_history input;
     symptom_analysis := None; medical_research := None;
     recommendations := None; escalation_advice := None;
     urgency_level := None; final_report := None; report_filepath := None |}.

(** What [stream] yields: the update of a completed node, or the
    [__interrupt__] entry. *)
Inductive event : Type :=
| Completed (node : string) (update : MedicalState)
| Interrupted (node : string) (payload : string).

Inductive status : Type :=
| Finished
| Pending (node : string)   (* [get_state(...).next] *)
| Failed (e : exn).

Record run_result : Type := {
  events : list event;
  files : list (string * string);
  values : MedicalState;
  state_of : status
}.

Section Workflow.

Context (env : Env).

(** [medcheck_builder.add_node] *)
Definition nodes : dict (MedicalState -> M MedicalState) :=
  [("collect_patient_info", collect_patient_info);
   ("analyze_symptoms_node", analyze_symptoms_node env);
   ("collect_medical_history", collect_medical_history env);
   ("create_recommendations_node", create_recommendations_node env);
   ("escalation_advice_node", escalation_advice_node env);
   ("generate_medical_report", generate_medical_report env)].

(** [medcheck_builder.add_edge] *)
Definition edges : dict string :=
  [(START, "collect_patient_info");
   ("collect_patient_info", "analyze_symptoms_node");
   ("analyze_symptoms_node", "collect_medical_history");
   ("collect_medical_history", "create_recommendations_node");
   ("escalation_advice_node", "generate_medical_report");
   ("generate_medical_report", END)].

(** [medcheck_builder.add_conditional_edges]: source node, branch function
    and path map. *)
Definition conditional_edges : dict ((MedicalState -> string) * dict string) :=
  [("create_recommendations_node",
    (should_escalate,
     [("escalation_advice_node", "escalation_advice_node");
      ("generate_medical_report", "generate_medical_report")]))].

(** The node scheduled after [node], read on the state that already holds
    the update of [node]. *)
Definition successor (node : string) (state : MedicalState) : option string :=
  match Dict.lookup conditional_edges node with
  | Some (branch, path_map) => Dict.lookup path_map (branch state)
  | None => Dict.lookup edges node
  end.

(** The default [recursion_limit] of a call to [stream]. *)
Definition recursion_limit : nat := 25.

(** One call to [stream] from [node] on, as LangGraph runs this graph (one
    node per step): the node runs on the current state with the resume
    value, if any; its update is merged and reported, and the successor is
    scheduled without a resume value.  An interrupt leaves the state as it
    was and the node pending; an exception ends the call; [fuel] is the
    number of steps the call may still take. *)
Fixpoint run (fuel : nat) (resume : option string) (node : string)
    (state : MedicalState) : run_result :=
  if String.eqb node END
  then {| events := []; files := []; values := state; state_of := Finished |}
  else
    match fuel with
    | 0 =>
        {| events := []; files := []; values := state;
           state_of := Failed GraphRecursionError |}
    | S fuel' =>
        match Dict.lookup nodes node with
        | None =>
            {| events := []; files := []; values := state;
               state_of := Finished |}
        | Some body =>
            match body state resume with
            | Return update written =>
                let state' := merge state update in
                let rest :=
                  match successor node state' with
                  | Some node' => run fuel' None node' state'
                  | None =>
                      {| events := []; files := []; values := state';
                         state_of := Finished |}
                  end in
                {| events := Completed node update :: events rest;
                   files := written ++ files rest;
                   values := values rest;
                   state_of := state_of rest |}
            | GraphInterrupt payload =>
                {| events := [Interrupted node payload]; files := [];
                   values := state; state_of := Pending node |}
            | Raise e =>
                {| events := []; files := []; values := state;
                   state_of := Failed e |}
            end
        end
    end.

(** [medcheck_agent.stream(initial_state, config=thread)] on a new thread. *)
Definition stream_start (input : MedicalInputState) : run_result :=
  match successor START (initial_state input) with
  | Some node => run recursion_limit None node (initial_state input)
  | None =>
      {| events := []; files := []; values := initial_state input;
         state_of := Finished |}
  end.

(** [medcheck_agent.stream(Command(resume=user_input), config=thread)]: the
    pending node is entered again, from its first line, with the resume
    value.  The drivers make this call only after they have found a pending
    node ([current_state.next]); on a thread without one nothing is run
    here. *)
Definition stream_resume (suspended : run_result) (user_input : string)
  : run_result :=
  match state_of suspended with
  | Pending node =>
      run recursion_limit (Some user_input) node (values suspended)
  | _ =>
      {| events := []; files := []; values := values suspended;
         state_of := state_of suspended |}
  end.

(** What the drivers do after the first call: when the thread has a pending
    node they resume it with the patient's answer.  The events and files of
    the two calls are put one after the other. *)
Definition resume_when_pending (first : run_result) (user_input : string)
  : run_result :=
  match state_of first with
  | Pending _ =>
      let second := stream_resume first user_input in
      {| events := events first ++ events second;
         files := files first ++ files second;
         values := values second;
         state_of := state_of second |}
  | _ => first
  end.

(** A session as the drivers run it. *)
Definition session (input : MedicalInputState) (user_input : string)
  : run_result :=
  resume_when_pending (stream_start input) user_input.

End Workflow.

(** ** utils.py *)

(** One entry of a Tavily response, with the keys the helpers read. *)
Record search_result : Type := {
  url : string;
  title : string;
  content : string;
  raw_content : option string
}.

(** A Tavily response, reduced to its key ['results']. *)
Record search_response : Type := {
  results : list search_result
}.

(** The body of the inner loop of [deduplicate_search_results]. *)
Definition keep_first (unique_results : dict search_result)
    (result : search_result) : dict search_result :=
  if Dict.contains unique_results (url result)
  then unique_results
  else Dict.set unique_results (url result) result.

Definition deduplicate_search_results (search_results : list search_response)
  : dict search_result :=
  fold_left
    (fun unique_results response =>
       fold_left keep_first (results response) unique_results)
    search_results [].

(** Every result of every response, in the order the loops visit them. *)
Definition all_results (search_results : list search_response)
  : list search_result :=
  flat_map results search_results.

(** The first result of a list that carries a given URL. *)
Definition first_with_url (u : string) (l : list search_result)
  : option search_result :=
  find (fun r => String.eqb u (url r)) l.

(** The rule of the specification, for a class [keep] of characters: the
    first 30 characters, those outside the class removed, each run of
    white space and hyphens collapsed to one underscore.  A separator is
    dropped when another follows it and becomes the underscore when it is
    the last of its run. *)
Module FilenameRule.
Import PyStr.

(** The class [[A-Za-z0-9_\s-]]. *)
Definition ascii_class (c : ascii) : bool :=
  is_ascii_word c || isspace c || Ascii.eqb c "-"%char.

Definition starts_with_sep (s : string) : bool :=
  match s with
  | EmptyString => false
  | String c _ => Re.sep_char c
  end.

Fixpoint collapse_runs (s : string) : string :=
  match s with
  | EmptyString => EmptyString
  | String c r =>
      if Re.sep_char c
      then if starts_with_sep r then collapse_runs r
           else String "_"%char (collapse_runs r)
      else String c (collapse_runs r)
  end.

Definition prefix (keep : ascii -> bool) (symptoms : string) : string :=
  collapse_runs (filter_str keep (slice_to 30 symptoms)).

Definition filename (keep : ascii -> bool) (timestamp symptoms : string)
  : string :=
  "medical_analysis_" ++ timestamp ++ "_" ++ prefix keep symptoms ++ ".md".

End FilenameRule.

(** ** Test doubles

    Collaborators with fixed answers, on which the properties below are
    exercised: a language model that answers with a given list of tool
    calls, tools that return fixed results, and a fixed clock. *)

Module Stub.

Definition analysis (u : Models.Urgency) : Models.SymptomAnalysis :=
  {| Models.symptom_summary := "Chest pain with shortness of breath";
     Models.possible_conditions := ["Angina"; "Panic attack"];
     Models.urgency_level := u;
     Models.reasoning := "Chest pain needs a prompt assessment" |}.

Definition recommendation : Models.PatientRecommendation :=
  {| Models.immediate_actions := ["Stop any activity"; "Sit down"];
     Models.general_care := ["Rest"];
     Models.when_to_seek_help := "If the pain lasts more than a few minutes";
     Models.follow_up := Some "See a physician this week" |}.

Definition escalation : Models.EscalationAdvice :=
  {| Models.urgency_message := "This may be an emergency";
     Models.immediate_action := "Call the emergency number";
     Models.warning_signs := ["Pain spreading to the arm"; "Fainting"];
     Models.emergency_contact := "Emergency services" |}.

(** [repr] of a string without quotes, backslashes or control characters. *)
Definition quote (s : string) : string := "'" ++ s ++ "'".

(** [str.upper] of a string of ASCII characters. *)
Definition ascii_upper (s : string) : string :=
  PyStr.map_str
    (fun c => if PyStr.in_range 97 122 c
              then ascii_of_nat (PyStr.ord c - 32) else c) s.

Definition clock : datetime :=
  {| year := 2025; month := 1; day := 15;
     hour := 10; minute := 30; second := 0 |}.

Definition env (u : Models.Urgency) (calls : list tool_call) : Env :=
  {| tool_enabled_llm := fun _ => calls;
     analyze_symptoms := fun _ => analysis u;
     tavily_search := fun _ => "Search results: none";
     create_recommendations := fun _ => recommendation;
     create_escalation_advice := fun _ _ => escalation;
     repr_str := quote;
     upper := ascii_upper;
     now_report := clock;
     now_filename := clock |}.

(** What the drivers pass to [stream]. *)
Definition input (symptoms : string) : MedicalInputState :=
  {| input_messages := [HumanMessage symptoms];
     input_symptoms := Some symptoms;
     input_medical_history := Some "No medical history provided" |}.

End Stub.

(** A computation is [quiet] when it neither interrupts nor writes. *)
Definition quiet {A} (m : M A) : Prop :=
  forall resume,
    (forall a w, m resume = Return a w -> w = [])
    /\ (forall p, m resume <> GraphInterrupt p).

(** ** The rule of the specification for the resumed medical history *)

Definition no_history : string := "No additional medical history provided".

(** An empty answer, or one whose trimmed, lower-cased form is "no",
    "none", "n/a" or empty, stands for no history; any other answer is kept,
    trimmed. *)
Definition history_rule (resume_value : string) : string :=
  if String.eqb resume_value ""
     || PyStr.mem (PyStr.lower (PyStr.strip resume_value))
          ["no"; "none"; "n/a"; ""]
  then no_history
  else PyStr.strip resume_value.

(** A computation that never calls [interrupt]. *)
Definition never_interrupts {A} (m : M A) : Prop :=
  forall resume payload, m resume <> GraphInterrupt payload.

(** A state as [analyze_symptoms_node] leaves it, for the test doubles. *)
Definition analysed_state (u : Models.Urgency) : MedicalState :=
  {| messages := [HumanMessage "headache"];
     symptoms := Some "headache";
     medical_history := Some "No medical history provided";
     symptom_analysis := Some (analysis_dict (Stub.analysis u));
     medical_research := Some "Research: earlier findings";
     recommendations := None; escalation_advice := None;
     urgency_level := Some (Models.urgency_str u);
     final_report := None; report_filepath := None |}.

(** ** The order of the steps, as the specification gives it *)

(** What an event tells of the schedule: a node completed, or it
    suspended. *)
Inductive step : Type :=
| Ran (node : string)
| Suspended (node : string).

Definition step_of (e : event) : step :=
  match e with
  | Completed node _ => Ran node
  | Interrupted node _ => Suspended node
  end.

Definition steps (r : run_result) : list step := map step_of (events r).

(** The order P1 of the specification; [suspends] tells whether
    [collect_medical_history] suspends before it completes, [urgent]
    whether the escalation step is on the path. *)
Definition expected_steps (suspends urgent : bool) : list step :=
  ([Ran "collect_patient_info"; Ran "analyze_symptoms_node"]
   ++ (if suspends then [Suspended "collect_medical_history"] else [])
   ++ [Ran "collect_medical_history"; Ran "create_recommendations_node"]
   ++ (if urgent then [Ran "escalation_advice_node"] else [])
   ++ [Ran "generate_medical_report"])%list.

(** The symptoms the analysis step finds in the state: the content of the
    last message of the input, or, without messages, the [symptoms] of the
    input. *)
Definition reported_symptoms (input : MedicalInputState) : string :=
  match last (map Some (input_messages input)) None with
  | Some latest_message => content_of latest_message
  | None => get_or (input_symptoms input) ""
  end.

(** Whether the state routes to the escalation step. *)
Definition is_urgent (state : MedicalState) : bool :=
  match urgency_level state with
  | Some u => String.eqb u "urgent"
  | None => false
  end.

(** ** How a call to [stream] ends *)

(** The call ran the steps [trace] to the end and left the given analysis,
    urgency and escalation advice in a state that holds a report. *)
Definition finished_as (r : run_result) (trace : list step)
    (analysis : option (dict pyval)) (urgency : option string)
    (escalation : option (dict pyval)) : Prop :=
  state_of r = Finished
  /\ steps r = trace
  /\ symptom_analysis (values r) = analysis
  /\ urgency_level (values r) = urgency
  /\ escalation_advice (values r) = escalation
  /\ final_report (values r) <> None.


(** The call stopped at the suspension point after the steps [trace]. *)
Definition pending_as (r : run_result) (trace : list step)
    (state : MedicalState) : Prop :=
  state_of r = Pending "collect_medical_history"
  /\ steps r = trace
  /\ values r = state.

(** ** utils.py and tools.py: the search pipeline *)

Module Search.

(** [models.Summary] *)
Record Summary : Type := {
  summary : string;
  key_excerpts : string
}.

(** What the pipeline calls and does not define: the Tavily client, the
    summarization model with structured output ([None] stands for a call
    that raised), and the date string of [get_today_str]. *)
Record Env : Type := {
  tavily_client_search :
    string -> nat -> bool -> string -> search_response;
  summarization_model : string -> option Summary;
  today_str : string
}.

(** An entry of the dictionary built by [process_search_results]. *)
Record processed : Type := {
  processed_title : string;
  processed_content : string
}.

Section Pipeline.

Context (env : Env).

(** The [try] of [summarize_webpage_content] formats the summary; the
    [except] falls back on the content, cut to 1000 characters. *)
Definition summarize_webpage_content (webpage_content : string) : string :=
  match
    summarization_model env
      ("Summarize this content:" ++ nl ++ nl ++ webpage_content
       ++ nl ++ nl ++ "Today's date: " ++ today_str env)
  with
  | Some s =>
      "<summary>" ++ nl ++ summary s ++ nl ++ "</summary>" ++ nl ++ nl
      ++ "<key_excerpts>" ++ nl ++ key_excerpts s ++ nl ++ "</key_excerpts>"
  | None =>
      if 1000 <? String.length webpage_content
      then PyStr.slice_to 1000 webpage_content ++ "..."
      else webpage_content
  end.

(** The body of the loop of [process_search_results]. *)
Definition process_one (summarized_results : dict processed)
    (entry : string * search_result) : dict processed :=
  let result := snd entry in
  let content_ :=
    match raw_content result with
    | Some raw =>
        if PyStr.truthy raw then summarize_webpage_content raw
        else content result
    | None => content result
    end in
  Dict.set summarized_results (fst entry)
    {| processed_title := title result; processed_content := content_ |}.

Definition process_search_results (unique_results : dict search_result)
  : dict processed :=
  fold_left process_one unique_results [].

(** The text added for the source number [i]. *)
Definition source_block (i : nat) (entry : string * processed) : string :=
  nl ++ nl ++ "--- SOURCE " ++ PyStr.str_nat i ++ ": "
  ++ processed_title (snd entry) ++ " ---" ++ nl
  ++ "URL: " ++ fst entry ++ nl ++ nl
  ++ "SUMMARY:" ++ nl ++ processed_content (snd entry) ++ nl ++ nl
  ++ PyStr.join "" (repeat "-"%string 80) ++ nl.

Fixpoint source_blocks (i : nat) (entries : dict processed) : string :=
  match entries with
  | [] => EmptyString
  | entry :: rest => source_block i entry ++ source_blocks (S i) rest
  end.

Definition no_results : string :=
  "No valid search results found. Please try different search queries or use a different search API.".

Definition format_search_output (summarized_results : dict processed)
  : string :=
  if negb (Dict.truthy summarized_results) then no_results
  else "Search results: " ++ nl ++ nl ++ source_blocks 1 summarized_results.

(** [tavily_search_multiple]: one call of the client for each query. *)
Definition tavily_search_multiple (search_queries : list string)
    (max_results : nat) (topic : string) (include_raw_content : bool)
  : list search_response :=
  map (fun query =>
         tavily_client_search env query max_results include_raw_content topic)
    search_queries.

(** The tool [tavily_search] of tools.py. *)
Definition tavily_search (query : string) (max_results : nat)
    (topic : string) : string :=
  let search_results :=
    tavily_search_multiple [query] max_results topic true in
  let unique_results := deduplicate_search_results search_results in
  let summarized_results := process_search_results unique_results in
  format_search_output summarized_results.

End Pipeline.

(** The results kept by the two loops of [deduplicate_search_results], as
    a scan that remembers the URLs seen so far. *)
Fixpoint firsts (seen : list string) (l : list search_result)
  : list search_result :=
  match l with
  | [] => []
  | r :: rest =>
      if PyStr.mem (url r) seen then firsts seen rest
      else r :: firsts (url r :: seen) rest
  end.

(** A client that finds the same page twice and a page without raw
    content, and a summarization model that fails. *)
Definition page (u t c : string) (raw : option string) : search_result :=
  {| url := u; title := t; content := c; raw_content := raw |}.

Definition stub_env : Env :=
  {| tavily_client_search := fun query _ _ _ =>
       {| results :=
            [page "https://a.example" "Headache" "About headaches" None;
             page "https://b.example" "Migraine" "About migraine"
               (Some "A long page about migraine");
             page "https://a.example" "Headache again" "Duplicate" None] |};
     summarization_model := fun _ => None;
     today_str := "Wed Jan 15, 2025" |}.

End Search.

(** The entry under which a result is stored. *)
Definition entry_of (r : search_result) : string * search_result :=
  (url r, r).

(** Entry by entry: same key, same title, and the content rule. *)
Definition processed_from (env : Search.Env) (e : string * search_result)
    (e' : string * Search.processed) : Prop :=
  fst e' = fst e
  /\ Search.processed_title (snd e') = title (snd e)
  /\ (raw_content (snd e) = None \/ raw_content (snd e) = Some "" ->
      Search.processed_content (snd e') = content (snd e))
  /\ (forall raw, raw_content (snd e) = Some raw -> raw <> "" ->
      Search.processed_content (snd e')
      = Search.summarize_webpage_content env raw).

(** ** The tool calls of the analysis step, read one by one *)

Definition is_analyze_call (tc : tool_call) : bool :=
  String.eqb (tc_name tc) "analyze_symptoms".

(** A call that adds a line of research: named [tavily_search] (the
    [elif] is reached only by calls not named [analyze_symptoms]). *)
Definition is_research_call (tc : tool_call) : bool :=
  negb (is_analyze_call tc) && String.eqb (tc_name tc) "tavily_search".

Fixpoint concat_str (l : list string) : string :=
  match l with
  | [] => EmptyString
  | x :: rest => x ++ concat_str rest
  end.

(** ** What a node may set and raise *)

Definition key_if {A} (name : string) (o : option A) : list string :=
  match o with
  | Some _ => [name]
  | None => []
  end.

(** The keys of an update other than [messages]. *)
Definition update_keys (u : MedicalState) : list string :=
  (key_if "symptoms" (symptoms u)
   ++ key_if "medical_history" (medical_history u)
   ++ key_if "symptom_analysis" (symptom_analysis u)
   ++ key_if "medical_research" (medical_research u)
   ++ key_if "recommendations" (recommendations u)
   ++ key_if "escalation_advice" (escalation_advice u)
   ++ key_if "urgency_level" (urgency_level u)
   ++ key_if "final_report" (final_report u)
   ++ key_if "report_filepath" (report_filepath u))%list.

(** The keys found, besides [messages], in the dictionaries a node
    returns. *)
Definition written_keys : dict (list string) :=
  [("collect_patient_info", ["symptoms"; "medical_history"]);
   ("analyze_symptoms_node",
    ["symptom_analysis"; "medical_research"; "urgency_level"]);
   ("collect_medical_history", ["medical_history"]);
   ("create_recommendations_node", ["medical_research"; "recommendations"]);
   ("escalation_advice_node", ["escalation_advice"]);
   ("generate_medical_report", ["final_report"; "report_filepath"])].

(** A computation raises no exception outside [allowed]. *)
Definition raises_only {A} (allowed : list exn) (m : M A) : Prop :=
  forall resume e, m resume = Raise e -> In e allowed.

(** The exceptions found in the body of a node, the collaborators
    returning. *)
Definition may_raise : dict (list exn) :=
  [("collect_patient_info", []);
   ("analyze_symptoms_node", []);
   ("collect_medical_history", [TypeError]);
   ("create_recommendations_node", [ValidationError]);
   ("escalation_advice_node", [ValidationError]);
   ("generate_medical_report", [TypeError; AttributeError])].

(** The number of nodes on the longest path from a node to [END]. *)
Definition steps_left : dict nat :=
  [("collect_patient_info", 6);
   ("analyze_symptoms_node", 5);
   ("collect_medical_history", 4);
   ("create_recommendations_node", 3);
   ("escalation_advice_node", 2);
   ("generate_medical_report", 1)].

(** The messages an event of [stream] adds to the state. *)
Definition added_messages (e : event) : list message :=
  match e with
  | Completed _ update => messages update
  | Interrupted _ _ => []
  end.

(** ** main.py and streamlit_app.py *)

(** The check both drivers make on the output of
    [create_recommendations_node] before they announce an urgent case
    (main.py, 118-119 and 212-213; streamlit_app.py, 203-204 and
    274-275). *)
Definition urgent_case_detected (output : MedicalState) : bool :=
  String.eqb (get_or (urgency_level output) "low") "urgent".

(** How a call that reaches the report ends, by the follow-up of the
    stored recommendation. *)
Definition ends_by_follow_up (p : Models.PatientRecommendation)
    (state : MedicalState) (r : run_result) : Prop :=
  match Models.follow_up p with
  | Some _ =>
      state_of r = Finished
      /\ recommendations (values r) = Some (recommendations_dict p)
      /\ medical_history (values r) = medical_history state
      /\ symptoms (values r) = symptoms state
  | None => state_of r = Failed TypeError
  end.

(** [main] of main.py up to the first call (28-48): the symptoms are
    required, and the first call to [stream] is made on a new thread with
    the initial state built from them; the rest of [main] is the resumed
    call of [resume_when_pending]. *)
Definition main_start (env : Env) (symptoms : string) : option run_result :=
  if negb (PyStr.truthy (PyStr.strip symptoms))
  then None
  else
    Some (stream_start env
            {| input_messages := [HumanMessage symptoms];
               input_symptoms := Some symptoms;
               input_medical_history := Some "No medical history provided" |}).

(** ** A thread that already holds a state

    The checkpointer keeps the state of a thread after a call has ended,
    and the Streamlit driver uses one constant thread id
    (streamlit_app.py, 18 and 153) with the checkpointer of the module
    (medical_workflow.py, 50-51): a later [stream(initial_state, ...)] on
    that thread (streamlit_app.py, 173) finds the state the earlier call
    left. *)






(** * Properties *)

(** ** Node computations *)

Lemma bind_Return {A B} (m : M A) (k : A -> M B) resume b written :
  bind m k resume = Return b written ->
  exists a w1 w2,
    m resume = Return a w1 /\ k a resume = Return b w2
    /\ written = (w1 ++ w2)%list.
Proof.
  unfold bind. destruct (m resume) as [a w1| |]; try discriminate.
  destruct (k a resume) as [b' w2| |] eqn:Hk; try discriminate.
  intros H. inversion H; subst. now exists a, w1, w2.
Qed.

Lemma bind_GraphInterrupt {A B} (m : M A) (k : A -> M B) resume payload :
  bind m k resume = GraphInterrupt payload ->
  m resume = GraphInterrupt payload
  \/ exists a w, m resume = Return a w /\ k a resume = GraphInterrupt payload.
Proof.
  unfold bind. destruct (m resume) as [a w1| |]; try discriminate.
  - destruct (k a resume) eqn:Hk; try discriminate.
    intros H. inversion H; subst. right. exists a, w1. split; auto.
  - intros H. inversion H; subst. now left.
Qed.

Lemma quiet_ret {A} (a : A) : quiet (ret a).
Proof. intros r. split; [intros ? ? H; now inversion H | discriminate]. Qed.

Lemma quiet_raise {A} e : quiet (@raise A e).
Proof. intros r. split; discriminate. Qed.

Lemma quiet_bind {A B} (m : M A) (k : A -> M B) :
  quiet m -> (forall a, quiet (k a)) -> quiet (bind m k).
Proof.
  intros Hm Hk r. split.
  - intros b w H. apply bind_Return in H as (a & w1 & w2 & H1 & H2 & ->).
    apply (Hm r) in H1. apply (Hk a r) in H2. now subst.
  - intros p H. apply bind_GraphInterrupt in H as [H | (a & w & _ & H)].
    + now apply (Hm r) in H.
    + now apply (Hk a r) in H.
Qed.

Lemma quiet_if {A} (b : bool) (m1 m2 : M A) :
  quiet m1 -> quiet m2 -> quiet (if b then m1 else m2).
Proof. now destruct b. Qed.

Ltac quiet_leaf := simpl; first [ apply quiet_ret | apply quiet_raise ].

Lemma quiet_as_str v : quiet (as_str v).
Proof. destruct v; quiet_leaf. Qed.

Lemma quiet_py_iter v : quiet (py_iter v).
Proof. destruct v; quiet_leaf. Qed.

Lemma quiet_py_upper env v : quiet (py_upper env v).
Proof. destruct v; quiet_leaf. Qed.

Lemma quiet_validate_str v : quiet (Validate.str v).
Proof. destruct v; quiet_leaf. Qed.

Lemma quiet_validate_opt_str v : quiet (Validate.opt_str v).
Proof. destruct v; quiet_leaf. Qed.

Lemma quiet_validate_str_list v : quiet (Validate.str_list v).
Proof. destruct v; quiet_leaf. Qed.

Lemma quiet_validate_urgency v : quiet (Validate.urgency v).
Proof.
  destruct v; try quiet_leaf. simpl.
  repeat (apply quiet_if; try quiet_leaf).
Qed.

Create HintDb quiet.

#[local] Hint Resolve quiet_ret quiet_raise quiet_as_str quiet_py_iter
  quiet_py_upper quiet_validate_str quiet_validate_opt_str
  quiet_validate_str_list quiet_validate_urgency : quiet.

Ltac quiet_steps :=
  repeat first
    [ apply quiet_bind; [ | intros ? ]
    | apply quiet_if
    | solve [ auto with quiet ] ].

Lemma quiet_symptom_analysis_obj analysis default_urgency :
  quiet (symptom_analysis_obj analysis default_urgency).
Proof. unfold symptom_analysis_obj. quiet_steps. Qed.

Lemma quiet_patient_recommendation_obj recs :
  quiet (patient_recommendation_obj recs).
Proof. unfold patient_recommendation_obj. quiet_steps. Qed.

Lemma quiet_escalation_section escalation :
  quiet (escalation_section escalation).
Proof. unfold escalation_section. quiet_steps. Qed.

Lemma quiet_report_content env state : quiet (report_content env state).
Proof. unfold report_content. quiet_steps. Qed.

Lemma quiet_interrupt_message env analysis :
  quiet (interrupt_message env analysis).
Proof. unfold interrupt_message. quiet_steps. Qed.

(** ** Dictionaries *)

Lemma lookup_set_same {V} (d : dict V) k v :
  Dict.lookup (Dict.set d k v) k = Some v.
Proof.
  induction d as [|[k' v'] d IH]; simpl.
  - now rewrite String.eqb_refl.
  - destruct (String.eqb k k') eqn:E; simpl; rewrite E; auto.
Qed.

Lemma lookup_set_other {V} (d : dict V) k k' v :
  k' <> k -> Dict.lookup (Dict.set d k v) k' = Dict.lookup d k'.
Proof.
  intros Hne. induction d as [|[k0 v0] d IH]; simpl.
  - destruct (String.eqb k' k) eqn:E; auto.
    apply String.eqb_eq in E. contradiction.
  - destruct (String.eqb k k0) eqn:E; simpl.
    + apply String.eqb_eq in E. subst k0.
      destruct (String.eqb k' k) eqn:E'; auto.
      apply String.eqb_eq in E'. contradiction.
    + now rewrite IH.
Qed.

Lemma lookup_none_keys {V} (d : dict V) k :
  Dict.lookup d k = None <-> ~ In k (Dict.keys d).
Proof.
  induction d as [|[k' v'] d IH]; simpl.
  - tauto.
  - destruct (String.eqb k k') eqn:E.
    + apply String.eqb_eq in E. subst. split; [discriminate | tauto].
    + apply String.eqb_neq in E. rewrite IH. split.
      * intros H [H1 | H1]; [congruence | tauto].
      * tauto.
Qed.

Lemma keys_set_absent {V} (d : dict V) k v :
  Dict.lookup d k = None -> Dict.keys (Dict.set d k v) = (Dict.keys d ++ [k])%list.
Proof.
  induction d as [|[k' v'] d IH]; simpl; auto.
  destruct (String.eqb k k') eqn:E; [discriminate|].
  intros H. simpl. now rewrite IH.
Qed.

(** ** deduplicate_search_results *)

Lemma keep_first_lookup d r u :
  Dict.lookup (keep_first d r) u =
  match Dict.lookup d u with
  | Some v => Some v
  | None => if String.eqb u (url r) then Some r else None
  end.
Proof.
  unfold keep_first, Dict.contains.
  destruct (Dict.lookup d (url r)) eqn:Hr.
  - destruct (Dict.lookup d u) eqn:Hu; auto.
    destruct (String.eqb u (url r)) eqn:E; auto.
    apply String.eqb_eq in E. congruence.
  - destruct (String.eqb u (url r)) eqn:E.
    + apply String.eqb_eq in E. subst u.
      now rewrite lookup_set_same, Hr.
    + apply String.eqb_neq in E. rewrite lookup_set_other by assumption.
      now destruct (Dict.lookup d u).
Qed.

Lemma keep_first_nodup d r :
  NoDup (Dict.keys d) -> NoDup (Dict.keys (keep_first d r)).
Proof.
  unfold keep_first, Dict.contains. intros Hd.
  destruct (Dict.lookup d (url r)) eqn:Hr; auto.
  rewrite keys_set_absent by assumption.
  apply NoDup_app; auto.
  - constructor; [tauto | constructor].
  - intros x Hx [Hx' | []]. subst x.
    now apply lookup_none_keys in Hr.
Qed.

Lemma fold_keep_first_lookup l : forall d u,
  Dict.lookup (fold_left keep_first l d) u =
  match Dict.lookup d u with
  | Some v => Some v
  | None => first_with_url u l
  end.
Proof.
  induction l as [|r l IH]; intros d u; simpl.
  - now destruct (Dict.lookup d u).
  - rewrite IH, keep_first_lookup.
    destruct (Dict.lookup d u); auto.
    now destruct (String.eqb u (url r)).
Qed.

Lemma fold_keep_first_nodup l : forall d,
  NoDup (Dict.keys d) -> NoDup (Dict.keys (fold_left keep_first l d)).
Proof.
  induction l as [|r l IH]; intros d Hd; simpl; auto.
  apply IH, keep_first_nodup, Hd.
Qed.

Lemma dedup_as_one_loop rs : forall d,
  fold_left (fun acc response => fold_left keep_first (results response) acc)
    rs d
  = fold_left keep_first (all_results rs) d.
Proof.
  unfold all_results.
  induction rs as [|r rs IH]; intros d; simpl; auto.
  now rewrite fold_left_app, IH.
Qed.

Lemma first_with_url_in u l :
  first_with_url u l <> None <-> In u (map url l).
Proof.
  unfold first_with_url. induction l as [|r l IH]; simpl.
  - tauto.
  - destruct (String.eqb u (url r)) eqn:E.
    + apply String.eqb_eq in E. split; [auto | discriminate].
    + apply String.eqb_neq in E. rewrite IH. split; [tauto|].
      intros [H | H]; [congruence | auto].
Qed.

Lemma in_nodup_lookup {V} (d : dict V) k v :
  NoDup (Dict.keys d) -> In (k, v) d -> Dict.lookup d k = Some v.
Proof.
  induction d as [|[k' v'] d IH]; simpl; [tauto|].
  intros Hnd [H | H].
  - inversion H; subst. now rewrite String.eqb_refl.
  - inversion Hnd as [|? ? Hnotin Hnd']; subst.
    destruct (String.eqb k k') eqn:E.
    + apply String.eqb_eq in E. subst k'. exfalso. apply Hnotin.
      change k with (fst (k, v)). now apply in_map.
    + now apply IH.
Qed.

(** C10.  [deduplicate_search_results] keeps, for every URL, the first
    result that carries it: the returned dictionary has no key twice, its
    keys are the URLs of the results, the entry found under a URL is the
    first result with that URL in the order of the responses, and every
    entry of the dictionary is such a first result (so a later result with
    a URL seen before is not in it). *)
Theorem deduplicate_search_results_first_wins
    (search_results : list search_response) :
  let unique_results := deduplicate_search_results search_results in
  let visited := all_results search_results in
  NoDup (Dict.keys unique_results)
  /\ (forall u, In u (Dict.keys unique_results) <-> In u (map url visited))
  /\ (forall u, Dict.lookup unique_results u = first_with_url u visited)
  /\ (forall u r, In (u, r) unique_results ->
        first_with_url u visited = Some r).
Proof.
  intros unique_results visited.
  assert (Hnd : NoDup (Dict.keys unique_results)).
  { unfold unique_results, deduplicate_search_results.
    rewrite dedup_as_one_loop. apply fold_keep_first_nodup. constructor. }
  assert (Hlk : forall u,
             Dict.lookup unique_results u = first_with_url u visited).
  { intros u. unfold unique_results, deduplicate_search_results.
    rewrite dedup_as_one_loop, fold_keep_first_lookup. reflexivity. }
  repeat split; auto.
  - intros Hin. apply first_with_url_in. rewrite <- Hlk.
    intros Hnone. now apply lookup_none_keys in Hnone.
  - intros Hin. apply first_with_url_in in Hin. rewrite <- Hlk in Hin.
    destruct (in_dec string_dec u (Dict.keys unique_results)) as [|Hno]; auto.
    apply lookup_none_keys in Hno. contradiction.
  - intros u r Hin. rewrite <- Hlk. now apply in_nodup_lookup.
Qed.

(** ** The report file name *)

Lemma sub_runs_collapse s :
  Re.sub_runs s = FilenameRule.collapse_runs s
  /\ (if FilenameRule.starts_with_sep s
      then String "_"%char (Re.in_run s) = FilenameRule.collapse_runs s
      else Re.in_run s = FilenameRule.collapse_runs s).
Proof.
  induction s as [|c r [IH1 IH2]]; simpl; auto.
  destruct (Re.sep_char c) eqn:Hc; simpl.
  - destruct (FilenameRule.starts_with_sep r); split; congruence.
  - split; congruence.
Qed.

Lemma symptom_preview_rule symptoms :
  symptom_preview symptoms = FilenameRule.prefix Re.keep_char symptoms.
Proof.
  unfold symptom_preview, FilenameRule.prefix, Re.sub_remove.
  apply sub_runs_collapse.
Qed.

Lemma keep_char_ascii c :
  PyStr.is_ascii c = true -> Re.keep_char c = FilenameRule.ascii_class c.
Proof.
  destruct c as [[] [] [] [] [] [] [] []]; intros H;
    solve [reflexivity | discriminate H].
Qed.

Lemma filter_str_ext p q s :
  (forall c, PyStr.is_ascii c = true -> p c = q c) ->
  PyStr.forallb_str PyStr.is_ascii s = true ->
  PyStr.filter_str p s = PyStr.filter_str q s.
Proof.
  intros Hpq. induction s as [|c r IH]; simpl; auto.
  intros H. apply andb_true_iff in H as [Hc Hr].
  rewrite (Hpq c Hc), (IH Hr). reflexivity.
Qed.

Lemma slice_to_forallb p n : forall s,
  PyStr.forallb_str p s = true ->
  PyStr.forallb_str p (PyStr.slice_to n s) = true.
Proof.
  induction n as [|n IH]; intros [|c r]; simpl; auto.
  intros H. apply andb_true_iff in H as [Hc Hr].
  now rewrite Hc, IH.
Qed.

(** On symptoms written in ASCII the class of the code and the class the
    specification names remove the same characters. *)
Lemma symptom_preview_ascii symptoms :
  PyStr.forallb_str PyStr.is_ascii symptoms = true ->
  symptom_preview symptoms
  = FilenameRule.prefix FilenameRule.ascii_class symptoms.
Proof.
  intros H. rewrite symptom_preview_rule. unfold FilenameRule.prefix.
  f_equal. apply filter_str_ext.
  - apply keep_char_ascii.
  - now apply slice_to_forallb.
Qed.


Lemma report_filename_rule timestamp symptoms :
  report_filename timestamp symptoms
  = FilenameRule.filename Re.keep_char timestamp symptoms.
Proof.
  unfold report_filename, FilenameRule.filename.
  now rewrite symptom_preview_rule.
Qed.

(** C5, as the specification states it, fails on its own example: the
    symptoms are cut to 30 characters before they are cleaned, so the file
    name ends in [cant_br], not in [cant_breathe]. *)
Lemma report_filename_example_counterexample :
  symptom_preview "Severe chest pain!! & can't breathe"
  <> "Severe_chest_pain_cant_breathe".
Proof. vm_compute. discriminate. Qed.

(** The class of the code is wider than [[A-Za-z0-9_\s-]]: a letter such
    as e-acute (code point 233) is a word character for [re] and stays in
    the file name. *)
Lemma report_filename_keeps_letters :
  let symptoms := "caf" ++ String (ascii_of_nat 233) EmptyString in
  symptom_preview symptoms = symptoms
  /\ FilenameRule.prefix FilenameRule.ascii_class symptoms = "caf".
Proof. vm_compute. split; reflexivity. Qed.

(** C5 (amended).  When [generate_medical_report] returns, the one file it
    has written, which is also the [report_filepath] of its update, is
    [medical_reports/medical_analysis_<YYYYMMDD_HHMMSS>_<prefix>.md]; the
    prefix is made from the first 30 characters of the symptoms by removing
    every character that is neither a word character of [re] (a letter or
    digit, ASCII or not, or the underscore), nor white space, nor a hyphen,
    and then collapsing each run of white space and hyphens to one
    underscore.  On ASCII symptoms the removed characters are those outside
    [[A-Za-z0-9_\s-]].  For "Severe chest pain!! & can't breathe" the prefix
    is [Severe_chest_pain_cant_br]. *)
Theorem generate_medical_report_filename
    env state resume update written :
  generate_medical_report env state resume = Return update written ->
  let symptoms_ := get_or (symptoms state) "" in
  let timestamp := strftime_filename (now_filename env) in
  let filename := FilenameRule.filename Re.keep_char timestamp symptoms_ in
  (exists text,
      written = [(report_path filename, text)]
      /\ final_report update = Some text)
  /\ report_filepath update = Some (report_path filename)
  /\ (PyStr.forallb_str PyStr.is_ascii symptoms_ = true ->
      filename
      = FilenameRule.filename FilenameRule.ascii_class timestamp symptoms_)
  /\ symptom_preview "Severe chest pain!! & can't breathe"
     = "Severe_chest_pain_cant_br".
Proof.
  intros H symptoms_ timestamp filename.
  unfold generate_medical_report in H.
  apply bind_Return in H as (text & w1 & w2 & H1 & H2 & ->).
  apply (quiet_report_content env state resume) in H1. subst w1.
  unfold bind, write_file, ret in H2. simpl in H2.
  inversion H2; subst; clear H2. simpl.
  fold symptoms_ timestamp. rewrite report_filename_rule. fold filename.
  repeat split.
  - now exists text.
  - intros Hascii. unfold filename, FilenameRule.filename.
    now rewrite <- symptom_preview_rule, symptom_preview_ascii.
Qed.

Lemma generate_medical_report_filename_witness :
  exists update written,
    generate_medical_report (Stub.env Models.low [])
      (initial_state (Stub.input "Severe chest pain!! & can't breathe")) None
    = Return update written
    /\ report_filepath update
       = Some "medical_reports/medical_analysis_20250115_103000_Severe_chest_pain_cant_br.md".
Proof.
  assert (H : exists u w,
             generate_medical_report (Stub.env Models.low [])
               (initial_state
                  (Stub.input "Severe chest pain!! & can't breathe")) None
             = Return u w) by (vm_compute; eauto).
  destruct H as (u & w & H). exists u, w. split; [exact H|].
  pose proof (generate_medical_report_filename _ _ _ _ _ H) as P.
  cbv zeta in P. destruct P as (_ & P & _).
  rewrite P. vm_compute. reflexivity.
Defined.

(** ** escalation_advice_node *)

Lemma merge_only_messages state msgs :
  merge state (only_messages msgs)
  = set_messages (messages state ++ msgs) state.
Proof. reflexivity. Qed.

(** C9.  Unless the urgency is exactly "urgent" (a missing urgency counts
    as "low") and both [symptom_analysis] and [recommendations] are present
    and not empty, [escalation_advice_node] returns a single status message
    and nothing else: merged into the state, the update appends the message
    and leaves [escalation_advice] and every other field as it was. *)
Theorem escalation_advice_node_frame env state resume :
  urgency_level state <> Some "urgent"
  \/ symptom_analysis state = None \/ symptom_analysis state = Some []
  \/ recommendations state = None \/ recommendations state = Some [] ->
  exists text,
    escalation_advice_node env state resume
    = Return (only_messages [AIMessage text]) []
    /\ merge state (only_messages [AIMessage text])
       = set_messages (messages state ++ [AIMessage text]) state
    /\ escalation_advice (merge state (only_messages [AIMessage text]))
       = escalation_advice state.
Proof.
  intros H. unfold escalation_advice_node.
  destruct (String.eqb (get_or (urgency_level state) "low") "urgent") eqn:Hu;
    simpl.
  - destruct H as [H | H].
    { exfalso. apply H. apply String.eqb_eq in Hu.
      destruct (urgency_level state) as [u|]; simpl in Hu;
        [now subst | discriminate]. }
    assert (He : negb (Dict.truthy (get_or (symptom_analysis state) []))
                 || negb (Dict.truthy (get_or (recommendations state) []))
                 = true).
    { destruct H as [H | [H | [H | H]]]; rewrite H; simpl; auto;
        apply orb_true_r. }
    rewrite He. eexists. repeat split.
  - eexists. repeat split.
Qed.

Lemma escalation_advice_node_frame_witness :
  exists text,
    escalation_advice_node (Stub.env Models.low [])
      (initial_state (Stub.input "mild headache for 2 hours")) None
    = Return (only_messages [AIMessage text]) [].
Proof.
  destruct (escalation_advice_node_frame (Stub.env Models.low [])
              (initial_state (Stub.input "mild headache for 2 hours")) None)
    as (text & H & _).
  - left. simpl. discriminate.
  - exists text. exact H.
Defined.

(** ** collect_medical_history *)

Lemma interrupt_message_resume env analysis resume resume' :
  interrupt_message env analysis resume
  = interrupt_message env analysis resume'.
Proof.
  unfold interrupt_message, bind.
  destruct (Dict.get analysis "symptom_summary" (PStr "N/A")); simpl; auto.
  destruct (Dict.get analysis "urgency_level" (PStr "N/A")); simpl; auto.
Qed.

(** On a first entry the node suspends exactly when the analysis is not
    empty and its prompt can be built. *)
Lemma collect_medical_history_suspends env state payload :
  collect_medical_history env state None = GraphInterrupt payload <->
  Dict.truthy (get_or (symptom_analysis state) []) = true
  /\ interrupt_message env (get_or (symptom_analysis state) []) None
     = Return payload [].
Proof.
  unfold collect_medical_history.
  destruct (Dict.truthy (get_or (symptom_analysis state) [])); simpl.
  - split.
    + intros H. split; auto.
      apply bind_GraphInterrupt in H as [H | (p & w & Hm & H)].
      * now apply quiet_interrupt_message in H.
      * pose proof Hm as Hw. apply quiet_interrupt_message in Hw. subst w.
        apply bind_GraphInterrupt in H as [H | (v & w & H & _)].
        -- simpl in H. inversion H; subst. exact Hm.
        -- discriminate H.
    + intros [_ H]. unfold bind at 1. rewrite H. reflexivity.
  - split; [discriminate | intros [H _]; discriminate].
Qed.

Lemma history_rule_cases user_input :
  (if PyStr.truthy user_input
      && negb (PyStr.mem (PyStr.lower (PyStr.strip user_input))
                 ["no"; "none"; "n/a"; ""])
   then PyStr.strip user_input else no_history)
  = history_rule user_input.
Proof.
  unfold history_rule. destruct user_input as [|c r]; [reflexivity|].
  cbn [PyStr.truthy String.eqb andb orb].
  now destruct (PyStr.mem _ _).
Qed.

Lemma collect_medical_history_resumed env state payload user_input :
  collect_medical_history env state None = GraphInterrupt payload ->
  exists text,
    collect_medical_history env state (Some user_input)
    = Return
        {| messages := [AIMessage text];
           symptoms := None;
           medical_history := Some (history_rule user_input);
           symptom_analysis := None; medical_research := None;
           recommendations := None; escalation_advice := None;
           urgency_level := None; final_report := None;
           report_filepath := None |} [].
Proof.
  intros H. apply collect_medical_history_suspends in H as [Ht Hm].
  rewrite (interrupt_message_resume env _ None (Some user_input)) in Hm.
  unfold collect_medical_history. rewrite Ht. simpl.
  unfold bind at 1. rewrite Hm. unfold bind at 1. simpl.
  rewrite <- history_rule_cases.
  destruct (PyStr.truthy user_input && _); simpl; eexists; reflexivity.
Qed.

(** C2.  Once the node has suspended on a state, resuming it with a value
    returns an update whose [medical_history] follows the rule: the fixed
    sentence when the value is empty or its trimmed, lower-cased form is
    "no", "none", "n/a" or empty, and the trimmed value otherwise.  The
    values "no", "NO", " none ", "" and "n/a" all give the fixed sentence. *)
Theorem collect_medical_history_resume env state payload user_input :
  collect_medical_history env state None = GraphInterrupt payload ->
  (exists text,
      collect_medical_history env state (Some user_input)
      = Return
          {| messages := [AIMessage text];
             symptoms := None;
             medical_history := Some (history_rule user_input);
             symptom_analysis := None; medical_research := None;
             recommendations := None; escalation_advice := None;
             urgency_level := None; final_report := None;
             report_filepath := None |} [])
  /\ (user_input <> ""
      -> PyStr.mem (PyStr.lower (PyStr.strip user_input))
           ["no"; "none"; "n/a"; ""] = false
      -> history_rule user_input = PyStr.strip user_input)
  /\ (user_input = ""
      \/ PyStr.mem (PyStr.lower (PyStr.strip user_input))
           ["no"; "none"; "n/a"; ""] = true
      -> history_rule user_input = no_history)
  /\ Forall (fun v => history_rule v = no_history)
       ["no"; "NO"; " none "; ""; "n/a"].
Proof.
  intros H. repeat split.
  - now apply (collect_medical_history_resumed env state payload).
  - intros Hne Hmem. unfold history_rule. rewrite Hmem.
    destruct (String.eqb_spec user_input ""); [contradiction | reflexivity].
  - intros [-> | Hmem]; unfold history_rule; [reflexivity|].
    rewrite Hmem. now rewrite orb_true_r.
  - repeat constructor.
Qed.

Lemma collect_medical_history_resume_witness :
  exists text,
    collect_medical_history (Stub.env Models.low [])
      (analysed_state Models.low) (Some " none ")
    = Return
        {| messages := [AIMessage text];
           symptoms := None;
           medical_history := Some no_history;
           symptom_analysis := None; medical_research := None;
           recommendations := None; escalation_advice := None;
           urgency_level := None; final_report := None;
           report_filepath := None |} [].
Proof.
  assert (H : exists p,
             collect_medical_history (Stub.env Models.low [])
               (analysed_state Models.low) None = GraphInterrupt p)
    by (vm_compute; eauto).
  destruct H as (p & H).
  destruct (collect_medical_history_resume _ _ _ " none " H)
    as ((text & Hr) & _).
  exists text. exact Hr.
Defined.

(** ** The suspension point *)

Lemma quiet_never_interrupts {A} (m : M A) : quiet m -> never_interrupts m.
Proof. intros H r p. apply (H r). Qed.

Lemma quiet_collect_patient_info state : quiet (collect_patient_info state).
Proof.
  unfold collect_patient_info.
  destruct (last (map Some (messages state)) None); apply quiet_ret.
Qed.

Lemma quiet_analyze_symptoms_node env state :
  quiet (analyze_symptoms_node env state).
Proof. unfold analyze_symptoms_node. quiet_steps. Qed.

Lemma quiet_recommendation_tool_calls env analysis calls : forall acc,
  quiet (recommendation_tool_calls env analysis calls acc).
Proof.
  induction calls as [|tc rest IH]; intros acc; simpl.
  - apply quiet_ret.
  - repeat apply quiet_if; auto.
    apply quiet_bind; auto using quiet_symptom_analysis_obj.
Qed.

Lemma quiet_create_recommendations_node env state :
  quiet (create_recommendations_node env state).
Proof.
  unfold create_recommendations_node.
  apply quiet_if; [apply quiet_ret|].
  apply quiet_bind; [apply quiet_recommendation_tool_calls|].
  intros parsed. apply quiet_bind; [|intros; apply quiet_ret].
  destruct (fst parsed); [apply quiet_ret|].
  apply quiet_bind; [apply quiet_symptom_analysis_obj|].
  intros; apply quiet_ret.
Qed.

Lemma quiet_escalation_advice_node env state :
  quiet (escalation_advice_node env state).
Proof.
  unfold escalation_advice_node.
  repeat (apply quiet_if; [apply quiet_ret|]).
  apply quiet_bind; [apply quiet_symptom_analysis_obj|]. intros a.
  apply quiet_bind; [apply quiet_patient_recommendation_obj|]. intros p.
  apply quiet_ret.
Qed.

Lemma generate_medical_report_never_interrupts env state :
  never_interrupts (generate_medical_report env state).
Proof.
  intros r p H. unfold generate_medical_report in H.
  apply bind_GraphInterrupt in H as [H | (text & w & _ & H)].
  - now apply quiet_report_content in H.
  - discriminate H.
Qed.

(** The first entry of [collect_medical_history] on a state without
    analysis does not suspend, and a whole run on empty symptoms ends
    without any interrupt. *)
Lemma collect_medical_history_suspend_counterexample :
  collect_medical_history (Stub.env Models.low [])
    (initial_state (Stub.input "")) None
  = Return
      (only_messages
         [AIMessage
            "No symptom analysis available for medical history collection"])
      []
  /\ state_of (stream_start (Stub.env Models.low []) (Stub.input ""))
     = Finished.
Proof. split; vm_compute; reflexivity. Qed.

(** C3 (amended).  [collect_medical_history] is the only node that can
    suspend.  On a first entry with an analysis that is present and not
    empty (its summary and urgency being strings) it calls [interrupt] with
    a prompt that shows the summary, the urgency and the possible
    conditions; the run stops there, the state unchanged and the node
    pending, until a resume value is given.  On a state whose analysis is
    missing or empty it does not suspend: it returns one status message. *)
Theorem collect_medical_history_sole_suspension env :
  (forall name body,
      Dict.lookup (nodes env) name = Some body ->
      name <> "collect_medical_history" ->
      forall state, never_interrupts (body state))
  /\ (forall state summary urgency,
        let analysis := get_or (symptom_analysis state) [] in
        Dict.truthy analysis = true ->
        Dict.get analysis "symptom_summary" (PStr "N/A") = PStr summary ->
        Dict.get analysis "urgency_level" (PStr "N/A") = PStr urgency ->
        exists payload head tail,
          collect_medical_history env state None = GraphInterrupt payload
          /\ payload
             = head ++ "- Summary: " ++ summary ++ nl
               ++ "- Urgency: " ++ urgency ++ nl
               ++ "- Possible conditions: "
               ++ py_str env
                    (Dict.get analysis "possible_conditions" (PList []))
               ++ tail
          /\ forall fuel,
               run env (S fuel) None "collect_medical_history" state
               = {| events := [Interrupted "collect_medical_history" payload];
                    files := []; values := state;
                    state_of := Pending "collect_medical_history" |})
  /\ (forall state resume,
        Dict.truthy (get_or (symptom_analysis state) []) = false ->
        collect_medical_history env state resume
        = Return
            (only_messages
               [AIMessage
                  "No symptom analysis available for medical history collection"])
            []).
Proof.
  split; [|split].
  - intros name body Hlk Hname state. simpl in Hlk.
    repeat match type of Hlk with
           | (if String.eqb name ?k then _ else _) = _ =>
               destruct (String.eqb_spec name k);
               [ inversion Hlk; subst; clear Hlk | ]
           end;
      try discriminate; try contradiction.
    + apply quiet_never_interrupts, quiet_collect_patient_info.
    + apply quiet_never_interrupts, quiet_analyze_symptoms_node.
    + apply quiet_never_interrupts, quiet_create_recommendations_node.
    + apply quiet_never_interrupts, quiet_escalation_advice_node.
    + apply generate_medical_report_never_interrupts.
  - intros state summary urgency analysis Ht Hs Hu.
    assert (Hm : exists payload head tail,
               interrupt_message env analysis None = Return payload []
               /\ payload
                  = head ++ "- Summary: " ++ summary ++ nl
                    ++ "- Urgency: " ++ urgency ++ nl
                    ++ "- Possible conditions: "
                    ++ py_str env
                         (Dict.get analysis "possible_conditions" (PList []))
                    ++ tail).
    { unfold interrupt_message, bind. rewrite Hs, Hu. simpl.
      eexists. eexists. eexists. split; [reflexivity|].
      instantiate (2 :=
        "Based on the symptom analysis, do you have relevant medical history "
        ++ "(medications, conditions, allergies, surgeries, family history) "
        ++ "that might help improve the recommendations?" ++ nl ++ nl
        ++ "Current analysis:" ++ nl).
      reflexivity. }
    destruct Hm as (payload & head & tail & Hm & Hp).
    assert (Hc : collect_medical_history env state None
                 = GraphInterrupt payload)
      by (apply collect_medical_history_suspends; auto).
    exists payload, head, tail. repeat split; auto.
    intros fuel. simpl. rewrite Hc. reflexivity.
  - intros state resume Ht. unfold collect_medical_history.
    now rewrite Ht.
Qed.

Lemma collect_medical_history_sole_suspension_witness :
  exists payload,
    collect_medical_history (Stub.env Models.urgent [])
      (analysed_state Models.urgent) None
    = GraphInterrupt payload.
Proof.
  destruct (proj1 (proj2 (collect_medical_history_sole_suspension
                            (Stub.env Models.urgent [])))
              (analysed_state Models.urgent)
              "Chest pain with shortness of breath" "urgent"
              eq_refl eq_refl eq_refl)
    as (payload & _ & _ & H & _).
  exists payload. exact H.
Defined.

(** ** medical_research *)

Lemma append_empty_r (s : string) : s ++ "" = s.
Proof. induction s as [|c r IH]; simpl; [reflexivity | now rewrite IH]. Qed.

(** The merge replaces the research notes: the update that
    [analyze_symptoms_node] returns on a state that already holds notes
    leaves none of them in the merged state. *)
Lemma medical_research_append_counterexample :
  exists update,
    analyze_symptoms_node (Stub.env Models.low [])
      (analysed_state Models.low) None
    = Return update []
    /\ medical_research (analysed_state Models.low)
       = Some "Research: earlier findings"
    /\ medical_research update = Some "No additional research needed"
    /\ medical_research (merge (analysed_state Models.low) update)
       = Some "No additional research needed"
    /\ medical_research (merge (analysed_state Models.low) update)
       <> Some ("Research: earlier findings"
                ++ "No additional research needed").
Proof.
  eexists. split; [vm_compute; reflexivity|].
  repeat split; try reflexivity. discriminate.
Qed.

Lemma create_recommendations_node_research env state resume update written :
  create_recommendations_node env state resume = Return update written ->
  forall notes,
    medical_research update = Some notes ->
    exists added, notes = get_or (medical_research state) "" ++ added.
Proof.
  unfold create_recommendations_node. intros H notes Hn.
  destruct (Dict.truthy (get_or (symptom_analysis state) [])); simpl in H.
  - apply bind_Return in H as (parsed & w1 & w2 & _ & H & _).
    apply bind_Return in H as (result & w3 & w4 & _ & H & _).
    unfold ret in H. inversion H; subst; clear H. simpl in Hn.
    inversion Hn; subst; clear Hn.
    destruct (PyStr.truthy (snd parsed)).
    + eexists. reflexivity.
    + exists "". now rewrite append_empty_r.
  - unfold ret in H. inversion H; subst. discriminate Hn.
Qed.

(** C7 (amended).  Under the state merge only [messages] is appended to;
    a [medical_research] value in an update replaces the stored notes.  The
    notes survive [create_recommendations_node] because that node itself
    returns the notes it read followed by what it adds: after its update is
    merged, the notes the state held are a prefix of the field. *)
Theorem medical_research_kept_by_recommendations
    env state resume update written notes :
  create_recommendations_node env state resume = Return update written ->
  medical_research state = Some notes ->
  (forall st upd new,
      medical_research upd = Some new ->
      medical_research (merge st upd) = Some new)
  /\ (forall st upd, messages (merge st upd) = (messages st ++ messages upd)%list)
  /\ (medical_research (merge state update) = Some notes
      \/ exists added,
           medical_research (merge state update) = Some (notes ++ added)).
Proof.
  intros H Hn. split; [|split].
  - intros st upd new Hu. simpl. now rewrite Hu.
  - reflexivity.
  - simpl. destruct (medical_research update) as [new|] eqn:Hu; simpl.
    + right.
      destruct (create_recommendations_node_research _ _ _ _ _ H new Hu)
        as (added & ->).
      rewrite Hn. simpl. now exists added.
    + now left.
Qed.

Lemma medical_research_kept_by_recommendations_witness :
  exists update written,
    create_recommendations_node
      (Stub.env Models.low
         [{| tc_name := "tavily_search"; tc_args := [("query", "headache")] |}])
      (analysed_state Models.low) None
    = Return update written
    /\ (medical_research (merge (analysed_state Models.low) update)
        = Some "Research: earlier findings"
        \/ exists added,
             medical_research (merge (analysed_state Models.low) update)
             = Some ("Research: earlier findings" ++ added)).
Proof.
  assert (H : exists u w,
             create_recommendations_node
               (Stub.env Models.low
                  [{| tc_name := "tavily_search";
                      tc_args := [("query", "headache")] |}])
               (analysed_state Models.low) None
             = Return u w) by (vm_compute; eauto).
  destruct H as (u & w & H). exists u, w. split; [exact H|].
  exact (proj2 (proj2
           (medical_research_kept_by_recommendations _ _ _ _ _ _ H eq_refl))).
Defined.

(** ** What each node returns *)

Lemma symptom_analysis_obj_dict a default_urgency resume :
  symptom_analysis_obj (analysis_dict a) default_urgency resume = Return a [].
Proof. destruct a as [s c u re]. destruct u; reflexivity. Qed.

Lemma patient_recommendation_obj_dict p resume :
  patient_recommendation_obj (recommendations_dict p) resume = Return p [].
Proof. destruct p as [i g w f]. destruct f; reflexivity. Qed.


Lemma collect_patient_info_messages state resume latest_message :
  last (map Some (messages state)) None = Some latest_message ->
  collect_patient_info state resume
  = Return
      {| messages := [AIMessage "Patient information collected successfully"];
         symptoms := Some (content_of latest_message);
         medical_history :=
           Some (get_or (medical_history state) "No medical history provided");
         symptom_analysis := None; medical_research := None;
         recommendations := None; escalation_advice := None;
         urgency_level := None; final_report := None;
         report_filepath := None |} [].
Proof. intros H. unfold collect_patient_info. now rewrite H. Qed.

Lemma collect_patient_info_no_message state resume :
  last (map Some (messages state)) None = None ->
  collect_patient_info state resume
  = Return (only_messages [AIMessage "No patient information found"]) [].
Proof. intros H. unfold collect_patient_info. now rewrite H. Qed.

Lemma analyze_symptoms_node_no_symptoms env state resume :
  get_or (symptoms state) "" = "" ->
  analyze_symptoms_node env state resume
  = Return (only_messages [AIMessage "No symptoms provided for analysis"]) [].
Proof. intros H. unfold analyze_symptoms_node. now rewrite H. Qed.

Lemma analyze_symptoms_node_symptoms env state resume :
  get_or (symptoms state) "" <> "" ->
  exists a notes text,
    analyze_symptoms_node env state resume
    = Return
        {| messages := [AIMessage text];
           symptoms := None; medical_history := None;
           symptom_analysis := Some (analysis_dict a);
           medical_research := Some notes;
           recommendations := None; escalation_advice := None;
           urgency_level :=
             Some (Models.urgency_str (Models.urgency_level a));
           final_report := None; report_filepath := None |} [].
Proof.
  intros H. unfold analyze_symptoms_node.
  destruct (get_or (symptoms state) "") as [|c s]; [contradiction|].
  cbn [PyStr.truthy negb].
  eexists. eexists. eexists. reflexivity.
Qed.

Lemma interrupt_message_dict env a resume :
  exists payload,
    interrupt_message env (analysis_dict a) resume = Return payload [].
Proof. eexists. reflexivity. Qed.

Lemma collect_medical_history_no_analysis env state resume :
  symptom_analysis state = None ->
  collect_medical_history env state resume
  = Return
      (only_messages
         [AIMessage
            "No symptom analysis available for medical history collection"])
      [].
Proof. intros H. unfold collect_medical_history. now rewrite H. Qed.

Lemma collect_medical_history_first_entry env state a :
  symptom_analysis state = Some (analysis_dict a) ->
  exists payload,
    collect_medical_history env state None = GraphInterrupt payload.
Proof.
  intros H. destruct (interrupt_message_dict env a None) as (payload & Hp).
  exists payload. apply collect_medical_history_suspends.
  rewrite H. split; [reflexivity | exact Hp].
Qed.

Lemma create_recommendations_node_no_analysis env state resume :
  symptom_analysis state = None ->
  create_recommendations_node env state resume
  = Return
      (only_messages
         [AIMessage "No symptom analysis available for recommendations"]) [].
Proof. intros H. unfold create_recommendations_node. now rewrite H. Qed.


Lemma escalation_advice_node_urgent env state resume a p :
  urgency_level state = Some "urgent" ->
  symptom_analysis state = Some (analysis_dict a) ->
  recommendations state = Some (recommendations_dict p) ->
  exists e,
    escalation_advice_node env state resume
    = Return
        {| messages := [AIMessage "Urgent escalation advice generated"];
           symptoms := None; medical_history := None;
           symptom_analysis := None; medical_research := None;
           recommendations := None;
           escalation_advice := Some (escalation_dict e);
           urgency_level := None; final_report := None;
           report_filepath := None |} [].
Proof.
  intros Hu Ha Hp. unfold escalation_advice_node. rewrite Hu, Ha, Hp.
  cbn [get_or]. change (String.eqb "urgent" "urgent") with true.
  change (Dict.truthy (analysis_dict a)) with true.
  change (Dict.truthy (recommendations_dict p)) with true.
  cbn [negb orb]. unfold bind at 1. rewrite symptom_analysis_obj_dict.
  unfold bind at 1. rewrite patient_recommendation_obj_dict.
  cbn. eexists. reflexivity.
Qed.

Lemma generate_medical_report_cases env state resume :
  (exists text path,
      generate_medical_report env state resume
      = Return
          {| messages :=
               [AIMessage
                  ("Medical analysis complete! Report saved to: " ++ path)];
             symptoms := None; medical_history := None;
             symptom_analysis := None; medical_research := None;
             recommendations := None; escalation_advice := None;
             urgency_level := None;
             final_report := Some text;
             report_filepath := Some path |} [(path, text)])
  \/ exists e, generate_medical_report env state resume = Raise e.
Proof.
  unfold generate_medical_report. unfold bind at 1.
  destruct (report_content env state resume) as [text w|payload|e] eqn:H.
  - apply quiet_report_content in H. subst w.
    left. eexists. eexists. reflexivity.
  - now apply quiet_report_content in H.
  - right. exists e. unfold bind at 1. now rewrite H.
Qed.

(** ** Running the graph *)

Lemma run_return env fuel resume node body state update written :
  String.eqb node END = false ->
  Dict.lookup (nodes env) node = Some body ->
  body state resume = Return update written ->
  forall node',
    successor node (merge state update) = Some node' ->
    let rest := run env fuel None node' (merge state update) in
    run env (S fuel) resume node state
    = {| events := Completed node update :: events rest;
         files := (written ++ files rest)%list;
         values := values rest;
         state_of := state_of rest |}.
Proof.
  intros Hend Hlk Hbody node' Hsucc rest.
  cbn [run]. rewrite Hend, Hlk, Hbody, Hsucc. reflexivity.
Qed.

Lemma run_raise env fuel resume node body state e :
  String.eqb node END = false ->
  Dict.lookup (nodes env) node = Some body ->
  body state resume = Raise e ->
  run env (S fuel) resume node state
  = {| events := []; files := []; values := state; state_of := Failed e |}.
Proof.
  intros Hend Hlk Hbody. cbn [run]. now rewrite Hend, Hlk, Hbody.
Qed.

Lemma run_interrupt env fuel resume node body state payload :
  String.eqb node END = false ->
  Dict.lookup (nodes env) node = Some body ->
  body state resume = GraphInterrupt payload ->
  run env (S fuel) resume node state
  = {| events := [Interrupted node payload]; files := [];
       values := state; state_of := Pending node |}.
Proof.
  intros Hend Hlk Hbody. cbn [run]. now rewrite Hend, Hlk, Hbody.
Qed.

Lemma run_END env fuel resume state :
  run env fuel resume END state
  = {| events := []; files := []; values := state; state_of := Finished |}.
Proof. destruct fuel; reflexivity. Qed.

Section Chaining.

Context (env : Env) (fuel : nat) (resume : option string).
Context (node node' : string) (body : MedicalState -> M MedicalState).
Context (state update : MedicalState) (written : list (string * string)).
Hypothesis not_END : String.eqb node END = false.
Hypothesis is_body : Dict.lookup (nodes env) node = Some body.
Hypothesis returns : body state resume = Return update written.
Hypothesis next : successor node (merge state update) = Some node'.

Lemma run_return_finished trace analysis urgency escalation :
  finished_as (run env fuel None node' (merge state update))
    trace analysis urgency escalation ->
  finished_as (run env (S fuel) resume node state)
    (Ran node :: trace) analysis urgency escalation.
Proof.
  intros (H1 & H2 & H3).
  rewrite (run_return env fuel resume node body state update written
             not_END is_body returns node' next).
  unfold finished_as, steps in *. cbn [events values state_of map step_of].
  rewrite H2. auto.
Qed.


Lemma run_return_pending trace state' :
  pending_as (run env fuel None node' (merge state update)) trace state' ->
  pending_as (run env (S fuel) resume node state) (Ran node :: trace) state'.
Proof.
  intros (H1 & H2 & H3).
  rewrite (run_return env fuel resume node body state update written
             not_END is_body returns node' next).
  unfold pending_as, steps in *. cbn [events values state_of map step_of].
  rewrite H2. auto.
Qed.

End Chaining.

Lemma successor_branch state :
  successor "create_recommendations_node" state
  = Some (if is_urgent state
          then "escalation_advice_node" else "generate_medical_report").
Proof.
  unfold successor, is_urgent. cbn [Dict.lookup conditional_edges String.eqb
    Ascii.eqb Bool.eqb andb].
  unfold should_escalate.
  destruct (urgency_level state) as [u|]; cbn [get_or].
  - destruct (String.eqb u "urgent"); reflexivity.
  - reflexivity.
Qed.

(** ** The tail of the workflow, from each node on *)

Lemma report_content_plain env state resume :
  symptom_analysis state = None ->
  recommendations state = None ->
  escalation_advice state = None ->
  exists text, report_content env state resume = Return text [].
Proof.
  intros H1 H2 H3. unfold report_content. rewrite H1, H2, H3.
  eexists. reflexivity.
Qed.


Lemma run_report_plain env fuel state :
  symptom_analysis state = None ->
  recommendations state = None ->
  escalation_advice state = None ->
  finished_as (run env (S fuel) None "generate_medical_report" state)
    [Ran "generate_medical_report"] None (urgency_level state) None.
Proof.
  intros H1 H2 H3.
  destruct (generate_medical_report_cases env state None)
    as [(text & path & H) | (e & H)].
  - eapply (run_return_finished env fuel None "generate_medical_report" END
              (generate_medical_report env) state _ _
              eq_refl eq_refl H eq_refl).
    rewrite run_END. unfold finished_as, steps. cbn.
    rewrite H1, H3. repeat split; discriminate.
  - exfalso. unfold generate_medical_report in H. unfold bind at 1 in H.
    destruct (report_content_plain env state None H1 H2 H3) as (text & Hc).
    rewrite Hc in H. discriminate H.
Qed.


Lemma is_urgent_str u :
  String.eqb (Models.urgency_str u) "urgent" = true ->
  Models.urgency_str u = "urgent".
Proof. apply String.eqb_eq. Qed.


Lemma run_recommendations_plain env fuel state :
  symptom_analysis state = None ->
  urgency_level state = None ->
  recommendations state = None ->
  escalation_advice state = None ->
  finished_as
    (run env (S (S fuel)) None "create_recommendations_node" state)
    [Ran "create_recommendations_node"; Ran "generate_medical_report"]
    None None None.
Proof.
  intros Ha Hu Hp He.
  pose proof (create_recommendations_node_no_analysis env state None Ha) as H.
  match type of H with _ = Return ?u _ => set (update := u) in * end.
  pose proof (successor_branch (merge state update)) as Hs.
  assert (Hi : is_urgent (merge state update) = false).
  { unfold is_urgent. change (urgency_level (merge state update))
      with (urgency_level state). now rewrite Hu. }
  rewrite Hi in Hs.
  eapply (run_return_finished env (S fuel) None
            "create_recommendations_node" "generate_medical_report"
            (create_recommendations_node env) state update []
            eq_refl eq_refl H Hs).
  pose proof (run_report_plain env fuel (merge state update) Ha Hp He) as Hr.
  change (urgency_level (merge state update))
    with (urgency_level state) in Hr.
  now rewrite Hu in Hr.
Qed.

Lemma run_history_plain env fuel resume state :
  symptom_analysis state = None ->
  urgency_level state = None ->
  recommendations state = None ->
  escalation_advice state = None ->
  finished_as
    (run env (S (S (S fuel))) resume "collect_medical_history" state)
    [Ran "collect_medical_history"; Ran "create_recommendations_node";
     Ran "generate_medical_report"]
    None None None.
Proof.
  intros Ha Hu Hp He.
  pose proof (collect_medical_history_no_analysis env state resume Ha) as H.
  eapply (run_return_finished env (S (S fuel)) resume
            "collect_medical_history" "create_recommendations_node"
            (collect_medical_history env) state _ []
            eq_refl eq_refl H eq_refl).
  now apply run_recommendations_plain.
Qed.


(** ** The first call to [stream] *)

Lemma collect_patient_info_returns input resume :
  exists update,
    collect_patient_info (initial_state input) resume = Return update []
    /\ get_or (symptoms (merge (initial_state input) update)) ""
       = reported_symptoms input
    /\ symptom_analysis update = None /\ urgency_level update = None
    /\ recommendations update = None /\ escalation_advice update = None.
Proof.
  unfold reported_symptoms.
  destruct (last (map Some (input_messages input)) None) as [m|] eqn:Hl.
  - eexists. split.
    + apply collect_patient_info_messages. exact Hl.
    + repeat split.
  - eexists. split.
    + apply collect_patient_info_no_message. exact Hl.
    + repeat split.
Qed.

Lemma run_start_plain env fuel input :
  reported_symptoms input = "" ->
  finished_as
    (run env (S (S (S (S (S fuel))))) None "collect_patient_info"
       (initial_state input))
    (expected_steps false false) None None None.
Proof.
  intros Hs.
  destruct (collect_patient_info_returns input None)
    as (u1 & H1 & Hsym & Ha1 & Hu1 & Hp1 & He1).
  rewrite Hs in Hsym.
  set (st1 := merge (initial_state input) u1) in *.
  pose proof (analyze_symptoms_node_no_symptoms env st1 None Hsym) as H2.
  eapply (run_return_finished env _ None
            "collect_patient_info" "analyze_symptoms_node"
            collect_patient_info (initial_state input) u1 []
            eq_refl eq_refl H1 eq_refl).
  eapply (run_return_finished env _ None
            "analyze_symptoms_node" "collect_medical_history"
            (analyze_symptoms_node env) st1 _ []
            eq_refl eq_refl H2 eq_refl).
  apply run_history_plain; subst st1; cbn.
  - now rewrite Ha1.
  - now rewrite Hu1.
  - now rewrite Hp1.
  - now rewrite He1.
Qed.

Lemma run_start_analysed env fuel input :
  reported_symptoms input <> "" ->
  exists a state,
    pending_as
      (run env (S (S (S fuel))) None "collect_patient_info"
         (initial_state input))
      [Ran "collect_patient_info"; Ran "analyze_symptoms_node";
       Suspended "collect_medical_history"]
      state
    /\ symptom_analysis state = Some (analysis_dict a)
    /\ urgency_level state
       = Some (Models.urgency_str (Models.urgency_level a))
    /\ escalation_advice state = None.
Proof.
  intros Hs.
  destruct (collect_patient_info_returns input None)
    as (u1 & H1 & Hsym & Ha1 & Hu1 & Hp1 & He1).
  rewrite <- Hsym in Hs.
  set (st1 := merge (initial_state input) u1) in *.
  destruct (analyze_symptoms_node_symptoms env st1 None Hs)
    as (a & notes & text & H2).
  match type of H2 with _ = Return ?u _ => set (u2 := u) in * end.
  destruct (collect_medical_history_first_entry env (merge st1 u2) a eq_refl)
    as (payload & H3).
  exists a, (merge st1 u2). split; [|split; [|split]].
  - eapply (run_return_pending env _ None
              "collect_patient_info" "analyze_symptoms_node"
              collect_patient_info (initial_state input) u1 []
              eq_refl eq_refl H1 eq_refl).
    eapply (run_return_pending env _ None
              "analyze_symptoms_node" "collect_medical_history"
              (analyze_symptoms_node env) st1 u2 []
              eq_refl eq_refl H2 eq_refl).
    rewrite (run_interrupt env fuel None "collect_medical_history"
               (collect_medical_history env) (merge st1 u2) payload
               eq_refl eq_refl H3).
    repeat split.
  - reflexivity.
  - reflexivity.
  - subst st1. cbn. now rewrite He1.
Qed.

(** ** A whole session *)

Lemma stream_start_run env input :
  stream_start env input
  = run env recursion_limit None "collect_patient_info" (initial_state input).
Proof. reflexivity. Qed.

Lemma stream_start_plain env input :
  reported_symptoms input = "" ->
  finished_as (stream_start env input)
    (expected_steps false false) None None None.
Proof.
  intros Hs. rewrite stream_start_run.
  exact (run_start_plain env 20 input Hs).
Qed.

Lemma stream_start_analysed env input :
  reported_symptoms input <> "" ->
  exists a state,
    pending_as (stream_start env input)
      [Ran "collect_patient_info"; Ran "analyze_symptoms_node";
       Suspended "collect_medical_history"]
      state
    /\ symptom_analysis state = Some (analysis_dict a)
    /\ urgency_level state
       = Some (Models.urgency_str (Models.urgency_level a))
    /\ escalation_advice state = None.
Proof.
  intros Hs. rewrite stream_start_run.
  exact (run_start_analysed env 22 input Hs).
Qed.


Lemma stream_resume_pending env first user_input node :
  state_of first = Pending node ->
  stream_resume env first user_input
  = run env recursion_limit (Some user_input) node (values first).
Proof. intros Hst. unfold stream_resume. now rewrite Hst. Qed.

Lemma resume_when_pending_finished env first user_input :
  state_of first = Finished ->
  resume_when_pending env first user_input = first.
Proof. intros H. unfold resume_when_pending. now rewrite H. Qed.

Lemma resume_when_pending_pending env first user_input node :
  state_of first = Pending node ->
  resume_when_pending env first user_input
  = let second := stream_resume env first user_input in
    {| events := events first ++ events second;
       files := files first ++ files second;
       values := values second;
       state_of := state_of second |}.
Proof. intros Hst. unfold resume_when_pending. now rewrite Hst. Qed.



(** ** The order of the steps *)







(** ** The escalation branch *)





(** ** Missing symptoms *)




(** ** The report step is terminal *)

Lemma node_names env name body :
  Dict.lookup (nodes env) name = Some body ->
  (name = "collect_patient_info" /\ body = collect_patient_info)
  \/ (name = "analyze_symptoms_node" /\ body = analyze_symptoms_node env)
  \/ (name = "collect_medical_history" /\ body = collect_medical_history env)
  \/ (name = "create_recommendations_node"
      /\ body = create_recommendations_node env)
  \/ (name = "escalation_advice_node" /\ body = escalation_advice_node env)
  \/ (name = "generate_medical_report" /\ body = generate_medical_report env).
Proof.
  intros Hlk. cbn [Dict.lookup nodes] in Hlk.
  repeat match type of Hlk with
         | (if String.eqb name ?k then _ else _) = _ =>
             destruct (String.eqb_spec name k);
             [ inversion Hlk; subst; clear Hlk; tauto | ]
         end.
  discriminate Hlk.
Qed.

(** Every node has a successor; it is [END] for the report step only, and
    a node of the graph otherwise. *)
Lemma successor_of_node env name body state :
  Dict.lookup (nodes env) name = Some body ->
  (name = "generate_medical_report" /\ successor name state = Some END)
  \/ (name <> "generate_medical_report"
      /\ exists name' body',
           successor name state = Some name'
           /\ Dict.lookup (nodes env) name' = Some body').
Proof.
  intros Hlk.
  destruct (node_names env name body Hlk)
    as [(-> & _) | [(-> & _) | [(-> & _) | [(-> & _) | [(-> & _) | (-> & _)]]]]].
  - right. split; [discriminate|]. eexists. eexists. split; reflexivity.
  - right. split; [discriminate|]. eexists. eexists. split; reflexivity.
  - right. split; [discriminate|]. eexists. eexists. split; reflexivity.
  - right. split; [discriminate|]. rewrite successor_branch.
    destruct (is_urgent state); eexists; eexists; split; reflexivity.
  - right. split; [discriminate|]. eexists. eexists. split; reflexivity.
  - left. split; reflexivity.
Qed.

Lemma node_not_END env name body :
  Dict.lookup (nodes env) name = Some body -> String.eqb name END = false.
Proof.
  intros Hlk.
  destruct (node_names env name body Hlk)
    as [(-> & _) | [(-> & _) | [(-> & _) | [(-> & _) | [(-> & _) | (-> & _)]]]]];
    reflexivity.
Qed.

Lemma generate_medical_report_sets_report env state resume update written :
  generate_medical_report env state resume = Return update written ->
  final_report update <> None.
Proof.
  intros H.
  destruct (generate_medical_report_cases env state resume)
    as [(text & path & H') | (e & H')]; rewrite H' in H.
  - inversion H; subst. discriminate.
  - discriminate H.
Qed.

(** A call that reaches the end of the graph has the report step as its
    last event, and its final state is the state in which that step
    completed. *)
Lemma run_finished_last env : forall fuel resume name body state,
  Dict.lookup (nodes env) name = Some body ->
  state_of (run env fuel resume name state) = Finished ->
  exists earlier state' resume' update written,
    events (run env fuel resume name state)
    = (earlier ++ [Completed "generate_medical_report" update])%list
    /\ generate_medical_report env state' resume' = Return update written
    /\ values (run env fuel resume name state) = merge state' update.
Proof.
  induction fuel as [|fuel IH]; intros resume name body state Hlk Hfin.
  - cbn [run] in Hfin. rewrite (node_not_END env name body Hlk) in Hfin.
    discriminate Hfin.
  - destruct (body state resume) as [update written|payload|e] eqn:Hb.
    + destruct (successor_of_node env name body (merge state update) Hlk)
        as [(-> & Hs) | (Hne & name' & body' & Hs & Hlk')].
      * assert (body = generate_medical_report env).
        { cbn in Hlk. now inversion Hlk. }
        subst body.
        rewrite (run_return env fuel resume "generate_medical_report"
                   (generate_medical_report env) state update written
                   eq_refl Hlk Hb END Hs) in *.
        rewrite run_END in *. cbn [events values].
        exists [], state, resume, update, written. auto.
      * pose proof (run_return env fuel resume name body state update written
                      (node_not_END env name body Hlk) Hlk Hb name' Hs) as Hr.
        cbv zeta in Hr. rewrite Hr in *. cbn [state_of] in Hfin.
        destruct (IH None name' body' (merge state update) Hlk' Hfin)
          as (earlier & state' & resume' & update' & written'
              & He & Hg & Hv).
        cbn [events values]. rewrite He, Hv.
        exists (Completed name update :: earlier), state', resume',
          update', written'. auto.
    + rewrite (run_interrupt env fuel resume name body state payload
                 (node_not_END env name body Hlk) Hlk Hb) in Hfin.
      discriminate Hfin.
    + rewrite (run_raise env fuel resume name body state e
                 (node_not_END env name body Hlk) Hlk Hb) in Hfin.
      discriminate Hfin.
Qed.

Lemma resume_when_pending_parts env first user_input node :
  state_of first = Pending node ->
  let r := resume_when_pending env first user_input in
  let second := stream_resume env first user_input in
  events r = (events first ++ events second)%list
  /\ values r = values second
  /\ state_of r = state_of second.
Proof.
  intros Hst r second. subst r second.
  rewrite (resume_when_pending_pending env first user_input node Hst).
  cbv zeta. cbn [events values state_of]. auto.
Qed.

Lemma session_finished_last env input user_input :
  state_of (session env input user_input) = Finished ->
  exists earlier state resume update written,
    events (session env input user_input)
    = (earlier ++ [Completed "generate_medical_report" update])%list
    /\ generate_medical_report env state resume = Return update written
    /\ values (session env input user_input) = merge state update.
Proof.
  unfold session. intros Hfin.
  destruct (String.eqb_spec (reported_symptoms input) "") as [Hs | Hs].
  - pose proof (stream_start_plain env input Hs) as (F1 & _).
    rewrite (resume_when_pending_finished env _ user_input F1).
    rewrite stream_start_run. rewrite stream_start_run in F1.
    exact (run_finished_last env recursion_limit None "collect_patient_info"
             collect_patient_info (initial_state input) eq_refl F1).
  - destruct (stream_start_analysed env input Hs)
      as (a & state & (P1 & P2 & P3) & _).
    destruct (resume_when_pending_parts env _ user_input _ P1)
      as (He & Hv & Hst).
    rewrite Hst in Hfin. rewrite He, Hv.
    rewrite (stream_resume_pending env _ user_input _ P1) in *.
    destruct (run_finished_last env recursion_limit (Some user_input)
                "collect_medical_history" (collect_medical_history env)
                (values (stream_start env input)) eq_refl Hfin)
      as (earlier & state' & resume' & update & written & He' & Hg & Hv').
    rewrite He', Hv'.
    exists (events (stream_start env input) ++ earlier)%list,
      state', resume', update, written.
    rewrite <- app_assoc. auto.
Qed.


(** * Further properties *)

(** ** deduplicate_search_results: order and absorption *)

Lemma mem_In x l : PyStr.mem x l = true <-> In x l.
Proof.
  unfold PyStr.mem. rewrite existsb_exists. split.
  - intros (y & Hy & E). apply String.eqb_eq in E. now subst.
  - intros H. exists x. split; [exact H | apply String.eqb_refl].
Qed.

Lemma mem_ext s s' :
  (forall u, In u s <-> In u s') -> forall u, PyStr.mem u s = PyStr.mem u s'.
Proof.
  intros H u. destruct (PyStr.mem u s) eqn:E1, (PyStr.mem u s') eqn:E2; auto.
  - apply mem_In, H, mem_In in E1. congruence.
  - apply mem_In, H, mem_In in E2. congruence.
Qed.

Lemma firsts_ext l : forall s s',
  (forall u, In u s <-> In u s') -> Search.firsts s l = Search.firsts s' l.
Proof.
  induction l as [|r l IH]; intros s s' H; simpl; auto.
  rewrite (mem_ext s s' H). destruct (PyStr.mem (url r) s').
  - now apply IH.
  - f_equal. apply IH. intros u. simpl. rewrite H. tauto.
Qed.

Lemma lookup_entries ds u :
  Dict.lookup (map entry_of ds) u = None <-> ~ In u (map url ds).
Proof.
  rewrite lookup_none_keys. unfold Dict.keys. rewrite map_map. reflexivity.
Qed.

Lemma contains_entries ds u :
  Dict.contains (map entry_of ds) u = PyStr.mem u (map url ds).
Proof.
  unfold Dict.contains.
  destruct (Dict.lookup (map entry_of ds) u) eqn:E,
           (PyStr.mem u (map url ds)) eqn:M; auto.
  - assert (Hn : ~ In u (map url ds)).
    { intros Hin. apply mem_In in Hin. congruence. }
    apply lookup_entries in Hn. congruence.
  - apply lookup_entries in E. apply mem_In in M. contradiction.
Qed.

Lemma set_absent {V} (d : dict V) k v :
  Dict.lookup d k = None -> Dict.set d k v = (d ++ [(k, v)])%list.
Proof.
  induction d as [|[k' v'] d IH]; simpl; auto.
  destruct (String.eqb k k'); [discriminate|].
  intros H. now rewrite IH.
Qed.

Lemma fold_keep_first_firsts l : forall ds,
  fold_left keep_first l (map entry_of ds)
  = map entry_of (ds ++ Search.firsts (map url ds) l).
Proof.
  induction l as [|r l IH]; intros ds; simpl.
  - now rewrite app_nil_r.
  - unfold keep_first at 2. rewrite contains_entries.
    destruct (PyStr.mem (url r) (map url ds)) eqn:M.
    + apply IH.
    + rewrite set_absent.
      * change [(url r, r)] with (map entry_of [r]). rewrite <- map_app.
        rewrite IH. rewrite <- app_assoc. simpl. do 3 f_equal.
        apply firsts_ext. intros u. rewrite map_app, in_app_iff.
        simpl. tauto.
      * apply lookup_entries. intros Hin. apply mem_In in Hin. congruence.
Qed.

Lemma deduplicate_firsts rs :
  deduplicate_search_results rs
  = map entry_of (Search.firsts [] (all_results rs)).
Proof.
  unfold deduplicate_search_results. rewrite dedup_as_one_loop.
  exact (fold_keep_first_firsts (all_results rs) []).
Qed.

Lemma firsts_distinct l : forall seen,
  NoDup (map url l) ->
  (forall u, In u (map url l) -> ~ In u seen) ->
  Search.firsts seen l = l.
Proof.
  induction l as [|r l IH]; intros seen Hnd Hdis; simpl; auto.
  inversion Hnd as [|? ? Hnotin Hnd']; subst.
  destruct (PyStr.mem (url r) seen) eqn:M.
  - apply mem_In in M. exfalso. apply (Hdis (url r)); simpl; auto.
  - f_equal. apply IH; auto.
    intros u Hu [<- | Hs]; [contradiction|].
    apply (Hdis u); simpl; auto.
Qed.

Lemma firsts_length l : forall seen,
  List.length (Search.firsts seen l) <= List.length l.
Proof.
  induction l as [|r l IH]; intros seen; simpl; auto.
  destruct (PyStr.mem (url r) seen); simpl.
  - specialize (IH seen). lia.
  - specialize (IH (url r :: seen)). lia.
Qed.

(** X1.  The dictionary holds the kept results in the order in which the
    loops first meet their URLs: it is the one-pass scan that keeps a
    result when its URL has not been seen.  It never has more entries than
    there are results, every key is the URL of its entry, and when the
    URLs of the results are pairwise distinct nothing is dropped or
    reordered. *)
Theorem deduplicate_search_results_order rs :
  deduplicate_search_results rs
  = map entry_of (Search.firsts [] (all_results rs))
  /\ List.length (deduplicate_search_results rs)
     <= List.length (all_results rs)
  /\ Forall (fun e => fst e = url (snd e)) (deduplicate_search_results rs)
  /\ (NoDup (map url (all_results rs)) ->
      deduplicate_search_results rs = map entry_of (all_results rs)).
Proof.
  repeat split.
  - apply deduplicate_firsts.
  - rewrite deduplicate_firsts, length_map. apply firsts_length.
  - rewrite deduplicate_firsts. apply Forall_forall.
    intros e He. apply in_map_iff in He as (r & <- & _). reflexivity.
  - intros Hnd. rewrite deduplicate_firsts. f_equal.
    apply firsts_distinct; auto.
Qed.

Lemma deduplicate_search_results_order_witness :
  deduplicate_search_results
    [{| results :=
          [Search.page "https://a.example" "A" "a" None;
           Search.page "https://b.example" "B" "b" None] |}]
  = [("https://a.example", Search.page "https://a.example" "A" "a" None);
     ("https://b.example", Search.page "https://b.example" "B" "b" None)].
Proof.
  rewrite (proj2 (proj2 (proj2 (deduplicate_search_results_order _)))).
  - reflexivity.
  - repeat constructor; simpl; intuition discriminate.
Defined.

Lemma keep_first_present d r :
  Dict.contains d (url r) = true -> keep_first d r = d.
Proof. intros H. unfold keep_first. now rewrite H. Qed.

Lemma fold_keep_first_present l : forall d,
  (forall r, In r l -> Dict.contains d (url r) = true) ->
  fold_left keep_first l d = d.
Proof.
  induction l as [|r l IH]; intros d H; simpl; auto.
  rewrite keep_first_present by (apply H; simpl; auto).
  apply IH. intros r' Hr'. apply H. simpl. auto.
Qed.

(** X2.  Responses that bring no new URL change nothing: when every URL of
    the later responses already occurs in the earlier ones, the result is
    the result on the earlier ones alone.  In particular a list of
    responses repeated twice gives the same dictionary. *)
Theorem deduplicate_search_results_absorbs rs rs' :
  (forall u, In u (map url (all_results rs')) ->
             In u (map url (all_results rs))) ->
  deduplicate_search_results (rs ++ rs') = deduplicate_search_results rs
  /\ deduplicate_search_results (rs ++ rs) = deduplicate_search_results rs.
Proof.
  assert (G : forall a b,
             (forall u, In u (map url (all_results b)) ->
                        In u (map url (all_results a))) ->
             deduplicate_search_results (a ++ b)
             = deduplicate_search_results a).
  { intros a b H. unfold deduplicate_search_results.
    rewrite fold_left_app. rewrite (dedup_as_one_loop b).
    apply fold_keep_first_present. intros r Hr.
    unfold Dict.contains. rewrite dedup_as_one_loop, fold_keep_first_lookup.
    cbn [Dict.lookup].
    destruct (first_with_url (url r) (all_results a)) eqn:E; auto.
    exfalso. assert (Hin : In (url r) (map url (all_results a))).
    { apply H. now apply in_map. }
    apply first_with_url_in in Hin. contradiction. }
  intros H. split; [now apply G | apply G; auto].
Qed.

Lemma deduplicate_search_results_absorbs_witness :
  let r := {| results := [Search.page "https://a.example" "A" "a" None] |} in
  let r' :=
    {| results := [Search.page "https://a.example" "A, again" "a" None] |} in
  deduplicate_search_results ([r] ++ [r']) = deduplicate_search_results [r].
Proof.
  intros r r'.
  apply (proj1 (deduplicate_search_results_absorbs [r] [r']
                  (fun u H => H))).
Defined.

(** ** summarize_webpage_content, process_search_results, tavily_search *)

Lemma length_append_str (a b : string) :
  String.length (a ++ b) = String.length a + String.length b.
Proof. induction a as [|c a IH]; simpl; [reflexivity | now rewrite IH]. Qed.

Lemma slice_to_length n : forall s,
  String.length (PyStr.slice_to n s) = Nat.min n (String.length s).
Proof.
  induction n as [|n IH]; intros [|c s]; simpl; auto.
Qed.

Lemma slice_to_all n : forall s,
  String.length s <= n -> PyStr.slice_to n s = s.
Proof.
  induction n as [|n IH]; intros [|c s]; simpl; intros H; auto.
  - lia.
  - f_equal. apply IH. lia.
Qed.

Lemma slice_to_append n : forall s t,
  n <= String.length s -> PyStr.slice_to n (s ++ t) = PyStr.slice_to n s.
Proof.
  induction n as [|n IH]; intros [|c s] t; simpl; intros H; auto.
  - lia.
  - f_equal. apply IH. lia.
Qed.

Lemma slice_to_idem n s :
  PyStr.slice_to n (PyStr.slice_to n s) = PyStr.slice_to n s.
Proof.
  apply slice_to_all. rewrite slice_to_length. lia.
Qed.

(** X3.  When the summarization call fails, the function still returns
    text: the content itself when it has at most 1000 characters, and
    otherwise its first 1000 characters followed by "..."; so the fallback
    has at most 1003 characters and starts like the content. *)
Theorem summarize_webpage_content_fallback env webpage_content :
  Search.summarization_model env
    ("Summarize this content:" ++ nl ++ nl ++ webpage_content
     ++ nl ++ nl ++ "Today's date: " ++ Search.today_str env) = None ->
  let out := Search.summarize_webpage_content env webpage_content in
  String.length out <= 1003
  /\ (String.length webpage_content <= 1000 -> out = webpage_content)
  /\ (1000 < String.length webpage_content ->
      out = PyStr.slice_to 1000 webpage_content ++ "..."
      /\ String.length out = 1003)
  /\ PyStr.slice_to 1000 out = PyStr.slice_to 1000 webpage_content.
Proof.
  intros H out. subst out. unfold Search.summarize_webpage_content.
  rewrite H.
  destruct (Nat.ltb_spec 1000 (String.length webpage_content)) as [L | L].
  - assert (E : String.length (PyStr.slice_to 1000 webpage_content ++ "...")
                = 1003).
    { rewrite length_append_str, slice_to_length.
      rewrite Nat.min_l by lia. reflexivity. }
    repeat split.
    + lia.
    + intros L'. lia.
    + exact E.
    + rewrite slice_to_append.
      * apply slice_to_idem.
      * rewrite slice_to_length. lia.
  - repeat split; try lia.
Qed.

Lemma summarize_webpage_content_fallback_witness :
  Search.summarize_webpage_content Search.stub_env "A long page about migraine"
  = "A long page about migraine".
Proof.
  apply (proj1 (proj2 (summarize_webpage_content_fallback Search.stub_env
                         "A long page about migraine" eq_refl))).
  vm_compute. repeat constructor.
Defined.

(** The entry that [process_search_results] stores for an entry. *)
Lemma process_one_absent env acc entry :
  Dict.lookup acc (fst entry) = None ->
  exists c,
    Search.process_one env acc entry
    = (acc ++ [(fst entry,
                {| Search.processed_title := title (snd entry);
                   Search.processed_content := c |})])%list
    /\ (raw_content (snd entry) = None \/ raw_content (snd entry) = Some "" ->
        c = content (snd entry))
    /\ (forall raw, raw_content (snd entry) = Some raw -> raw <> "" ->
        c = Search.summarize_webpage_content env raw).
Proof.
  intros H. unfold Search.process_one. rewrite set_absent by exact H.
  eexists. split; [reflexivity|]. split.
  - intros [-> | ->]; reflexivity.
  - intros raw -> Hne. destruct raw; [contradiction | reflexivity].
Qed.


Lemma fold_process_one env l : forall acc,
  NoDup (Dict.keys acc ++ Dict.keys l) ->
  exists out,
    fold_left (Search.process_one env) l acc = (acc ++ out)%list
    /\ Forall2 (processed_from env) l out.
Proof.
  induction l as [|entry l IH]; intros acc Hnd; simpl.
  - exists []. split; [now rewrite app_nil_r | constructor].
  - assert (Hab : Dict.lookup acc (fst entry) = None).
    { apply lookup_none_keys. intros Hin.
      apply NoDup_remove_2 in Hnd. apply Hnd.
      apply in_or_app. now left. }
    destruct (process_one_absent env acc entry Hab) as (c & -> & Hc1 & Hc2).
    destruct (IH (acc ++ [(fst entry,
                           {| Search.processed_title := title (snd entry);
                              Search.processed_content := c |})])%list)
      as (out & -> & Hout).
    { unfold Dict.keys in *. rewrite map_app, <- app_assoc. exact Hnd. }
    eexists. split; [now rewrite <- app_assoc|].
    constructor; [|exact Hout]. repeat split; auto.
Qed.

Lemma Forall2_keys env l out :
  Forall2 (processed_from env) l out -> Dict.keys out = Dict.keys l.
Proof.
  induction 1 as [|e e' l out (Hk & _) _ IH]; simpl; [reflexivity|].
  now rewrite Hk, IH.
Qed.

(** X4.  Processing what the deduplication returns keeps every URL, once
    and in the same order, with the title of its result; the content is
    the content of the result when it has no raw content (missing or
    empty) and the summary of the raw content otherwise. *)
Theorem process_search_results_entries env rs :
  let unique_results := deduplicate_search_results rs in
  let summarized_results := Search.process_search_results env unique_results in
  Dict.keys summarized_results = Dict.keys unique_results
  /\ NoDup (Dict.keys summarized_results)
  /\ Forall2 (processed_from env) unique_results summarized_results.
Proof.
  intros unique_results summarized_results.
  assert (Hnd : NoDup (Dict.keys unique_results)).
  { unfold unique_results, deduplicate_search_results.
    rewrite dedup_as_one_loop. apply fold_keep_first_nodup. constructor. }
  destruct (fold_process_one env unique_results []) as (out & Ho & Hf).
  { exact Hnd. }
  assert (E : summarized_results = out) by exact Ho.
  rewrite E. pose proof (Forall2_keys env _ _ Hf) as Hk.
  rewrite Hk. auto.
Qed.

Lemma format_search_output_results d :
  Search.format_search_output d = Search.no_results <-> d = [].
Proof.
  unfold Search.format_search_output. destruct d as [|e d]; simpl.
  - tauto.
  - split; discriminate.
Qed.

(** X5.  The search tool answers with the "no valid search results"
    sentence exactly when the client returns no result for the query; as
    soon as there is one result the answer is the list of sources. *)
Theorem tavily_search_no_results env query max_results topic :
  Search.tavily_search env query max_results topic = Search.no_results
  <-> results (Search.tavily_client_search env query max_results true topic)
      = [].
Proof.
  unfold Search.tavily_search, Search.tavily_search_multiple.
  rewrite format_search_output_results. cbn [map].
  set (response :=
         Search.tavily_client_search env query max_results true topic).
  assert (Hk : Dict.keys
                 (Search.process_search_results env
                    (deduplicate_search_results [response]))
               = Dict.keys (deduplicate_search_results [response])).
  { destruct (fold_process_one env (deduplicate_search_results [response]) [])
      as (out & Ho & Hf).
    - unfold deduplicate_search_results.
      rewrite dedup_as_one_loop. apply fold_keep_first_nodup. constructor.
    - assert (E : Search.process_search_results env
                    (deduplicate_search_results [response]) = out)
        by exact Ho.
      rewrite E. exact (Forall2_keys env _ _ Hf). }
  rewrite deduplicate_firsts in *.
  unfold all_results in *. cbn [flat_map] in *. rewrite app_nil_r in *.
  split.
  - intros H. rewrite H in Hk. unfold Dict.keys in Hk. cbn [map] in Hk.
    symmetry in Hk. apply map_eq_nil in Hk. apply map_eq_nil in Hk.
    destruct (results response) as [|r l]; [reflexivity|].
    cbn in Hk. discriminate Hk.
  - intros H. rewrite H. reflexivity.
Qed.

(** ** The stored dictionaries and the pydantic models *)

Lemma urgency_str_inj u u' :
  Models.urgency_str u = Models.urgency_str u' -> u = u'.
Proof. destruct u, u'; simpl; intros H; (reflexivity || discriminate H). Qed.

Lemma validate_urgency_returns v u resume :
  Validate.urgency v resume = Return u []
  <-> v = PStr (Models.urgency_str u).
Proof.
  destruct v as [|s|l]; simpl; try (split; discriminate).
  destruct (String.eqb_spec s "low") as [-> | H1].
  { destruct u; simpl; split; intros H; (reflexivity || discriminate H). }
  destruct (String.eqb_spec s "moderate") as [-> | H2].
  { destruct u; simpl; split; intros H; (reflexivity || discriminate H). }
  destruct (String.eqb_spec s "urgent") as [-> | H3].
  { destruct u; simpl; split; intros H; (reflexivity || discriminate H). }
  split; [discriminate|].
  intros H. inversion H; subst. destruct u; simpl in *; contradiction.
Qed.

Lemma validate_urgency_cases v resume :
  (exists u, Validate.urgency v resume = Return u [])
  \/ Validate.urgency v resume = Raise ValidationError.
Proof.
  destruct v as [|s|l]; simpl; auto.
  destruct (String.eqb s "low"); [left; eexists; reflexivity|].
  destruct (String.eqb s "moderate"); [left; eexists; reflexivity|].
  destruct (String.eqb s "urgent"); [left; eexists; reflexivity|].
  now right.
Qed.

(** X6.  What a node stores can be read back: validating the dictionary
    stored for an analysis gives that analysis again, whatever the default
    urgency of the caller, and validating the dictionary stored for a
    recommendation gives that recommendation again, a missing follow-up
    included. *)
Theorem stored_dictionaries_round_trip a p default_urgency resume :
  symptom_analysis_obj (analysis_dict a) default_urgency resume = Return a []
  /\ patient_recommendation_obj (recommendations_dict p) resume = Return p []
  /\ Dict.keys (analysis_dict a)
     = ["symptom_summary"; "possible_conditions"; "urgency_level"; "reasoning"]
  /\ Dict.keys (recommendations_dict p)
     = ["immediate_actions"; "general_care"; "when_to_seek_help"; "follow_up"].
Proof.
  repeat split.
  - apply symptom_analysis_obj_dict.
  - apply patient_recommendation_obj_dict.
Qed.

(** X7.  The validation of an analysis dictionary succeeds exactly when the
    summary and the reasoning are strings, the conditions a list and the
    urgency one of "low", "moderate", "urgent" (a missing key taking its
    default); it then returns these values.  In every other case it raises
    a validation error; it never suspends and never writes. *)
Theorem symptom_analysis_obj_valid analysis default_urgency resume :
  (forall a,
      symptom_analysis_obj analysis default_urgency resume = Return a []
      <-> Dict.get analysis "symptom_summary" (PStr "")
          = PStr (Models.symptom_summary a)
          /\ Dict.get analysis "possible_conditions" (PList [])
             = PList (Models.possible_conditions a)
          /\ Dict.get analysis "urgency_level" (PStr default_urgency)
             = PStr (Models.urgency_str (Models.urgency_level a))
          /\ Dict.get analysis "reasoning" (PStr "")
             = PStr (Models.reasoning a))
  /\ ((exists a,
          symptom_analysis_obj analysis default_urgency resume = Return a [])
      \/ symptom_analysis_obj analysis default_urgency resume
         = Raise ValidationError).
Proof.
  unfold symptom_analysis_obj, bind.
  destruct (Dict.get analysis "symptom_summary" (PStr "")) as [|s|l1];
    cbn; try (split; [intros a; split; [discriminate | intros (H & _);
                                        discriminate H] | now right]).
  destruct (Dict.get analysis "possible_conditions" (PList [])) as [|s2|l];
    cbn; try (split; [intros a; split; [discriminate | intros (_ & H & _);
                                        discriminate H] | now right]).
  pose proof (validate_urgency_returns
                (Dict.get analysis "urgency_level" (PStr default_urgency)))
    as Hu.
  destruct (validate_urgency_cases
              (Dict.get analysis "urgency_level" (PStr default_urgency))
              resume) as [(u & Eu) | Eu]; rewrite Eu.
  - destruct (Dict.get analysis "reasoning" (PStr "")) as [|re|l3]; cbn;
      try (split; [intros a; split; [discriminate | intros (_ & _ & _ & H);
                                     discriminate H] | now right]).
    split; [|left; eexists; reflexivity].
    intros a. split.
    + intros H. inversion H; subst; clear H. cbn.
      repeat split. exact (proj1 (Hu _ _) Eu).
    + intros (H1 & H2 & H3 & H4). inversion H1; inversion H2; inversion H4.
      subst. apply (proj2 (Hu (Models.urgency_level a) resume)) in H3.
      rewrite H3 in Eu. inversion Eu; subst. now destruct a.
  - split; [|now right]. intros a. split; [discriminate|].
    intros (_ & _ & H3 & _).
    apply (proj2 (Hu (Models.urgency_level a) resume)) in H3.
    rewrite H3 in Eu. discriminate Eu.
Qed.

(** ** analyze_symptoms_node *)

Lemma append_assoc_str (a b c : string) : (a ++ b) ++ c = a ++ (b ++ c).
Proof. induction a as [|x a IH]; simpl; [reflexivity | now rewrite IH]. Qed.

Lemma find_last {A} (f : A -> bool) l x :
  find f (List.rev (x :: l))
  = match find f (List.rev l) with
    | Some y => Some y
    | None => if f x then Some x else None
    end.
Proof.
  simpl. generalize (List.rev l) as m. induction m as [|y m IH]; simpl.
  - reflexivity.
  - destruct (f y); auto.
Qed.

Lemma fold_tool_calls {R} (result : tool_call -> R)
      (line : tool_call -> string) calls : forall acc,
  fold_left
    (fun acc tc =>
       if String.eqb (tc_name tc) "analyze_symptoms"
       then (Some (result tc), snd acc)
       else if String.eqb (tc_name tc) "tavily_search"
       then (fst acc, snd acc ++ line tc)
       else acc)
    calls acc
  = (match find is_analyze_call (List.rev calls) with
     | Some tc => Some (result tc)
     | None => fst acc
     end,
     snd acc ++ concat_str (map line (filter is_research_call calls))).
Proof.
  induction calls as [|tc calls IH]; intros [r s].
  - simpl. now rewrite append_empty_r.
  - cbn [fold_left]. rewrite find_last. cbn [filter].
    assert (Hr : is_research_call tc
                 = negb (String.eqb (tc_name tc) "analyze_symptoms")
                   && String.eqb (tc_name tc) "tavily_search")
      by reflexivity.
    assert (Ha : is_analyze_call tc
                 = String.eqb (tc_name tc) "analyze_symptoms")
      by reflexivity.
    rewrite Hr, Ha. clear Hr Ha.
    destruct (String.eqb (tc_name tc) "analyze_symptoms") eqn:Ea;
      cbn [negb andb].
    + rewrite IH. cbn [fst snd].
      destruct (find is_analyze_call (List.rev calls)); reflexivity.
    + destruct (String.eqb (tc_name tc) "tavily_search");
        rewrite IH; cbn [map concat_str fst snd].
      * rewrite append_assoc_str.
        destruct (find is_analyze_call (List.rev calls)); reflexivity.
      * destruct (find is_analyze_call (List.rev calls)); reflexivity.
Qed.

Lemma analysis_tool_calls_from env calls :
  analysis_tool_calls env calls
  = (match find is_analyze_call (List.rev calls) with
     | Some tc => Some (analyze_symptoms env (tc_args tc))
     | None => None
     end,
     concat_str
       (map (fun tc =>
               "Research: " ++ tavily_search env (tc_args tc) ++ nl)
          (filter is_research_call calls))).
Proof.
  exact (fold_tool_calls
           (fun tc => analyze_symptoms env (tc_args tc))
           (fun tc => "Research: " ++ tavily_search env (tc_args tc) ++ nl)
           calls (None, EmptyString)).
Qed.

(** X8.  In the loop over the tool calls of the analysis step the last
    call named "analyze_symptoms" gives the result (no such call leaves it
    undecided, and the node then calls the tool itself); every call named
    "tavily_search" adds one line of research, in the order of the calls,
    and calls with any other name are ignored. *)
Theorem analysis_tool_calls_last_wins env calls :
  fst (analysis_tool_calls env calls)
  = match find is_analyze_call (List.rev calls) with
    | Some tc => Some (analyze_symptoms env (tc_args tc))
    | None => None
    end
  /\ snd (analysis_tool_calls env calls)
     = concat_str
         (map (fun tc =>
                 "Research: " ++ tavily_search env (tc_args tc) ++ nl)
            (filter is_research_call calls))
  /\ (forall before tc after,
        calls = (before ++ tc :: after)%list ->
        is_analyze_call tc = true ->
        forallb (fun c => negb (is_analyze_call c)) after = true ->
        fst (analysis_tool_calls env calls)
        = Some (analyze_symptoms env (tc_args tc))).
Proof.
  rewrite analysis_tool_calls_from. cbn [fst snd]. repeat split.
  intros before tc after -> Htc Hafter.
  rewrite rev_app_distr. cbn [List.rev]. rewrite <- app_assoc. cbn [app].
  assert (G : find is_analyze_call (List.rev after) = None).
  { destruct (find is_analyze_call (List.rev after)) as [y|] eqn:G; auto.
    apply find_some in G as (Hin & Hy). apply in_rev in Hin.
    rewrite forallb_forall in Hafter. apply Hafter in Hin.
    rewrite Hy in Hin. discriminate Hin. }
  clear Hafter. induction (List.rev after) as [|y m IH]; cbn in *.
  - now rewrite Htc.
  - destruct (is_analyze_call y); [discriminate G|]. now apply IH.
Qed.

Lemma analysis_tool_calls_last_wins_witness :
  fst (analysis_tool_calls (Stub.env Models.moderate [])
         [{| tc_name := "analyze_symptoms"; tc_args := [("symptoms", "a")] |};
          {| tc_name := "tavily_search"; tc_args := [("query", "b")] |}])
  = Some (Stub.analysis Models.moderate).
Proof.
  apply (proj2 (proj2 (analysis_tool_calls_last_wins
                         (Stub.env Models.moderate []) _))
           []
           {| tc_name := "analyze_symptoms";
              tc_args := [("symptoms", "a")] |}
           [{| tc_name := "tavily_search"; tc_args := [("query", "b")] |}]);
    reflexivity.
Defined.

(** X9.  On non-empty symptoms the analysis step returns an update whose
    parts agree: the urgency level it sets is the one held by the analysis
    it stores, one of "low", "moderate" and "urgent"; the stored analysis
    has the four keys of the model and validates again in the later steps,
    whatever their default urgency; the research notes are never empty;
    the patient's symptoms and history are left as they are; nothing is
    written and the node does not suspend. *)
Theorem analyze_symptoms_node_consistent env state resume :
  get_or (symptoms state) "" <> "" ->
  exists update analysis urgency notes,
    analyze_symptoms_node env state resume = Return update []
    /\ symptom_analysis update = Some analysis
    /\ urgency_level update = Some urgency
    /\ Dict.lookup analysis "urgency_level" = Some (PStr urgency)
    /\ In urgency ["low"; "moderate"; "urgent"]
    /\ Dict.keys analysis
       = ["symptom_summary"; "possible_conditions"; "urgency_level";
          "reasoning"]
    /\ (forall default_urgency resume',
          exists a,
            symptom_analysis_obj analysis default_urgency resume'
            = Return a [])
    /\ medical_research update = Some notes
    /\ notes <> ""
    /\ symptoms update = None
    /\ medical_history update = None.
Proof.
  intros H. unfold analyze_symptoms_node.
  destruct (get_or (symptoms state) "") as [|c s]; [contradiction|].
  cbn [PyStr.truthy negb].
  match goal with
  | |- context [match fst ?p with Some r => r | None => ?d end] =>
      set (a := match fst p with Some r => r | None => d end);
      set (research := snd p)
  end.
  eexists. exists (analysis_dict a).
  exists (Models.urgency_str (Models.urgency_level a)).
  exists (if PyStr.truthy research then research
          else "No additional research needed").
  split; [reflexivity|]. cbn [symptom_analysis urgency_level medical_research
                              symptoms medical_history].
  repeat split.
  - destruct (Models.urgency_level a); simpl; auto.
  - intros d r. exists a. apply symptom_analysis_obj_dict.
  - destruct research; simpl; discriminate.
Qed.

Lemma analyze_symptoms_node_consistent_witness :
  exists update,
    analyze_symptoms_node (Stub.env Models.urgent [])
      (initial_state (Stub.input "chest pain")) None
    = Return update []
    /\ urgency_level update = Some "urgent".
Proof.
  destruct (analyze_symptoms_node_consistent (Stub.env Models.urgent [])
              (initial_state (Stub.input "chest pain")) None)
    as (update & analysis & urgency & notes & Hr & _ & Hu & _).
  - simpl. discriminate.
  - exists update. split; [exact Hr|].
    vm_compute in Hr. inversion Hr; subst. reflexivity.
Defined.

(** ** str.strip *)

Lemma lstrip_head s :
  PyStr.lstrip s = EmptyString
  \/ exists c r, PyStr.lstrip s = String c r /\ PyStr.isspace c = false.
Proof.
  induction s as [|c r IH]; [now left|].
  cbn [PyStr.lstrip]. destruct (PyStr.isspace c) eqn:E; [exact IH|].
  right. now exists c, r.
Qed.

Lemma rstrip_head c r :
  PyStr.isspace c = false ->
  PyStr.rstrip (String c r) = String c (PyStr.rstrip r).
Proof.
  intros E. cbn [PyStr.rstrip]. rewrite E.
  now destruct (PyStr.rstrip r).
Qed.

Lemma rstrip_idem s : PyStr.rstrip (PyStr.rstrip s) = PyStr.rstrip s.
Proof.
  induction s as [|c r IH]; [reflexivity|].
  cbn [PyStr.rstrip]. destruct (PyStr.rstrip r) as [|c' k] eqn:E.
  - destruct (PyStr.isspace c) eqn:Ec; [reflexivity|].
    cbn [PyStr.rstrip]. now rewrite Ec.
  - change (PyStr.rstrip (String c (String c' k)))
      with (match PyStr.rstrip (String c' k) with
            | EmptyString =>
                if PyStr.isspace c then EmptyString else String c EmptyString
            | kept => String c kept
            end).
    now rewrite IH.
Qed.

Lemma strip_idem s : PyStr.strip (PyStr.strip s) = PyStr.strip s.
Proof.
  unfold PyStr.strip.
  destruct (lstrip_head s) as [E | (c & r & E & Hc)]; rewrite E.
  - reflexivity.
  - rewrite (rstrip_head c r Hc). cbn [PyStr.lstrip]. rewrite Hc.
    rewrite <- (rstrip_head c r Hc). apply rstrip_idem.
Qed.

Lemma lower_empty s : PyStr.lower s = EmptyString -> s = EmptyString.
Proof. destruct s; [reflexivity | discriminate]. Qed.

Lemma history_rule_condition v :
  String.eqb v ""
  || PyStr.mem (PyStr.lower (PyStr.strip v)) ["no"; "none"; "n/a"; ""]
  = PyStr.mem (PyStr.lower (PyStr.strip v)) ["no"; "none"; "n/a"; ""].
Proof.
  destruct (String.eqb_spec v "") as [-> | _]; reflexivity.
Qed.

Lemma strip_empty_mem v :
  PyStr.strip v = EmptyString ->
  PyStr.mem (PyStr.lower (PyStr.strip v)) ["no"; "none"; "n/a"; ""] = true.
Proof. intros ->. reflexivity. Qed.

Lemma history_rule_strip v : history_rule (PyStr.strip v) = history_rule v.
Proof.
  unfold history_rule. rewrite !history_rule_condition, strip_idem.
  reflexivity.
Qed.

Lemma history_rule_nonempty v : history_rule v <> EmptyString.
Proof.
  unfold history_rule. rewrite history_rule_condition.
  destruct (PyStr.mem _ _) eqn:E; [discriminate|].
  intros H. rewrite (strip_empty_mem v H) in E. discriminate E.
Qed.

Lemma history_rule_trimmed v : PyStr.strip (history_rule v) = history_rule v.
Proof.
  unfold history_rule. destruct (_ || _); [reflexivity | apply strip_idem].
Qed.

Lemma history_rule_not_a_refusal v :
  PyStr.mem (PyStr.lower (PyStr.strip (history_rule v)))
    ["no"; "none"; "n/a"; ""] = false.
Proof.
  rewrite history_rule_trimmed. unfold history_rule.
  rewrite history_rule_condition.
  destruct (PyStr.mem (PyStr.lower (PyStr.strip v)) _) eqn:E;
    [reflexivity | exact E].
Qed.

(** X10.  Whatever the patient answers at the suspension point, the
    medical history the node stores is not empty, has no white space at
    either end, and is not itself one of the answers that stand for no
    history ("no", "none", "n/a" in any case); white space around the answer
    changes nothing of the outcome, and the node adds exactly one message. *)
Theorem collect_medical_history_stored env state payload user_input :
  collect_medical_history env state None = GraphInterrupt payload ->
  exists update history text,
    collect_medical_history env state (Some user_input) = Return update []
    /\ medical_history update = Some history
    /\ history <> ""
    /\ PyStr.strip history = history
    /\ PyStr.mem (PyStr.lower history) ["no"; "none"; "n/a"; ""] = false
    /\ messages update = [AIMessage text]
    /\ collect_medical_history env state (Some (PyStr.strip user_input))
       = collect_medical_history env state (Some user_input).
Proof.
  intros H. apply collect_medical_history_suspends in H as [Ht Hm].
  assert (Hn : forall v,
             collect_medical_history env state (Some v)
             = (if PyStr.truthy v
                   && negb (PyStr.mem (PyStr.lower (PyStr.strip v))
                              ["no"; "none"; "n/a"; ""])
                then
                  Return
                    {| messages :=
                         [AIMessage
                            ("Medical history collected: " ++ PyStr.strip v)];
                       symptoms := None;
                       medical_history := Some (PyStr.strip v);
                       symptom_analysis := None; medical_research := None;
                       recommendations := None; escalation_advice := None;
                       urgency_level := None; final_report := None;
                       report_filepath := None |} []
                else
                  Return
                    {| messages :=
                         [AIMessage "No additional medical history provided"];
                       symptoms := None;
                       medical_history :=
                         Some "No additional medical history provided";
                       symptom_analysis := None; medical_research := None;
                       recommendations := None; escalation_advice := None;
                       urgency_level := None; final_report := None;
                       report_filepath := None |} [])).
  { intros v.
    rewrite (interrupt_message_resume env _ None (Some v)) in Hm.
    unfold collect_medical_history. rewrite Ht. simpl.
    unfold bind at 1. rewrite Hm. unfold bind at 1. simpl.
    destruct (PyStr.truthy v && _); reflexivity. }
  assert (Hc : forall v,
             PyStr.truthy v
             && negb (PyStr.mem (PyStr.lower (PyStr.strip v))
                        ["no"; "none"; "n/a"; ""])
             = negb (PyStr.mem (PyStr.lower (PyStr.strip v))
                       ["no"; "none"; "n/a"; ""])).
  { intros [|c r]; reflexivity. }
  rewrite !Hn, !Hc, strip_idem.
  destruct (PyStr.mem (PyStr.lower (PyStr.strip user_input)) _) eqn:E;
    cbn [negb].
  - do 3 eexists. repeat split. discriminate.
  - do 3 eexists. split; [reflexivity|]. cbn [medical_history messages].
    split; [reflexivity|]. repeat split.
    + intros F. rewrite (strip_empty_mem user_input F) in E. discriminate E.
    + apply strip_idem.
    + exact E.
Qed.

Lemma collect_medical_history_stored_witness :
  exists update,
    collect_medical_history (Stub.env Models.low [])
      (analysed_state Models.low) (Some "  Asthma ")
    = Return update []
    /\ medical_history update = Some "Asthma".
Proof.
  assert (H : exists payload,
             collect_medical_history (Stub.env Models.low [])
               (analysed_state Models.low) None = GraphInterrupt payload)
    by (vm_compute; eauto).
  destruct H as (payload & H).
  destruct (collect_medical_history_stored _ _ payload "  Asthma " H)
    as (update & history & text & Hr & Hh & _).
  exists update. split; [exact Hr|].
  vm_compute in Hr. inversion Hr; subst. reflexivity.
Defined.

(** ** What the nodes raise *)

Lemma bind_Raise {A B} (m : M A) (k : A -> M B) resume e :
  bind m k resume = Raise e ->
  m resume = Raise e
  \/ exists a w, m resume = Return a w /\ k a resume = Raise e.
Proof.
  unfold bind. destruct (m resume) as [a w| |e']; try discriminate.
  - destruct (k a resume) eqn:Hk; try discriminate.
    intros H. inversion H; subst. right. now exists a, w.
  - intros H. inversion H; subst. now left.
Qed.

Lemma raises_only_ret {A} l (a : A) : raises_only l (ret a).
Proof. intros r e H. discriminate H. Qed.

Lemma raises_only_raise {A} l e : In e l -> raises_only l (@raise A e).
Proof. intros Hin r e' H. inversion H; subst. exact Hin. Qed.

Lemma raises_only_bind {A B} l (m : M A) (k : A -> M B) :
  raises_only l m -> (forall a, raises_only l (k a)) ->
  raises_only l (bind m k).
Proof.
  intros Hm Hk r e H. apply bind_Raise in H as [H | (a & w & _ & H)].
  - exact (Hm r e H).
  - exact (Hk a r e H).
Qed.

Lemma raises_only_if {A} l (b : bool) (m1 m2 : M A) :
  raises_only l m1 -> raises_only l m2 ->
  raises_only l (if b then m1 else m2).
Proof. now destruct b. Qed.

Lemma raises_only_interrupt l payload : raises_only l (interrupt payload).
Proof. intros [v|] e H; discriminate H. Qed.

Lemma raises_only_write_file l path content :
  raises_only l (write_file path content).
Proof. intros r e H. discriminate H. Qed.

Ltac raises_leaf :=
  simpl;
  first [ apply raises_only_ret
        | apply raises_only_raise; simpl; tauto ].

Lemma raises_only_as_str l v : In TypeError l -> raises_only l (as_str v).
Proof.
  intros H.
  destruct v; simpl;
    first [apply raises_only_ret | apply raises_only_raise; exact H].
Qed.

Lemma raises_only_py_iter l v : In TypeError l -> raises_only l (py_iter v).
Proof.
  intros H.
  destruct v; simpl;
    first [apply raises_only_ret | apply raises_only_raise; exact H].
Qed.

Lemma raises_only_py_upper env l v :
  In AttributeError l -> raises_only l (py_upper env v).
Proof.
  intros H.
  destruct v; simpl;
    first [apply raises_only_ret | apply raises_only_raise; exact H].
Qed.

Lemma raises_only_validate_str v :
  raises_only [ValidationError] (Validate.str v).
Proof. destruct v; raises_leaf. Qed.

Lemma raises_only_validate_opt_str v :
  raises_only [ValidationError] (Validate.opt_str v).
Proof. destruct v; raises_leaf. Qed.

Lemma raises_only_validate_str_list v :
  raises_only [ValidationError] (Validate.str_list v).
Proof. destruct v; raises_leaf. Qed.

Lemma raises_only_validate_urgency v :
  raises_only [ValidationError] (Validate.urgency v).
Proof.
  destruct v; try raises_leaf. simpl.
  repeat (apply raises_only_if; try raises_leaf).
Qed.

Create HintDb raises.

#[local] Hint Resolve raises_only_ret raises_only_interrupt
  raises_only_write_file raises_only_validate_str
  raises_only_validate_opt_str raises_only_validate_str_list
  raises_only_validate_urgency : raises.

#[local] Hint Extern 1 (raises_only _ (as_str _)) =>
  apply raises_only_as_str; simpl; tauto : raises.
#[local] Hint Extern 1 (raises_only _ (py_iter _)) =>
  apply raises_only_py_iter; simpl; tauto : raises.
#[local] Hint Extern 1 (raises_only _ (py_upper _ _)) =>
  apply raises_only_py_upper; simpl; tauto : raises.

Ltac raises_steps :=
  repeat first
    [ apply raises_only_bind; [ | intros ? ]
    | apply raises_only_if
    | solve [ auto with raises ] ].

Lemma raises_only_symptom_analysis_obj analysis default_urgency :
  raises_only [ValidationError]
    (symptom_analysis_obj analysis default_urgency).
Proof. unfold symptom_analysis_obj. raises_steps. Qed.

Lemma raises_only_patient_recommendation_obj recs :
  raises_only [ValidationError] (patient_recommendation_obj recs).
Proof. unfold patient_recommendation_obj. raises_steps. Qed.

Lemma raises_only_recommendation_tool_calls env analysis calls : forall acc,
  raises_only [ValidationError]
    (recommendation_tool_calls env analysis calls acc).
Proof.
  induction calls as [|tc calls IH]; intros acc; cbn [recommendation_tool_calls].
  - apply raises_only_ret.
  - repeat apply raises_only_if; auto.
    apply raises_only_bind;
      [apply raises_only_symptom_analysis_obj | intros; apply IH].
Qed.

Lemma raises_only_escalation_section escalation :
  raises_only [TypeError; AttributeError] (escalation_section escalation).
Proof. unfold escalation_section. raises_steps. Qed.

Lemma raises_only_report_content env state :
  raises_only [TypeError; AttributeError] (report_content env state).
Proof.
  unfold report_content. raises_steps.
Qed.

Lemma raises_only_interrupt_message env analysis :
  raises_only [TypeError] (interrupt_message env analysis).
Proof. unfold interrupt_message. raises_steps. Qed.

Lemma node_raises_only env name body state :
  Dict.lookup (nodes env) name = Some body ->
  raises_only (Dict.get may_raise name []) (body state).
Proof.
  intros Hlk.
  destruct (node_names env name body Hlk)
    as [(-> & ->) | [(-> & ->) | [(-> & ->) | [(-> & ->) | [(-> & ->)
        | (-> & ->)]]]]]; cbn [Dict.get Dict.lookup may_raise String.eqb
                                 Ascii.eqb Bool.eqb].
  - unfold collect_patient_info.
    destruct (last _ _); apply raises_only_ret.
  - unfold analyze_symptoms_node.
    apply raises_only_if; apply raises_only_ret.
  - unfold collect_medical_history. apply raises_only_if.
    + apply raises_only_ret.
    + apply raises_only_bind; [apply raises_only_interrupt_message|].
      intros payload. apply raises_only_bind;
        [apply raises_only_interrupt|].
      intros v. apply raises_only_if; apply raises_only_ret.
  - unfold create_recommendations_node. apply raises_only_if.
    + apply raises_only_ret.
    + apply raises_only_bind;
        [apply raises_only_recommendation_tool_calls|].
      intros parsed. apply raises_only_bind; [|intros; apply raises_only_ret].
      destruct (fst parsed); [apply raises_only_ret|].
      apply raises_only_bind;
        [apply raises_only_symptom_analysis_obj
        | intros; apply raises_only_ret].
  - unfold escalation_advice_node.
    repeat apply raises_only_if; try apply raises_only_ret.
    apply raises_only_bind; [apply raises_only_symptom_analysis_obj|].
    intros a. apply raises_only_bind;
      [apply raises_only_patient_recommendation_obj
      | intros; apply raises_only_ret].
  - unfold generate_medical_report.
    apply raises_only_bind; [apply raises_only_report_content|].
    intros text. apply raises_only_bind;
      [apply raises_only_write_file | intros; apply raises_only_ret].
Qed.

Lemma may_raise_not_limit name e :
  In e (Dict.get may_raise name []) -> e <> GraphRecursionError.
Proof.
  intros Hin ->. unfold Dict.get in Hin. cbn [Dict.lookup may_raise] in Hin.
  repeat match type of Hin with
         | context [if String.eqb name ?k then _ else _] =>
             destruct (String.eqb name k);
             [ cbn in Hin; intuition discriminate | ]
         end.
  destruct Hin.
Qed.



(** ** What the nodes set *)

Ltac update_shape H :=
  inversion H; subst; clear H; cbn;
  repeat split;
  try (intros x Hx; simpl in *; tauto);
  try (eexists; reflexivity);
  try reflexivity.

Lemma node_update env name body state resume update written :
  Dict.lookup (nodes env) name = Some body ->
  body state resume = Return update written ->
  incl (update_keys update) (Dict.get written_keys name [])
  /\ (exists text, messages update = [AIMessage text])
  /\ (name <> "generate_medical_report" -> written = []).
Proof.
  intros Hlk H.
  destruct (node_names env name body Hlk)
    as [(-> & ->) | [(-> & ->) | [(-> & ->) | [(-> & ->) | [(-> & ->)
        | (-> & ->)]]]]].
  - unfold collect_patient_info in H.
    destruct (last _ _); update_shape H.
  - unfold analyze_symptoms_node in H.
    destruct (negb _); update_shape H.
  - unfold collect_medical_history in H.
    destruct (negb _); [update_shape H|].
    apply bind_Return in H as (payload & w1 & w2 & H1 & H2 & ->).
    apply bind_Return in H2 as (v & w3 & w4 & H3 & H4 & ->).
    apply (quiet_interrupt_message env _ resume) in H1. subst w1.
    assert (w3 = []) as ->.
    { unfold interrupt in H3. destruct resume; now inversion H3. }
    destruct (_ && _); update_shape H4.
  - pose proof (proj1 (quiet_create_recommendations_node env state resume)
                  _ _ H) as ->.
    unfold create_recommendations_node in H.
    destruct (negb _); [update_shape H|].
    apply bind_Return in H as (parsed & w1 & w2 & _ & H2 & _).
    apply bind_Return in H2 as (p & w3 & w4 & _ & H4 & _).
    update_shape H4.
  - pose proof (proj1 (quiet_escalation_advice_node env state resume)
                  _ _ H) as ->.
    unfold escalation_advice_node in H.
    destruct (negb _); [update_shape H|].
    destruct (_ || _); [update_shape H|].
    apply bind_Return in H as (a & w1 & w2 & _ & H2 & _).
    apply bind_Return in H2 as (p & w3 & w4 & _ & H4 & _).
    update_shape H4.
  - destruct (generate_medical_report_cases env state resume)
      as [(text & path & E) | (e & E)]; rewrite E in H; [|discriminate H].
    update_shape H. congruence.
Qed.

(** ** The report and the follow-up of the recommendation *)

Lemma generate_medical_report_returns env state resume update written :
  generate_medical_report env state resume = Return update written ->
  exists text,
    report_content env state resume = Return text []
    /\ written
       = [(report_path
             (report_filename (strftime_filename (now_filename env))
                (get_or (symptoms state) "")), text)]
    /\ final_report update = Some text
    /\ report_filepath update
       = Some (report_path
                 (report_filename (strftime_filename (now_filename env))
                    (get_or (symptoms state) "")))
    /\ symptoms update = None.
Proof.
  unfold generate_medical_report. intros H.
  apply bind_Return in H as (text & w1 & w2 & H1 & H2 & ->).
  pose proof (proj1 (quiet_report_content env state resume) _ _ H1) as ->.
  exists text. split; [exact H1|].
  unfold bind, write_file, ret in H2. inversion H2; subst. cbn. auto.
Qed.

Lemma report_content_follow_up env state resume a p :
  symptom_analysis state = Some (analysis_dict a) ->
  recommendations state = Some (recommendations_dict p) ->
  (escalation_advice state = None
   \/ exists e, escalation_advice state = Some (escalation_dict e)) ->
  match Models.follow_up p with
  | Some _ => exists text, report_content env state resume = Return text []
  | None => report_content env state resume = Raise TypeError
  end.
Proof.
  intros Ha Hp He. unfold report_content. rewrite Ha, Hp.
  destruct a as [s c u re], p as [i g w [f|]];
    destruct He as [-> | (e & ->)]; cbn; try (eexists; reflexivity);
    reflexivity.
Qed.

Lemma generate_medical_report_with_follow_up env state resume a p :
  symptom_analysis state = Some (analysis_dict a) ->
  recommendations state = Some (recommendations_dict p) ->
  (escalation_advice state = None
   \/ exists e, escalation_advice state = Some (escalation_dict e)) ->
  match Models.follow_up p with
  | Some _ =>
      exists text,
        generate_medical_report env state resume
        = Return
            {| messages :=
                 [AIMessage
                    ("Medical analysis complete! Report saved to: "
                     ++ report_path
                          (report_filename
                             (strftime_filename (now_filename env))
                             (get_or (symptoms state) "")))];
               symptoms := None; medical_history := None;
               symptom_analysis := None; medical_research := None;
               recommendations := None; escalation_advice := None;
               urgency_level := None;
               final_report := Some text;
               report_filepath :=
                 Some (report_path
                         (report_filename
                            (strftime_filename (now_filename env))
                            (get_or (symptoms state) ""))) |}
            [(report_path
                (report_filename (strftime_filename (now_filename env))
                   (get_or (symptoms state) "")), text)]
  | None => generate_medical_report env state resume = Raise TypeError
  end.
Proof.
  intros Ha Hp He.
  pose proof (report_content_follow_up env state resume a p Ha Hp He) as H.
  unfold generate_medical_report.
  destruct (Models.follow_up p).
  - destruct H as (text & H). exists text.
    unfold bind at 1. rewrite H. reflexivity.
  - unfold bind at 1. now rewrite H.
Qed.

(** X12.  The report needs the follow-up of the recommendation.  On a
    state that holds a stored analysis and a stored recommendation (and no
    escalation advice, or a stored one), the report node returns, writing
    one file, when the recommendation has a follow-up; when it has none,
    which the model of the recommendation allows, the node raises a type
    error and writes nothing. *)
Theorem generate_medical_report_follow_up env state resume a p :
  symptom_analysis state = Some (analysis_dict a) ->
  recommendations state = Some (recommendations_dict p) ->
  (escalation_advice state = None
   \/ exists e, escalation_advice state = Some (escalation_dict e)) ->
  (forall d r,
      patient_recommendation_obj (recommendations_dict p) r = Return p []
      /\ symptom_analysis_obj (analysis_dict a) d r = Return a [])
  /\ match Models.follow_up p with
     | Some _ =>
         exists update text path,
           generate_medical_report env state resume
           = Return update [(path, text)]
           /\ final_report update = Some text
           /\ report_filepath update = Some path
     | None => generate_medical_report env state resume = Raise TypeError
     end.
Proof.
  intros Ha Hp He. split.
  - intros d r. split;
      [apply patient_recommendation_obj_dict | apply symptom_analysis_obj_dict].
  - pose proof (generate_medical_report_with_follow_up env state resume a p
                  Ha Hp He) as H.
    destruct (Models.follow_up p); [|exact H].
    destruct H as (text & H). do 3 eexists. split; [exact H|].
    split; reflexivity.
Qed.


Lemma generate_medical_report_follow_up_witness :
  generate_medical_report (Stub.env Models.low [])
    {| messages := []; symptoms := Some "headache";
       medical_history := Some "No medical history provided";
       symptom_analysis := Some (analysis_dict (Stub.analysis Models.low));
       medical_research := None;
       recommendations :=
         Some (recommendations_dict
                 {| Models.immediate_actions := ["Rest"];
                    Models.general_care := [];
                    Models.when_to_seek_help := "If it gets worse";
                    Models.follow_up := None |});
       escalation_advice := None; urgency_level := Some "low";
       final_report := None; report_filepath := None |} None
  = Raise TypeError.
Proof.
  match goal with
  | |- generate_medical_report _ ?st _ = _ =>
      exact (proj2 (generate_medical_report_follow_up
                      (Stub.env Models.low []) st None
                      (Stub.analysis Models.low)
                      {| Models.immediate_actions := ["Rest"];
                         Models.general_care := [];
                         Models.when_to_seek_help := "If it gets worse";
                         Models.follow_up := None |}
                      eq_refl eq_refl (or_introl eq_refl)))
  end.
Defined.

(** ** Induction on a call to [stream] *)

Lemma run_no_node env fuel resume name state :
  Dict.lookup (nodes env) name = None ->
  events (run env fuel resume name state) = []
  /\ files (run env fuel resume name state) = []
  /\ values (run env fuel resume name state) = state.
Proof.
  intros Hlk. destruct fuel as [|fuel]; cbn [run];
    destruct (String.eqb name END); try rewrite Hlk;
    cbn [events files values]; auto.
Qed.

Section RunInduction.

Context (env : Env).
Context (P : nat -> option string -> string -> MedicalState -> run_result
             -> Prop).

Hypothesis out_of_steps : forall resume name body state,
  Dict.lookup (nodes env) name = Some body ->
  P 0 resume name state
    {| events := []; files := []; values := state;
       state_of := Failed GraphRecursionError |}.

Hypothesis interrupted : forall fuel resume name body state payload,
  Dict.lookup (nodes env) name = Some body ->
  body state resume = GraphInterrupt payload ->
  P (S fuel) resume name state
    {| events := [Interrupted name payload]; files := [];
       values := state; state_of := Pending name |}.

Hypothesis raised : forall fuel resume name body state e,
  Dict.lookup (nodes env) name = Some body ->
  body state resume = Raise e ->
  P (S fuel) resume name state
    {| events := []; files := []; values := state; state_of := Failed e |}.

Hypothesis reported : forall fuel resume state update written,
  generate_medical_report env state resume = Return update written ->
  P (S fuel) resume "generate_medical_report" state
    {| events := [Completed "generate_medical_report" update];
       files := written;
       values := merge state update; state_of := Finished |}.

Hypothesis stepped :
  forall fuel resume name body state update written name' body' rest,
    Dict.lookup (nodes env) name = Some body ->
    name <> "generate_medical_report" ->
    body state resume = Return update written ->
    successor name (merge state update) = Some name' ->
    Dict.lookup (nodes env) name' = Some body' ->
    rest = run env fuel None name' (merge state update) ->
    P fuel None name' (merge state update) rest ->
    P (S fuel) resume name state
      {| events := Completed name update :: events rest;
         files := (written ++ files rest)%list;
         values := values rest;
         state_of := state_of rest |}.

Lemma run_induction : forall fuel resume name body state,
  Dict.lookup (nodes env) name = Some body ->
  P fuel resume name state (run env fuel resume name state).
Proof.
  induction fuel as [|fuel IH]; intros resume name body state Hlk.
  - cbn [run]. rewrite (node_not_END env name body Hlk).
    exact (out_of_steps resume name body state Hlk).
  - destruct (body state resume) as [update written|payload|e] eqn:Hb.
    + destruct (successor_of_node env name body (merge state update) Hlk)
        as [(-> & Hs) | (Hne & name' & body' & Hs & Hlk')].
      * assert (body = generate_medical_report env).
        { cbn in Hlk. now inversion Hlk. }
        subst body.
        rewrite (run_return env fuel resume "generate_medical_report"
                   (generate_medical_report env) state update written
                   eq_refl Hlk Hb END Hs).
        rewrite run_END. cbn [events files values state_of].
        rewrite app_nil_r. exact (reported fuel resume state update written Hb).
      * rewrite (run_return env fuel resume name body state update written
                   (node_not_END env name body Hlk) Hlk Hb name' Hs).
        exact (stepped fuel resume name body state update written name' body'
                 _ Hlk Hne Hb Hs Hlk' eq_refl
                 (IH None name' body' (merge state update) Hlk')).
    + rewrite (run_interrupt env fuel resume name body state payload
                 (node_not_END env name body Hlk) Hlk Hb).
      exact (interrupted fuel resume name body state payload Hlk Hb).
    + rewrite (run_raise env fuel resume name body state e
                 (node_not_END env name body Hlk) Hlk Hb).
      exact (raised fuel resume name body state e Hlk Hb).
Qed.

End RunInduction.


(** ** What every call to [stream] keeps *)

Lemma run_files env fuel resume name body state :
  Dict.lookup (nodes env) name = Some body ->
  (state_of (run env fuel resume name state) = Finished ->
   exists text,
     files (run env fuel resume name state)
     = [(report_path
           (report_filename (strftime_filename (now_filename env))
              (get_or (symptoms (values (run env fuel resume name state)))
                 "")), text)]
     /\ final_report (values (run env fuel resume name state)) = Some text
     /\ report_filepath (values (run env fuel resume name state))
        = Some (report_path
                  (report_filename (strftime_filename (now_filename env))
                     (get_or
                        (symptoms (values (run env fuel resume name state)))
                        ""))))
  /\ (state_of (run env fuel resume name state) <> Finished ->
      files (run env fuel resume name state) = []).
Proof.
  apply (run_induction env
           (fun _ _ _ _ r =>
              (state_of r = Finished ->
               exists text,
                 files r
                 = [(report_path
                       (report_filename
                          (strftime_filename (now_filename env))
                          (get_or (symptoms (values r)) "")), text)]
                 /\ final_report (values r) = Some text
                 /\ report_filepath (values r)
                    = Some (report_path
                              (report_filename
                                 (strftime_filename (now_filename env))
                                 (get_or (symptoms (values r)) ""))))
              /\ (state_of r <> Finished -> files r = []))).
  - intros. cbn. split; [discriminate | reflexivity].
  - intros. cbn. split; [discriminate | reflexivity].
  - intros. cbn. split; [discriminate | reflexivity].
  - intros fuel' resume' state' update written H.
    apply generate_medical_report_returns in H
      as (text & _ & -> & Hf & Hp & Hs).
    cbn [state_of files values]. split; [|congruence].
    intros _. exists text. cbn [merge symptoms final_report report_filepath].
    rewrite Hs, Hf, Hp. cbn [overwrite]. auto.
  - intros fuel' resume' name' body' state' update written name2 body2 rest
      Hlk Hne Hb Hs Hlk2 _ IH.
    destruct (node_update env name' body' state' resume' update written
                Hlk Hb) as (_ & _ & Hw).
    rewrite (Hw Hne). cbn [state_of files values app]. exact IH.
Qed.

Lemma run_messages env fuel resume name state :
  messages (values (run env fuel resume name state))
  = (messages state
     ++ flat_map added_messages (events (run env fuel resume name state)))%list.
Proof.
  destruct (Dict.lookup (nodes env) name) as [body|] eqn:Hlk.
  - apply (run_induction env
             (fun _ _ _ st r =>
                messages (values r)
                = (messages st ++ flat_map added_messages (events r))%list)
             ) with (body := body); try exact Hlk;
      try (intros; cbn; now rewrite app_nil_r).
    intros fuel' resume' name' body' state' update written name2 body2 rest
      _ _ _ _ _ _ IH.
    cbn [values events flat_map added_messages]. rewrite IH.
    cbn [merge messages]. now rewrite app_assoc.
  - destruct (run_no_node env fuel resume name state Hlk) as (-> & _ & ->).
    cbn. now rewrite app_nil_r.
Qed.

Lemma run_updates env fuel resume name body state :
  Dict.lookup (nodes env) name = Some body ->
  forall node update,
    In (Completed node update) (events (run env fuel resume name state)) ->
    exists body' state' resume' written,
      Dict.lookup (nodes env) node = Some body'
      /\ body' state' resume' = Return update written.
Proof.
  apply (run_induction env
           (fun _ _ _ _ r =>
              forall node update,
                In (Completed node update) (events r) ->
                exists body' state' resume' written,
                  Dict.lookup (nodes env) node = Some body'
                  /\ body' state' resume' = Return update written)).
  - intros ? ? ? ? _ node update [].
  - intros ? ? ? ? ? ? _ _ node update [H | []]. discriminate H.
  - intros ? ? ? ? ? ? _ _ node update [].
  - intros fuel' resume' state' update written H node update' [E | []].
    inversion E; subst. do 4 eexists. split; [reflexivity | exact H].
  - intros fuel' resume' name' body' state' update written name2 body2 rest
      Hlk _ Hb _ _ _ IH node update' [E | Hin].
    + inversion E; subst. do 4 eexists. split; [exact Hlk | exact Hb].
    + exact (IH node update' Hin).
Qed.

Lemma steps_left_positive env name body :
  Dict.lookup (nodes env) name = Some body ->
  1 <= Dict.get steps_left name 0
  /\ Dict.get steps_left name 0 <= recursion_limit.
Proof.
  intros Hlk.
  destruct (node_names env name body Hlk)
    as [(-> & _) | [(-> & _) | [(-> & _) | [(-> & _) | [(-> & _)
        | (-> & _)]]]]]; cbn; unfold recursion_limit; lia.
Qed.

Lemma successor_steps_left env name body state name' :
  Dict.lookup (nodes env) name = Some body ->
  successor name state = Some name' ->
  name' = END
  \/ S (Dict.get steps_left name' 0) <= Dict.get steps_left name 0.
Proof.
  intros Hlk.
  destruct (node_names env name body Hlk)
    as [(-> & _) | [(-> & _) | [(-> & _) | [(-> & _) | [(-> & _)
        | (-> & _)]]]]].
  5: { intros H; inversion H; subst; right; cbn; lia. }
  4: { rewrite successor_branch. destruct (is_urgent state);
       intros H; inversion H; subst; right; cbn; lia. }
  all: intros H; cbn in H; inversion H; subst;
    first [now left | right; cbn; lia].
Qed.

Lemma run_bounded env fuel resume name body state :
  Dict.lookup (nodes env) name = Some body ->
  Dict.get steps_left name 0 <= fuel ->
  length (events (run env fuel resume name state))
  <= Dict.get steps_left name 0
  /\ state_of (run env fuel resume name state) <> Failed GraphRecursionError.
Proof.
  apply (run_induction env
           (fun fuel _ name _ r =>
              Dict.get steps_left name 0 <= fuel ->
              length (events r) <= Dict.get steps_left name 0
              /\ state_of r <> Failed GraphRecursionError)).
  - intros resume' name' body' state' Hlk Hle.
    destruct (steps_left_positive env name' body' Hlk). lia.
  - intros fuel' resume' name' body' state' payload Hlk _ _.
    destruct (steps_left_positive env name' body' Hlk).
    cbn. split; [lia | discriminate].
  - intros fuel' resume' name' body' state' e Hlk Hb _.
    pose proof (may_raise_not_limit name' e
                  (node_raises_only env name' body' state' Hlk resume' e Hb))
      as Hne.
    cbn. split; [lia | congruence].
  - intros. cbn. split; [lia | discriminate].
  - intros fuel' resume' name' body' state' update written name2 body2 rest
      Hlk _ _ Hs Hlk2 _ IH Hle.
    destruct (successor_steps_left env name' body' _ name2 Hlk Hs)
      as [-> | Hlt].
    + cbn in Hlk2. discriminate Hlk2.
    + cbn [events state_of length].
      destruct IH as (IH1 & IH2); [lia|]. split; [lia | exact IH2].
Qed.


(** ** A session and the follow-up of the recommendation *)

Lemma recommendation_tool_calls_result env a calls resume : forall acc,
  exists acc',
    recommendation_tool_calls env (analysis_dict a) calls acc resume
    = Return acc' []
    /\ (fst acc' = fst acc
        \/ fst acc' = Some (create_recommendations env a)).
Proof.
  induction calls as [|tc rest IH]; intros acc; simpl.
  - exists acc. auto.
  - destruct (String.eqb (tc_name tc) "create_recommendations").
    + unfold bind. rewrite symptom_analysis_obj_dict.
      destruct (IH (Some (create_recommendations env a), snd acc))
        as (acc' & -> & H).
      exists acc'. split; [reflexivity|]. cbn [fst] in H. tauto.
    + destruct (String.eqb (tc_name tc) "tavily_search").
      * destruct (IH (fst acc,
                      snd acc ++ "Additional Research: "
                      ++ tavily_search env (tc_args tc) ++ nl))
          as (acc' & E & H).
        exists acc'. split; [exact E | exact H].
      * apply IH.
Qed.

Lemma create_recommendations_node_result env state resume a :
  symptom_analysis state = Some (analysis_dict a) ->
  exists notes,
    create_recommendations_node env state resume
    = Return
        {| messages :=
             [AIMessage
                "Comprehensive patient recommendations generated successfully"];
           symptoms := None; medical_history := None;
           symptom_analysis := None;
           medical_research := Some notes;
           recommendations :=
             Some (recommendations_dict (create_recommendations env a));
           escalation_advice := None; urgency_level := None;
           final_report := None; report_filepath := None |} [].
Proof.
  intros H. unfold create_recommendations_node. rewrite H.
  cbn [get_or]. change (Dict.truthy (analysis_dict a)) with true.
  cbn [negb]. unfold bind at 1.
  match goal with
  | |- context [recommendation_tool_calls env _ ?calls ?acc resume] =>
      destruct (recommendation_tool_calls_result env a calls resume acc)
        as (parsed & -> & Hp)
  end.
  unfold bind at 1. cbn [fst] in Hp. destruct Hp as [-> | ->].
  - unfold bind at 1. rewrite symptom_analysis_obj_dict.
    cbn. eexists. reflexivity.
  - unfold ret at 1. cbn. eexists. reflexivity.
Qed.

Lemma run_report_follow_up env fuel state a p :
  symptom_analysis state = Some (analysis_dict a) ->
  recommendations state = Some (recommendations_dict p) ->
  (escalation_advice state = None
   \/ exists e, escalation_advice state = Some (escalation_dict e)) ->
  ends_by_follow_up p state
    (run env (S fuel) None "generate_medical_report" state).
Proof.
  intros Ha Hp He. unfold ends_by_follow_up.
  pose proof (generate_medical_report_with_follow_up env state None a p
                Ha Hp He) as H.
  destruct (Models.follow_up p).
  - destruct H as (text & H).
    rewrite (run_return env fuel None "generate_medical_report"
               (generate_medical_report env) state _ _
               eq_refl eq_refl H END eq_refl).
    rewrite run_END. cbn. auto.
  - rewrite (run_raise env fuel None "generate_medical_report"
               (generate_medical_report env) state TypeError
               eq_refl eq_refl H).
    reflexivity.
Qed.

Lemma ends_by_follow_up_merge p state update r :
  medical_history update = None ->
  symptoms update = None ->
  ends_by_follow_up p (merge state update) r ->
  ends_by_follow_up p state r.
Proof.
  unfold ends_by_follow_up. intros Hm Hs.
  destruct (Models.follow_up p); [|auto].
  cbn [merge medical_history symptoms]. rewrite Hm, Hs. cbn [overwrite].
  auto.
Qed.

Lemma run_escalation_follow_up env fuel state a p :
  urgency_level state = Some "urgent" ->
  symptom_analysis state = Some (analysis_dict a) ->
  recommendations state = Some (recommendations_dict p) ->
  ends_by_follow_up p state
    (run env (S (S fuel)) None "escalation_advice_node" state).
Proof.
  intros Hu Ha Hp.
  destruct (escalation_advice_node_urgent env state None a p Hu Ha Hp)
    as (e & H).
  match type of H with _ = Return ?u _ => set (update := u) in * end.
  pose proof (run_return env (S fuel) None "escalation_advice_node"
                (escalation_advice_node env) state update []
                eq_refl eq_refl H "generate_medical_report" eq_refl) as Hr.
  cbv zeta in Hr.
  assert (Hrest : ends_by_follow_up p (merge state update)
                    (run env (S fuel) None "generate_medical_report"
                       (merge state update))).
  { apply (run_report_follow_up env fuel (merge state update) a p).
    - cbn. exact Ha.
    - cbn. exact Hp.
    - right. exists e. reflexivity. }
  apply (ends_by_follow_up_merge p state update) in Hrest;
    [|reflexivity|reflexivity].
  rewrite Hr. unfold ends_by_follow_up in *.
  destruct (Models.follow_up p); cbn [state_of values]; exact Hrest.
Qed.

Lemma run_recommendations_follow_up env fuel state a :
  symptom_analysis state = Some (analysis_dict a) ->
  urgency_level state = Some (Models.urgency_str (Models.urgency_level a)) ->
  escalation_advice state = None ->
  ends_by_follow_up (create_recommendations env a) state
    (run env (S (S (S fuel))) None "create_recommendations_node" state).
Proof.
  intros Ha Hu He.
  destruct (create_recommendations_node_result env state None a Ha)
    as (notes & H).
  match type of H with _ = Return ?u _ => set (update := u) in * end.
  assert (Hurg : is_urgent (merge state update) = is_urgent state)
    by reflexivity.
  pose proof (successor_branch (merge state update)) as Hs.
  rewrite Hurg in Hs.
  pose proof (run_return env (S (S fuel)) None "create_recommendations_node"
                (create_recommendations_node env) state update []
                eq_refl eq_refl H _ Hs) as Hr.
  cbv zeta in Hr.
  assert (Hrest :
            ends_by_follow_up (create_recommendations env a)
              (merge state update)
              (run env (S (S fuel)) None
                 (if is_urgent state
                  then "escalation_advice_node"
                  else "generate_medical_report")
                 (merge state update))).
  { destruct (is_urgent state) eqn:Hi.
    - apply (run_escalation_follow_up env fuel (merge state update) a).
      + cbn. rewrite Hu. f_equal. apply is_urgent_str.
        unfold is_urgent in Hi. now rewrite Hu in Hi.
      + cbn. exact Ha.
      + reflexivity.
    - apply (run_report_follow_up env (S fuel) (merge state update) a).
      + cbn. exact Ha.
      + reflexivity.
      + left. cbn. exact He. }
  apply (ends_by_follow_up_merge _ state update) in Hrest;
    [|reflexivity|reflexivity].
  rewrite Hr. unfold ends_by_follow_up in *.
  destruct (Models.follow_up (create_recommendations env a));
    cbn [state_of values]; exact Hrest.
Qed.

Lemma run_history_follow_up env fuel state a user_input :
  symptom_analysis state = Some (analysis_dict a) ->
  urgency_level state = Some (Models.urgency_str (Models.urgency_level a)) ->
  escalation_advice state = None ->
  match Models.follow_up (create_recommendations env a) with
  | Some _ =>
      state_of (run env (S (S (S (S fuel)))) (Some user_input)
                  "collect_medical_history" state) = Finished
      /\ recommendations
           (values (run env (S (S (S (S fuel)))) (Some user_input)
                      "collect_medical_history" state))
         = Some (recommendations_dict (create_recommendations env a))
      /\ medical_history
           (values (run env (S (S (S (S fuel)))) (Some user_input)
                      "collect_medical_history" state))
         = Some (history_rule user_input)
      /\ symptoms
           (values (run env (S (S (S (S fuel)))) (Some user_input)
                      "collect_medical_history" state))
         = symptoms state
  | None =>
      state_of (run env (S (S (S (S fuel)))) (Some user_input)
                  "collect_medical_history" state) = Failed TypeError
  end.
Proof.
  intros Ha Hu He.
  destruct (collect_medical_history_first_entry env state a Ha)
    as (payload & Hp).
  destruct (collect_medical_history_resumed env state payload user_input Hp)
    as (text & H).
  match type of H with _ = Return ?u _ => set (update := u) in * end.
  pose proof (run_return env (S (S (S fuel))) (Some user_input)
                "collect_medical_history" (collect_medical_history env)
                state update [] eq_refl eq_refl H
                "create_recommendations_node" eq_refl) as Hr.
  cbv zeta in Hr.
  pose proof (run_recommendations_follow_up env fuel (merge state update) a)
    as Hrest.
  unfold ends_by_follow_up in Hrest. rewrite Hr.
  destruct (Models.follow_up (create_recommendations env a));
    cbn [state_of values].
  - destruct Hrest as (H1 & H2 & H3 & H4).
    + cbn. exact Ha.
    + cbn. exact Hu.
    + cbn. exact He.
    + repeat split; assumption.
  - apply Hrest; cbn; assumption.
Qed.

Lemma resumed_follow_up env state a user_input :
  symptom_analysis state = Some (analysis_dict a) ->
  urgency_level state = Some (Models.urgency_str (Models.urgency_level a)) ->
  escalation_advice state = None ->
  match Models.follow_up (create_recommendations env a) with
  | Some _ =>
      state_of (run env recursion_limit (Some user_input)
                  "collect_medical_history" state) = Finished
      /\ recommendations
           (values (run env recursion_limit (Some user_input)
                      "collect_medical_history" state))
         = Some (recommendations_dict (create_recommendations env a))
      /\ medical_history
           (values (run env recursion_limit (Some user_input)
                      "collect_medical_history" state))
         = Some (history_rule user_input)
      /\ symptoms
           (values (run env recursion_limit (Some user_input)
                      "collect_medical_history" state))
         = symptoms state
  | None =>
      state_of (run env recursion_limit (Some user_input)
                  "collect_medical_history" state) = Failed TypeError
  end.
Proof. exact (run_history_follow_up env 21 state a user_input). Qed.


Lemma run_start_suspended env fuel input :
  reported_symptoms input <> "" ->
  exists a state u1 u2 payload,
    run env (S (S (S fuel))) None "collect_patient_info" (initial_state input)
    = {| events :=
           [Completed "collect_patient_info" u1;
            Completed "analyze_symptoms_node" u2;
            Interrupted "collect_medical_history" payload];
         files := [];
         values := state;
         state_of := Pending "collect_medical_history" |}
    /\ symptom_analysis u2 = Some (analysis_dict a)
    /\ symptom_analysis state = Some (analysis_dict a)
    /\ urgency_level state
       = Some (Models.urgency_str (Models.urgency_level a))
    /\ escalation_advice state = None
    /\ get_or (symptoms state) "" = reported_symptoms input.
Proof.
  intros Hs.
  destruct (collect_patient_info_returns input None)
    as (u1 & H1 & Hsym & Ha1 & Hu1 & Hp1 & He1).
  rewrite <- Hsym in Hs.
  set (st1 := merge (initial_state input) u1) in *.
  destruct (analyze_symptoms_node_symptoms env st1 None Hs)
    as (a & notes & text & H2).
  match type of H2 with _ = Return ?u _ => set (u2 := u) in * end.
  destruct (collect_medical_history_first_entry env (merge st1 u2) a eq_refl)
    as (payload & H3).
  exists a, (merge st1 u2), u1, u2, payload. split; [|repeat split].
  - rewrite (run_return env _ None "collect_patient_info" collect_patient_info
               (initial_state input) u1 [] eq_refl eq_refl H1
               "analyze_symptoms_node" eq_refl).
    fold st1.
    rewrite (run_return env _ None "analyze_symptoms_node"
               (analyze_symptoms_node env) st1 u2 [] eq_refl eq_refl H2
               "collect_medical_history" eq_refl).
    rewrite (run_interrupt env fuel None "collect_medical_history"
               (collect_medical_history env) (merge st1 u2) payload
               eq_refl eq_refl H3).
    reflexivity.
  - subst st1. cbn. now rewrite He1.
  - exact Hsym.
Qed.

Lemma stream_start_suspended env input :
  reported_symptoms input <> "" ->
  exists a state u1 u2 payload,
    stream_start env input
    = {| events :=
           [Completed "collect_patient_info" u1;
            Completed "analyze_symptoms_node" u2;
            Interrupted "collect_medical_history" payload];
         files := [];
         values := state;
         state_of := Pending "collect_medical_history" |}
    /\ symptom_analysis u2 = Some (analysis_dict a)
    /\ symptom_analysis state = Some (analysis_dict a)
    /\ urgency_level state
       = Some (Models.urgency_str (Models.urgency_level a))
    /\ escalation_advice state = None
    /\ get_or (symptoms state) "" = reported_symptoms input.
Proof.
  intros Hs. rewrite stream_start_run.
  exact (run_start_suspended env 22 input Hs).
Qed.

Lemma resume_when_pending_record env evs state user_input :
  resume_when_pending env
    {| events := evs; files := []; values := state;
       state_of := Pending "collect_medical_history" |} user_input
  = {| events :=
         (evs
          ++ events (run env recursion_limit (Some user_input)
                       "collect_medical_history" state))%list;
       files :=
         files (run env recursion_limit (Some user_input)
                  "collect_medical_history" state);
       values :=
         values (run env recursion_limit (Some user_input)
                   "collect_medical_history" state);
       state_of :=
         state_of (run env recursion_limit (Some user_input)
                     "collect_medical_history" state) |}.
Proof. reflexivity. Qed.



Lemma resume_when_pending_events env first user_input e :
  In e (events (resume_when_pending env first user_input)) ->
  In e (events first)
  \/ exists resume name state,
       In e (events (run env recursion_limit resume name state)).
Proof.
  destruct (state_of first) as [|node|e'] eqn:Hst.
  - rewrite (resume_when_pending_finished env first user_input Hst). auto.
  - rewrite (resume_when_pending_pending env first user_input node Hst).
    rewrite (stream_resume_pending env first user_input node Hst).
    assert (Hs : forall x,
               In x (events (run env recursion_limit (Some user_input) node
                               (values first))) ->
               exists resume name state,
                 In x (events (run env recursion_limit resume name state)))
      by eauto.
    set (second := run env recursion_limit (Some user_input) node
                     (values first)) in *.
    clearbody second. cbv zeta. cbn [events]. intros H.
    apply in_app_or in H as [H | H]; auto.
  - unfold resume_when_pending. rewrite Hst. auto.
Qed.

Lemma session_events env input user_input e :
  In e (events (session env input user_input)) ->
  exists fuel resume name state,
    In e (events (run env fuel resume name state)).
Proof.
  unfold session. intros H.
  apply resume_when_pending_events in H as [H | (resume & name & state & H)].
  - rewrite stream_start_run in H. eauto.
  - eauto.
Qed.

Lemma run_messages_initial env fuel input :
  messages (values (run env fuel None "collect_patient_info"
                      (initial_state input)))
  = (input_messages input
     ++ flat_map added_messages
          (events (run env fuel None "collect_patient_info"
                     (initial_state input))))%list.
Proof.
  exact (run_messages env fuel None "collect_patient_info"
           (initial_state input)).
Qed.

Lemma resume_when_pending_messages env first user_input msgs :
  messages (values first)
  = (msgs ++ flat_map added_messages (events first))%list ->
  messages (values (resume_when_pending env first user_input))
  = (msgs
     ++ flat_map added_messages
          (events (resume_when_pending env first user_input)))%list.
Proof.
  intros Hm. destruct (state_of first) as [|node|e'] eqn:Hst.
  - now rewrite (resume_when_pending_finished env first user_input Hst).
  - rewrite (resume_when_pending_pending env first user_input node Hst).
    rewrite (stream_resume_pending env first user_input node Hst).
    pose proof (run_messages env recursion_limit (Some user_input) node
                  (values first)) as Hs.
    set (second := run env recursion_limit (Some user_input) node
                     (values first)) in *.
    clearbody second. cbv zeta. cbn [events values].
    rewrite Hs, Hm, flat_map_app. now rewrite app_assoc.
  - unfold resume_when_pending. now rewrite Hst.
Qed.

Lemma session_messages env input user_input :
  messages (values (session env input user_input))
  = (input_messages input
     ++ flat_map added_messages (events (session env input user_input)))%list.
Proof.
  unfold session. apply resume_when_pending_messages.
  rewrite stream_start_run. apply run_messages_initial.
Qed.

Lemma update_keys_urgency update l :
  incl (update_keys update) l ->
  ~ In "urgency_level" l ->
  urgency_level update = None.
Proof.
  intros Hincl Hnot. destruct (urgency_level update) as [u|] eqn:E; auto.
  exfalso. apply Hnot, Hincl. unfold update_keys. rewrite E.
  do 6 (apply in_or_app; right). apply in_or_app. left. simpl. auto.
Qed.

Lemma run_update_keys env fuel resume name state node update :
  In (Completed node update) (events (run env fuel resume name state)) ->
  incl (update_keys update) (Dict.get written_keys node [])
  /\ (exists text, messages update = [AIMessage text])
  /\ (node <> "analyze_symptoms_node" -> urgency_level update = None).
Proof.
  intros Hin.
  destruct (Dict.lookup (nodes env) name) as [body|] eqn:Hlk.
  - destruct (run_updates env fuel resume name body state Hlk node update Hin)
      as (body' & state' & resume' & written & Hlk' & Hb).
    destruct (node_update env node body' state' resume' update written
                Hlk' Hb) as (Hk & Hm & _).
    split; [exact Hk|]. split; [exact Hm|].
    intros Hne. apply (update_keys_urgency update _ Hk).
    destruct (node_names env node body' Hlk')
      as [(-> & _) | [(-> & _) | [(-> & _) | [(-> & _) | [(-> & _)
          | (-> & _)]]]]]; cbn; try congruence;
      intuition discriminate.
  - destruct (run_no_node env fuel resume name state Hlk) as (E & _).
    rewrite E in Hin. destruct Hin.
Qed.

(** X13.  A call to [stream] writes a file only when it runs to the end,
    and then exactly one: the report, under the path built from the clock
    and the symptoms of the final state, with the text and the path the
    final state holds as [final_report] and [report_filepath].  A call that
    suspends, fails or runs out of steps writes nothing. *)
Theorem stream_files env fuel resume name body state :
  Dict.lookup (nodes env) name = Some body ->
  let r := run env fuel resume name state in
  let path :=
    report_path
      (report_filename (strftime_filename (now_filename env))
         (get_or (symptoms (values r)) "")) in
  (state_of r = Finished ->
   exists text,
     files r = [(path, text)]
     /\ final_report (values r) = Some text
     /\ report_filepath (values r) = Some path)
  /\ (state_of r <> Finished -> files r = [])
  /\ (files r <> [] <-> state_of r = Finished)
  /\ length (files r) <= 1.
Proof.
  intros Hlk r path.
  destruct (run_files env fuel resume name body state Hlk) as (H1 & H2).
  fold r in H1, H2. fold path in H1.
  split; [exact H1|]. split; [exact H2|]. split; [split|].
  - intros Hne. destruct (state_of r) eqn:E; auto;
      exfalso; apply Hne, H2; discriminate.
  - intros Hf. destruct (H1 Hf) as (text & -> & _). discriminate.
  - destruct (state_of r) eqn:E.
    + destruct (H1 eq_refl) as (text & -> & _). simpl. lia.
    + rewrite H2 by discriminate. simpl. lia.
    + rewrite H2 by discriminate. simpl. lia.
Qed.

Lemma stream_files_witness :
  exists text,
    files (run (Stub.env Models.low []) 1 None "generate_medical_report"
             (analysed_state Models.low))
    = [("medical_reports/medical_analysis_20250115_103000_headache.md", text)].
Proof.
  assert (H : state_of
                (run (Stub.env Models.low []) 1 None "generate_medical_report"
                   (analysed_state Models.low)) = Finished)
    by (vm_compute; reflexivity).
  destruct (proj1 (stream_files (Stub.env Models.low []) 1 None
                     "generate_medical_report"
                     (generate_medical_report (Stub.env Models.low []))
                     (analysed_state Models.low) eq_refl) H)
    as (text & Hf & _).
  exists text. exact Hf.
Defined.

(** X14.  The message log only grows.  After any call to [stream] the
    messages of the state are those it started with followed by the
    messages of the updates the call yielded, in order; after a session
    they are the messages of the input followed by those of all the updates
    of both calls. *)
Theorem stream_messages env :
  (forall fuel resume name state,
      messages (values (run env fuel resume name state))
      = (messages state
         ++ flat_map added_messages
              (events (run env fuel resume name state)))%list)
  /\ (forall input user_input,
        messages (values (session env input user_input))
        = (input_messages input
           ++ flat_map added_messages
                (events (session env input user_input)))%list).
Proof.
  split.
  - intros. apply run_messages.
  - intros. apply session_messages.
Qed.

(** X15.  Every update a call to [stream] yields carries, besides
    [messages], only the keys of its node (so the symptoms are set by the
    first node only, the urgency level by the analysis only, the report by
    the last node only), and adds exactly one message, an [AIMessage]. *)
Theorem stream_updates env fuel resume name state node update :
  In (Completed node update) (events (run env fuel resume name state)) ->
  incl (update_keys update) (Dict.get written_keys node [])
  /\ (exists text, messages update = [AIMessage text])
  /\ (node <> "analyze_symptoms_node" -> urgency_level update = None)
  /\ In node (Dict.keys written_keys).
Proof.
  intros Hin.
  destruct (run_update_keys env fuel resume name state node update Hin)
    as (H1 & H2 & H3).
  repeat split; auto.
  destruct (Dict.lookup (nodes env) name) as [body|] eqn:Hlk.
  - destruct (run_updates env fuel resume name body state Hlk node update Hin)
      as (body' & _ & _ & _ & Hlk' & _).
    destruct (node_names env node body' Hlk')
      as [(-> & _) | [(-> & _) | [(-> & _) | [(-> & _) | [(-> & _)
          | (-> & _)]]]]]; cbn; tauto.
  - destruct (run_no_node env fuel resume name state Hlk) as (E & _).
    rewrite E in Hin. destruct Hin.
Qed.

Lemma stream_updates_witness :
  exists update,
    In (Completed "generate_medical_report" update)
      (events (run (Stub.env Models.low []) 1 None "generate_medical_report"
                 (analysed_state Models.low)))
    /\ incl (update_keys update) ["final_report"; "report_filepath"].
Proof.
  assert (H : exists update,
             In (Completed "generate_medical_report" update)
               (events
                  (run (Stub.env Models.low []) 1 None
                     "generate_medical_report" (analysed_state Models.low))))
    by (vm_compute; eexists; left; reflexivity).
  destruct H as (update & H). exists update. split; [exact H|].
  exact (proj1 (stream_updates (Stub.env Models.low []) 1 None
                  "generate_medical_report" (analysed_state Models.low)
                  "generate_medical_report" update H)).
Defined.

(** X16.  The drivers never announce an urgent case.  After the
    recommendations both drivers look for the urgency level in the output
    of [create_recommendations_node] and announce an urgent case when it is
    "urgent"; that output never carries an urgency level, so in every
    session, the urgent ones included, the check reads the default "low"
    and fails. *)
Theorem urgent_case_never_detected env input user_input output :
  In (Completed "create_recommendations_node" output)
    (events (session env input user_input)) ->
  urgency_level output = None
  /\ urgent_case_detected output = false.
Proof.
  intros Hin.
  destruct (session_events env input user_input _ Hin)
    as (fuel & resume & name & state & Hin').
  destruct (run_update_keys env fuel resume name state _ output Hin')
    as (_ & _ & Hu).
  assert (E : urgency_level output = None) by (apply Hu; discriminate).
  split; [exact E|]. unfold urgent_case_detected. now rewrite E.
Qed.

Lemma urgent_case_never_detected_witness :
  exists output,
    In (Completed "create_recommendations_node" output)
      (events (session (Stub.env Models.urgent [])
                 (Stub.input "chest pain") "no"))
    /\ urgent_case_detected output = false.
Proof.
  assert (H : exists output,
             In (Completed "create_recommendations_node" output)
               (events (session (Stub.env Models.urgent [])
                          (Stub.input "chest pain") "no")))
    by (vm_compute; eexists; do 4 right; left; reflexivity).
  destruct H as (output & H). exists output. split; [exact H|].
  exact (proj2 (urgent_case_never_detected (Stub.env Models.urgent [])
                  (Stub.input "chest pain") "no" output H)).
Defined.

(** X17.  The graph has no cycle: from a node, a call to [stream] yields
    at most as many events as there are nodes on the longest path from it
    to the end (six from the first node), and this never exceeds the
    default recursion limit; with that many steps allowed, the call never
    ends by the recursion limit. *)
Theorem run_within_limit env fuel resume name body state :
  Dict.lookup (nodes env) name = Some body ->
  Dict.get steps_left name 0 <= fuel ->
  length (events (run env fuel resume name state))
  <= Dict.get steps_left name 0
  /\ Dict.get steps_left name 0 <= 6
  /\ 6 <= recursion_limit
  /\ state_of (run env fuel resume name state) <> Failed GraphRecursionError.
Proof.
  intros Hlk Hle.
  destruct (run_bounded env fuel resume name body state Hlk Hle) as (H1 & H2).
  repeat split; auto.
  - destruct (node_names env name body Hlk)
      as [(-> & _) | [(-> & _) | [(-> & _) | [(-> & _) | [(-> & _)
          | (-> & _)]]]]]; cbn; lia.
  - unfold recursion_limit. lia.
Qed.

Lemma run_within_limit_witness :
  state_of (run (Stub.env Models.low []) 6 None "collect_patient_info"
              (initial_state (Stub.input "headache")))
  <> Failed GraphRecursionError.
Proof.
  apply (run_within_limit (Stub.env Models.low []) 6 None
           "collect_patient_info" collect_patient_info
           (initial_state (Stub.input "headache")) eq_refl (le_n 6)).
Defined.

(** X18.  A session on non-empty symptoms ends by the follow-up of the
    recommendation.  The analysis step yields an analysis; when the
    recommendation tool gives a follow-up for it, the session finishes: the
    state holds that recommendation, the medical history is the patient's
    answer under the rule of the history step, and exactly one file is
    written, the report, under the name built from the symptoms.  When the
    tool gives no follow-up the session ends with a type error raised by
    the report, and no file is written. *)
Theorem session_follow_up env input user_input :
  reported_symptoms input <> "" ->
  let r := session env input user_input in
  exists a update,
    In (Completed "analyze_symptoms_node" update) (events r)
    /\ symptom_analysis update = Some (analysis_dict a)
    /\ match Models.follow_up (create_recommendations env a) with
       | Some _ =>
           state_of r = Finished
           /\ recommendations (values r)
              = Some (recommendations_dict (create_recommendations env a))
           /\ medical_history (values r) = Some (history_rule user_input)
           /\ exists text,
                files r
                = [(report_path
                      (report_filename (strftime_filename (now_filename env))
                         (reported_symptoms input)), text)]
                /\ final_report (values r) = Some text
       | None => state_of r = Failed TypeError /\ files r = []
       end.
Proof.
  intros Hs r. subst r. unfold session.
  destruct (stream_start_suspended env input Hs)
    as (a & state & u1 & u2 & payload & Hst & Hu2 & Ha & Hu & He & Hsym).
  rewrite Hst, resume_when_pending_record. clear Hst.
  pose proof (resumed_follow_up env state a user_input Ha Hu He) as Hr.
  pose proof (run_files env recursion_limit (Some user_input)
                "collect_medical_history" (collect_medical_history env)
                state eq_refl) as (Hf1 & Hf2).
  set (second := run env recursion_limit (Some user_input)
                   "collect_medical_history" state) in *.
  clearbody second.
  exists a, u2. split; [|split; [exact Hu2|]].
  { cbn [events]. apply in_or_app. left. simpl. auto. }
  cbn [state_of values files].
  destruct (Models.follow_up (create_recommendations env a)).
  - destruct Hr as (H1 & H2 & H3 & H4).
    split; [exact H1|]. split; [exact H2|]. split; [exact H3|].
    destruct (Hf1 H1) as (text & Hf & Hfin & _).
    exists text. split; [|exact Hfin].
    rewrite Hf, H4, Hsym. reflexivity.
  - split; [exact Hr|]. apply Hf2. rewrite Hr. discriminate.
Qed.

Lemma session_follow_up_witness :
  state_of
    (session
       {| tool_enabled_llm := fun _ => [];
          analyze_symptoms := fun _ => Stub.analysis Models.low;
          tavily_search := fun _ => "Search results: none";
          create_recommendations :=
            fun _ =>
              {| Models.immediate_actions := ["Rest"];
                 Models.general_care := [];
                 Models.when_to_seek_help := "If it gets worse";
                 Models.follow_up := None |};
          create_escalation_advice := fun _ _ => Stub.escalation;
          repr_str := Stub.quote;
          upper := Stub.ascii_upper;
          now_report := Stub.clock;
          now_filename := Stub.clock |}
       (Stub.input "headache") "no")
  = Failed TypeError.
Proof.
  match goal with
  | |- state_of (session ?env ?input ?v) = _ =>
      assert (H : reported_symptoms input <> "") by (simpl; discriminate);
      destruct (session_follow_up env input v H) as (a & update & _ & _ & Hm)
  end.
  exact (proj1 Hm).
Defined.


(** ** The symptom part of the report file name *)

Lemma forallb_str_impl (p q : ascii -> bool) s :
  (forall c, p c = true -> q c = true) ->
  PyStr.forallb_str p s = true -> PyStr.forallb_str q s = true.
Proof.
  intros Hpq. induction s as [|c r IH]; simpl; auto.
  intros H. apply andb_true_iff in H as [H1 H2].
  rewrite (Hpq c H1). simpl. auto.
Qed.

Lemma filter_str_forallb p s :
  PyStr.forallb_str p (PyStr.filter_str p s) = true.
Proof.
  induction s as [|c r IH]; simpl; auto.
  destruct (p c) eqn:E; simpl; [rewrite E|]; auto.
Qed.

Lemma filter_str_all p s :
  PyStr.forallb_str p s = true -> PyStr.filter_str p s = s.
Proof.
  induction s as [|c r IH]; simpl; auto.
  intros H. apply andb_true_iff in H as [H1 H2]. rewrite H1.
  now rewrite IH.
Qed.

Lemma filter_str_length p s :
  String.length (PyStr.filter_str p s) <= String.length s.
Proof.
  induction s as [|c r IH]; simpl; auto.
  destruct (p c); simpl; lia.
Qed.

Lemma sub_runs_length s :
  String.length (Re.sub_runs s) <= String.length s
  /\ String.length (Re.in_run s) <= String.length s.
Proof.
  induction s as [|c r [IH1 IH2]]; simpl; auto.
  destruct (Re.sep_char c); simpl; lia.
Qed.

Lemma is_word_char c :
  PyStr.is_word c = true ->
  Re.sep_char c = false /\ PyStr.isspace c = false
  /\ c <> "/"%char /\ c <> ascii_of_nat 92 /\ c <> "."%char.
Proof.
  destruct c as [[] [] [] [] [] [] [] []]; vm_compute; intros H;
    try discriminate H; repeat split; discriminate.
Qed.

Lemma kept_not_sep_is_word c :
  Re.keep_char c = true -> Re.sep_char c = false -> PyStr.is_word c = true.
Proof.
  unfold Re.keep_char, Re.sep_char.
  destruct (PyStr.is_word c), (PyStr.isspace c), (Ascii.eqb c "-");
    simpl; congruence.
Qed.

Lemma sub_runs_word s :
  PyStr.forallb_str Re.keep_char s = true ->
  PyStr.forallb_str PyStr.is_word (Re.sub_runs s) = true
  /\ PyStr.forallb_str PyStr.is_word (Re.in_run s) = true.
Proof.
  induction s as [|c r IH]; simpl; auto.
  intros H. apply andb_true_iff in H as [H1 H2].
  destruct (IH H2) as [IH1 IH2].
  destruct (Re.sep_char c) eqn:E; simpl.
  - split; [exact IH2 | exact IH2].
  - rewrite (kept_not_sep_is_word c H1 E). simpl. split; exact IH1.
Qed.

Lemma sub_runs_no_sep s :
  PyStr.forallb_str PyStr.is_word s = true -> Re.sub_runs s = s.
Proof.
  induction s as [|c r IH]; simpl; auto.
  intros H. apply andb_true_iff in H as [H1 H2].
  destruct (is_word_char c H1) as (E & _). rewrite E. now rewrite IH.
Qed.

Lemma symptom_preview_word symptoms :
  PyStr.forallb_str PyStr.is_word (symptom_preview symptoms) = true.
Proof.
  unfold symptom_preview, Re.sub_remove.
  apply sub_runs_word, filter_str_forallb.
Qed.

Lemma symptom_preview_length symptoms :
  String.length (symptom_preview symptoms) <= 30.
Proof.
  unfold symptom_preview, Re.sub_remove.
  pose proof (proj1 (sub_runs_length
                       (PyStr.filter_str Re.keep_char
                          (PyStr.slice_to 30 symptoms)))) as H1.
  pose proof (filter_str_length Re.keep_char (PyStr.slice_to 30 symptoms))
    as H2.
  pose proof (slice_to_length 30 symptoms) as H3. lia.
Qed.

Lemma forallb_str_In p s :
  PyStr.forallb_str p s = true ->
  forall c, In c (list_ascii_of_string s) -> p c = true.
Proof.
  induction s as [|c r IH]; simpl; [tauto|].
  intros H. apply andb_true_iff in H as [H1 H2].
  intros x [<- | Hx]; auto.
Qed.

(** X19.  The symptom part of the report file name is safe and stable:
    whatever the symptoms, it has at most 30 characters, each of them a
    word character (a letter, a digit or the underscore), so that it holds
    no white space, hyphen, dot, slash or backslash and the report is
    always written directly in the report directory; cleaning a cleaned
    name changes nothing. *)
Theorem symptom_preview_safe symptoms :
  String.length (symptom_preview symptoms) <= 30
  /\ (forall c,
        In c (list_ascii_of_string (symptom_preview symptoms)) ->
        PyStr.is_word c = true
        /\ PyStr.isspace c = false
        /\ c <> "-"%char /\ c <> "/"%char /\ c <> ascii_of_nat 92
        /\ c <> "."%char)
  /\ symptom_preview (symptom_preview symptoms) = symptom_preview symptoms.
Proof.
  pose proof (symptom_preview_word symptoms) as Hw.
  pose proof (symptom_preview_length symptoms) as Hl.
  split; [exact Hl|]. split.
  - intros c Hc. pose proof (forallb_str_In _ _ Hw c Hc) as Hc'.
    destruct (is_word_char c Hc') as (Hsep & Hsp & H1 & H2 & H3).
    repeat split; auto.
    intros ->. discriminate Hsep.
  - unfold symptom_preview at 1. unfold Re.sub_remove.
    rewrite (slice_to_all 30 _ Hl).
    rewrite filter_str_all.
    + apply sub_runs_no_sep, Hw.
    + apply (forallb_str_impl PyStr.is_word); [|exact Hw].
      intros c Hc. unfold Re.keep_char. now rewrite Hc.
Qed.

(** ** The first call of the command-line driver *)

Lemma strip_nonempty symptoms :
  PyStr.strip symptoms <> "" -> symptoms <> "".
Proof. intros H ->. now apply H. Qed.

Lemma analyze_symptoms_node_message env state resume :
  get_or (symptoms state) "" <> "" ->
  exists a notes,
    analyze_symptoms_node env state resume
    = Return
        {| messages :=
             [AIMessage
                ("Intelligent symptom analysis completed. Urgency level: "
                 ++ Models.urgency_str (Models.urgency_level a))];
           symptoms := None; medical_history := None;
           symptom_analysis := Some (analysis_dict a);
           medical_research := Some notes;
           recommendations := None; escalation_advice := None;
           urgency_level :=
             Some (Models.urgency_str (Models.urgency_level a));
           final_report := None; report_filepath := None |} [].
Proof.
  intros H. unfold analyze_symptoms_node.
  destruct (get_or (symptoms state) "") as [|c s]; [contradiction|].
  cbn [PyStr.truthy negb].
  eexists. eexists. reflexivity.
Qed.

Lemma run_main_start env fuel symptoms_ :
  symptoms_ <> "" ->
  exists a notes payload,
    let u1 :=
      {| messages := [AIMessage "Patient information collected successfully"];
         symptoms := Some symptoms_;
         medical_history := Some "No medical history provided";
         symptom_analysis := None; medical_research := None;
         recommendations := None; escalation_advice := None;
         urgency_level := None; final_report := None;
         report_filepath := None |} in
    let u2 :=
      {| messages :=
           [AIMessage
              ("Intelligent symptom analysis completed. Urgency level: "
               ++ Models.urgency_str (Models.urgency_level a))];
         symptoms := None; medical_history := None;
         symptom_analysis := Some (analysis_dict a);
         medical_research := Some notes;
         recommendations := None; escalation_advice := None;
         urgency_level := Some (Models.urgency_str (Models.urgency_level a));
         final_report := None; report_filepath := None |} in
    let st0 :=
      initial_state
        {| input_messages := [HumanMessage symptoms_];
           input_symptoms := Some symptoms_;
           input_medical_history := Some "No medical history provided" |} in
    run env (S (S (S fuel))) None "collect_patient_info" st0
    = {| events :=
           [Completed "collect_patient_info" u1;
            Completed "analyze_symptoms_node" u2;
            Interrupted "collect_medical_history" payload];
         files := [];
         values := merge (merge st0 u1) u2;
         state_of := Pending "collect_medical_history" |}.
Proof.
  intros Hs.
  set (st0 := initial_state
                {| input_messages := [HumanMessage symptoms_];
                   input_symptoms := Some symptoms_;
                   input_medical_history :=
                     Some "No medical history provided" |}).
  set (u1 := {| messages :=
                  [AIMessage "Patient information collected successfully"];
                symptoms := Some symptoms_;
                medical_history := Some "No medical history provided";
                symptom_analysis := None; medical_research := None;
                recommendations := None; escalation_advice := None;
                urgency_level := None; final_report := None;
                report_filepath := None |}).
  assert (H1 : collect_patient_info st0 None = Return u1 []) by reflexivity.
  destruct (analyze_symptoms_node_message env (merge st0 u1) None Hs)
    as (a & notes & H2).
  match type of H2 with _ = Return ?u _ => set (u2 := u) in * end.
  destruct (collect_medical_history_first_entry env (merge (merge st0 u1) u2)
              a eq_refl) as (payload & H3).
  exists a, notes, payload. cbv zeta. fold st0 u1 u2.
  rewrite (run_return env _ None "collect_patient_info" collect_patient_info
             st0 u1 [] eq_refl eq_refl H1 "analyze_symptoms_node" eq_refl).
  rewrite (run_return env _ None "analyze_symptoms_node"
             (analyze_symptoms_node env) (merge st0 u1) u2 []
             eq_refl eq_refl H2 "collect_medical_history" eq_refl).
  rewrite (run_interrupt env fuel None "collect_medical_history"
             (collect_medical_history env) (merge (merge st0 u1) u2) payload
             eq_refl eq_refl H3).
  reflexivity.
Qed.

(** X20.  The command-line driver always reaches the question about the
    medical history.  Blank symptoms stop it before the graph is called;
    otherwise its first call to [stream] yields the updates of the first
    two nodes and the interrupt, writes nothing, and leaves
    [collect_medical_history] pending with the symptoms as typed and the
    default medical history in the state.  The branches of the first two
    nodes for missing patient information and missing symptoms are never
    taken from the driver. *)
Theorem main_start_suspends env symptoms_ :
  match main_start env symptoms_ with
  | None => PyStr.strip symptoms_ = ""
  | Some first =>
      PyStr.strip symptoms_ <> ""
      /\ state_of first = Pending "collect_medical_history"
      /\ steps first
         = [Ran "collect_patient_info"; Ran "analyze_symptoms_node";
            Suspended "collect_medical_history"]
      /\ files first = []
      /\ symptoms (values first) = Some symptoms_
      /\ medical_history (values first) = Some "No medical history provided"
      /\ (forall node update,
            In (Completed node update) (events first) ->
            messages update <> [AIMessage "No patient information found"]
            /\ messages update
               <> [AIMessage "No symptoms provided for analysis"])
  end.
Proof.
  unfold main_start.
  destruct (PyStr.strip symptoms_) as [|c r] eqn:E; cbn [PyStr.truthy negb].
  - reflexivity.
  - assert (Hs : symptoms_ <> "").
    { apply strip_nonempty. rewrite E. discriminate. }
    rewrite stream_start_run.
    destruct (run_main_start env 22 symptoms_ Hs) as (a & notes & payload & H).
    cbv zeta in H.
    change (run env (S (S (S 22)))) with (run env recursion_limit) in H.
    rewrite H. clear H.
    split; [discriminate|]. split; [reflexivity|]. split; [reflexivity|].
    split; [reflexivity|]. split; [reflexivity|]. split; [reflexivity|].
    intros node update [Hin | [Hin | [Hin | []]]]; inversion Hin; subst;
      cbn [messages]; split; discriminate.
Qed.


(** ** The escalation step on any thread *)






























(** ** The report ends the call, not the thread *)








